(** * GoHighLevel -> CallTools contact sync: a shallow embedding

    The development follows the TypeScript sources:
    - [src/services/contactSyncService.ts]  (module [Ledger], section [Service])
    - [src/clients/calltools.ts]            (module [CallTools])
    - [src/clients/gohighlevel.ts]          (section [Service], the CRM reads)
    - [src/services/webhookVerification.ts] (module [Verification])
    - [src/endpoints/webhook/ghlWebhook.ts], [ghlWorkflow.ts] (section [Endpoints])

    Asynchronous code is sequential inside one request, so every [await] is
    a plain step of a state-and-exception monad over the world (ledger
    table, dialer server, log of client calls, clock reads). *)

From Stdlib Require Import ZArith String Ascii Bool Lia.
From stdpp Require Import gmap strings list pretty.

Local Open Scope string_scope.

(** ** JavaScript string primitives used by the sources *)

Module JS.

(** A JavaScript string is a sequence of UTF-16 code units.  The strings
    of this development are those whose code units are below U+0100, one
    [ascii] per code unit; [units] gives the code units. *)
Definition units (s : string) : list N :=
  List.map N_of_ascii (list_ascii_of_string s).

(** [c.toLowerCase()] on one code unit below U+0100: the upper-case
    letters are A-Z, U+00C0-U+00D6 and U+00D8-U+00DE, each 32 below its
    lower-case letter. *)
Definition lower_ascii (c : ascii) : ascii :=
  let n := nat_of_ascii c in
  if ((65 <=? n)%nat && (n <=? 90)%nat)
     || ((192 <=? n)%nat && (n <=? 214)%nat)
     || ((216 <=? n)%nat && (n <=? 222)%nat)
  then ascii_of_nat (n + 32) else c.

(** The character class [\s] of a regular expression, on one code unit:
    the WhiteSpace and LineTerminator characters of ECMAScript (TAB, LF,
    VT, FF, CR, SP, NBSP, U+1680, U+2000-U+200A, LS, PS, U+202F, U+205F,
    U+3000, U+FEFF). *)
Definition is_space (u : N) : bool :=
  ((9 <=? u)%N && (u <=? 13)%N) || (u =? 32)%N || (u =? 160)%N
  || (u =? 5760)%N || ((8192 <=? u)%N && (u <=? 8202)%N)
  || (u =? 8232)%N || (u =? 8233)%N || (u =? 8239)%N || (u =? 8287)%N
  || (u =? 12288)%N || (u =? 65279)%N.

(** [s.toLowerCase()]. *)
Fixpoint toLowerCase (s : string) : string :=
  match s with
  | EmptyString => EmptyString
  | String c s' => String (lower_ascii c) (toLowerCase s')
  end.

(** [hay.startsWith(needle)]. *)
Definition startsWith (hay needle : string) : bool := String.prefix needle hay.

(** [hay.includes(needle)]. *)
Fixpoint includes (hay needle : string) : bool :=
  startsWith hay needle
  || match hay with
     | EmptyString => false
     | String _ hay' => includes hay' needle
     end.

(** [s.split(sep)] for a one-character separator. *)
Fixpoint split_go (sep : ascii) (cur : string) (s : string) : list string :=
  match s with
  | EmptyString => [cur]
  | String c s' =>
      if Ascii.eqb c sep then cur :: split_go sep EmptyString s'
      else split_go sep (cur ++ String c EmptyString) s'
  end.

Definition split (s : string) (sep : ascii) : list string :=
  split_go sep EmptyString s.

(** [arr.some(p)]. *)
Definition some {A} (p : A -> bool) (arr : list A) : bool := existsb p arr.

(** Truthiness of a [string | null | undefined] value: only a non-empty
    string is truthy. *)
Definition truthy (v : option string) : bool :=
  match v with
  | Some s => negb (String.eqb s "")
  | None => false
  end.

(** [v || null] on a [string | null | undefined]. *)
Definition or_null (v : option string) : option string :=
  if truthy v then v else None.

(** [v || d] with a string default. *)
Definition or_default (v : option string) (d : string) : string :=
  match v with
  | Some s => if String.eqb s "" then d else s
  | None => d
  end.

(** A value of type [number] where the sources compute with one: an
    integer (a count of milliseconds), [NaN], or an infinity. *)
Inductive number : Type :=
| Num (n : Z)
| NaN
| Infinity (negative : bool).

(** [a - b] for an integer [a]. *)
Definition minus (a : Z) (b : number) : number :=
  match b with
  | Num n => Num (a - n)
  | NaN => NaN
  | Infinity negative => Infinity (negb negative)
  end.

(** [a < b] and [a > b] for an integer [b]: every comparison with [NaN]
    is false. *)
Definition lt (a : number) (b : Z) : bool :=
  match a with
  | Num n => (n <? b)%Z
  | NaN => false
  | Infinity negative => negative
  end.

Definition gt (a : number) (b : Z) : bool :=
  match a with
  | Num n => (n >? b)%Z
  | NaN => false
  | Infinity negative => negb negative
  end.

End JS.

(** ** Tag classification (contactSyncService.ts, syncSingleContact;
       the same predicates filter the batch in gohighlevel.ts) *)

Definition customer_tag (tag : string) : bool :=
  JS.includes tag "customer"
  || JS.includes tag "client"
  || JS.includes tag "won"
  || JS.includes tag "purchased".

Definition cold_tag (tag : string) : bool :=
  String.eqb tag "cold lead"
  || JS.includes tag "cold"
  || JS.includes tag "new lead"
  || JS.includes tag "prospect".

(** [tags] is already lower-cased by the caller. *)
Definition isCustomer (tags : list string) : bool := JS.some customer_tag tags.
Definition isCold (tags : list string) : bool := JS.some cold_tag tags.


(** ** JSON values, as produced by [JSON.parse] *)

Module Json.

(** Numbers are kept as integers; only their truthiness is observed. *)
#[warnings="-register-all"]
Inductive t : Type :=
| JNull
| JBool (b : bool)
| JNum (n : Z)
| JStr (s : string)
| JArr (items : list t)
| JObj (fields : list (string * t)).

(** A JavaScript value read from a payload: [None] is [undefined]. *)
Definition value : Type := option t.

Definition truthy (v : value) : bool :=
  match v with
  | None | Some JNull => false
  | Some (JBool b) => b
  | Some (JNum n) => negb (n =? 0)%Z
  | Some (JStr s) => negb (String.eqb s "")
  | Some (JArr _) | Some (JObj _) => true
  end.

Fixpoint assoc (k : string) (fields : list (string * t)) : value :=
  match fields with
  | [] => None
  | (k', v) :: rest => if String.eqb k k' then Some v else assoc k rest
  end.

(** [v?.k] on a value that may be [undefined] or [null]; also [v.k] for a
    value that is neither, since primitives and arrays have none of the
    payload keys the handlers read.  ([null.k] raises a TypeError, which
    the handlers below treat apart.) *)
Definition opt_prop (v : value) (k : string) : value :=
  match v with
  | Some (JObj fields) => assoc k fields
  | _ => None
  end.

(** [a || b]. *)
Definition or (a b : value) : value := if truthy a then a else b.

(** A field that the typed code treats as [string | undefined]: the
    payload schemas declare these fields as optional strings. *)
Definition str_field (v : t) (k : string) : option string :=
  match opt_prop (Some v) k with
  | Some (JStr s) => Some s
  | _ => None
  end.

End Json.

(** ** Exceptions *)

(** A thrown value: an [Error] with its message, or anything else. *)
Inductive Thrown : Type :=
| Error (message : string)
| NotAnError.

(** [error instanceof Error ? error.message : 'Unknown error']. *)
Definition error_message_of (e : Thrown) : string :=
  match e with
  | Error m => m
  | NotAnError => "Unknown error"
  end.

(** ** Data of the two remote systems *)

Module GHLContact.
(** gohighlevel.ts, [GHLContact].  [id] is optional here because the
    webhook path of syncSingleContact copies it from [contact_id] of the
    payload, which may be missing. *)
Record t : Type := mk {
  id : option string;
  name : option string;
  firstName : option string;
  lastName : option string;
  email : option string;
  phone : option string;
  tags : option (list string);
}.
End GHLContact.

Module CallToolsContact.
(** The object literal that syncContact builds and posts. *)
Record t : Type := mk {
  first_name : string;
  last_name : string;
  phone_number : string;
  email : string;
  external_id : string;
  bucket_id : string;
}.
End CallToolsContact.

Module CallToolsContactResponse.
(** Only [id] is read by the service. *)
Record t : Type := mk {
  id : string;
  contact : CallToolsContact.t;
}.
End CallToolsContactResponse.

(** ** The Sync Ledger: table [synced_contacts], unique on [ghl_contact_id] *)

Inductive SyncStatus : Type :=
| Status_pending
| Status_synced
| Status_failed
| Status_excluded.

Module SyncedContact.
(** [last_sync_at] holds the clock value whose ISO rendering the code
    stores; an ISO string is never empty, so [x || null] keeps it. *)
Record t : Type := mk {
  ghl_contact_id : string;
  calltools_contact_id : option string;
  first_name : option string;
  last_name : option string;
  phone : option string;
  email : option string;
  sync_status : SyncStatus;
  last_sync_at : option Z;
  error_message : option string;
  is_customer : Z;
}.
End SyncedContact.

Module Updates.
(** [Partial<Pick<SyncedContact, ...>>]: the outer [option] is
    [undefined] (key not given), the inner one is [null]. *)
Record t : Type := mk {
  calltools_contact_id : option (option string);
  first_name : option (option string);
  last_name : option (option string);
  phone : option (option string);
  email : option (option string);
  sync_status : option SyncStatus;
  last_sync_at : option (option Z);
  error_message : option (option string);
}.
End Updates.

Module Ledger.

Abbreviation table := (gmap string SyncedContact.t).

(** SELECT * FROM synced_contacts WHERE ghl_contact_id = ? *)
Definition getSyncedContact (ghlContactId : string) (db : table)
  : option SyncedContact.t :=
  db !! ghlContactId.

(** The row bound by the INSERT branch: every nullable column goes
    through [|| null]. *)
Definition inserted_row (data : SyncedContact.t) : SyncedContact.t :=
  SyncedContact.mk
    (SyncedContact.ghl_contact_id data)
    (JS.or_null (SyncedContact.calltools_contact_id data))
    (JS.or_null (SyncedContact.first_name data))
    (JS.or_null (SyncedContact.last_name data))
    (JS.or_null (SyncedContact.phone data))
    (JS.or_null (SyncedContact.email data))
    (SyncedContact.sync_status data)
    (SyncedContact.last_sync_at data)
    (JS.or_null (SyncedContact.error_message data))
    (SyncedContact.is_customer data).

Definition createOrUpdateSyncRecord (data : SyncedContact.t) (db : table)
  : table :=
  let key := SyncedContact.ghl_contact_id data in
  match getSyncedContact key db with
  | Some _ => <[key := data]> db
  | None => <[key := inserted_row data]> db
  end.

(** [if (updates.f !== undefined) { SET f = ? }] for one column. *)
Definition set_if {A} (u : option A) (old : A) : A :=
  match u with
  | Some v => v
  | None => old
  end.

Definition apply_updates (u : Updates.t) (r : SyncedContact.t)
  : SyncedContact.t :=
  SyncedContact.mk
    (SyncedContact.ghl_contact_id r)
    (set_if (Updates.calltools_contact_id u) (SyncedContact.calltools_contact_id r))
    (set_if (Updates.first_name u) (SyncedContact.first_name r))
    (set_if (Updates.last_name u) (SyncedContact.last_name r))
    (set_if (Updates.phone u) (SyncedContact.phone r))
    (set_if (Updates.email u) (SyncedContact.email r))
    (set_if (Updates.sync_status u) (SyncedContact.sync_status r))
    (set_if (Updates.last_sync_at u) (SyncedContact.last_sync_at r))
    (set_if (Updates.error_message u) (SyncedContact.error_message r))
    (SyncedContact.is_customer r).

(** The record that updateSyncRecord builds when no row exists. *)
Definition fresh_record (ghlContactId : string) (u : Updates.t)
  : SyncedContact.t :=
  SyncedContact.mk
    ghlContactId
    (JS.or_null (mjoin (Updates.calltools_contact_id u)))
    (JS.or_null (mjoin (Updates.first_name u)))
    (JS.or_null (mjoin (Updates.last_name u)))
    (JS.or_null (mjoin (Updates.phone u)))
    (JS.or_null (mjoin (Updates.email u)))
    (default Status_pending (Updates.sync_status u))
    (mjoin (Updates.last_sync_at u))
    (JS.or_null (mjoin (Updates.error_message u)))
    0.

(** With an existing row and no key given, [fields.length === 0] and the
    function returns; [apply_updates] is then the identity. *)
Definition updateSyncRecord (ghlContactId : string) (u : Updates.t)
    (db : table) : table :=
  match getSyncedContact ghlContactId db with
  | None => createOrUpdateSyncRecord (fresh_record ghlContactId u) db
  | Some existing => <[ghlContactId := apply_updates u existing]> db
  end.

Definition set_customer (r : SyncedContact.t) : SyncedContact.t :=
  SyncedContact.mk
    (SyncedContact.ghl_contact_id r)
    (SyncedContact.calltools_contact_id r)
    (SyncedContact.first_name r)
    (SyncedContact.last_name r)
    (SyncedContact.phone r)
    (SyncedContact.email r)
    (SyncedContact.sync_status r)
    (SyncedContact.last_sync_at r)
    (SyncedContact.error_message r)
    1.

(** updateSyncRecord(id, {sync_status: 'excluded'}) followed by
    UPDATE synced_contacts SET is_customer = 1 WHERE ghl_contact_id = ? *)
Definition markAsCustomer (ghlContactId : string) (db : table) : table :=
  let db' :=
    updateSyncRecord ghlContactId
      (Updates.mk None None None None None (Some Status_excluded) None None)
      db in
  alter set_customer ghlContactId db'.

End Ledger.

(** ** The CallTools client (src/clients/calltools.ts) *)

(** One answer of the dialer's REST server to [fetch]: the promise rejects
    (or the body cannot be read), the status is outside 200..299, or the
    call succeeds and the body decodes. *)
Inductive Http (A : Type) : Type :=
| Rejected (e : Thrown)
| NotOk (status : Z) (text : string)
| Ok (body : A).
Arguments Rejected {A} e.
Arguments NotOk {A} status text.
Arguments Ok {A} body.

(** The endpoints the client talks to, over a server state [S]. *)
Record DialerApi (S : Type) : Type := {
  POST_contacts : CallToolsContact.t -> S -> Http CallToolsContactResponse.t * S;
  PUT_contact : string -> CallToolsContact.t -> S -> Http CallToolsContactResponse.t * S;
  (** GET /api/contacts/?phone_number=..., decoded as
      [data.results || data.contacts || []] *)
  GET_contacts_by_phone : string -> S -> Http (list CallToolsContactResponse.t) * S;
  (** PATCH /api/buckets/{bucketId}/ with add_contacts *)
  PATCH_bucket_add : string -> string -> S -> Http unit * S;
  (** GET /api/alltags/?name=..., the ids of [results] *)
  GET_alltags : string -> S -> Http (list Z) * S;
  POST_alltags : string -> S -> Http Z * S;
  (** PATCH /api/alltags/{tagId}/ with add_contacts *)
  PATCH_alltags_add : Z -> string -> S -> Http unit * S;
  (** GET /api/contacts/?external_id=..., decoded as [data.contacts];
      used by the earlier client only *)
  GET_contacts_by_external_id : string -> S -> Http (list CallToolsContactResponse.t) * S;
  (** POST /api/contacts/{id}/tag/; used by the earlier client only *)
  POST_contact_tag : string -> string -> S -> Http unit * S;
}.
Arguments POST_contacts {S}.
Arguments PUT_contact {S}.
Arguments GET_contacts_by_phone {S}.
Arguments PATCH_bucket_add {S}.
Arguments GET_alltags {S}.
Arguments POST_alltags {S}.
Arguments PATCH_alltags_add {S}.
Arguments GET_contacts_by_external_id {S}.
Arguments POST_contact_tag {S}.

(** What ContactSyncService needs from a CallToolsClient.  The lookup
    catches every error and answers [null]; the others may throw. *)
Record CallToolsClient (S : Type) : Type := {
  (** the constructor's check of the API key *)
  construct : option string -> option Thrown;
  getContactByExternalId :
    string -> option string -> S -> option CallToolsContactResponse.t * S;
  createContact :
    CallToolsContact.t -> S -> (Thrown + CallToolsContactResponse.t) * S;
  updateContact :
    string -> CallToolsContact.t -> S -> (Thrown + CallToolsContactResponse.t) * S;
  addContactToBucket : string -> string -> S -> (Thrown + unit) * S;
  addTagToContact : string -> string -> S -> (Thrown + unit) * S;
}.
Arguments construct {S}.
Arguments getContactByExternalId {S}.
Arguments createContact {S}.
Arguments updateContact {S}.
Arguments addContactToBucket {S}.
Arguments addTagToContact {S}.

Module CallTools.
Section Client.
Context {S : Type} (api : DialerApi S).

(** `CallTools API error: ${response.status} - ${errorText}` *)
Definition api_error (status : Z) (text : string) : Thrown :=
Error ("CallTools API error: " ++ pretty status ++ " - " ++ text).

(** A response that must be ok, else the client throws. *)
Definition expect_ok {A} (r : Http A * S) : (Thrown + A) * S :=
match r with
| (Rejected e, s) => (inl e, s)
| (NotOk status text, s) => (inl (api_error status text), s)
| (Ok body, s) => (inr body, s)
end.

Definition constructor (apiKey : option string) : option Thrown :=
if JS.truthy apiKey then None
else Some (Error "CallTools API key is required but was not provided. Check CALLTOOLS_API_KEY environment variable.").

Definition createContact (contact : CallToolsContact.t) (s : S) :=
expect_ok (POST_contacts api contact s).

Definition updateContact (contactId : string) (contact : CallToolsContact.t) (s : S) :=
expect_ok (PUT_contact api contactId contact s).

(** the character class [\s\-\(\)], on one code unit *)
Definition noise_unit (u : N) : bool :=
JS.is_space u || (u =? 45)%N || (u =? 40)%N || (u =? 41)%N.

Definition phone_noise (c : ascii) : bool := noise_unit (N_of_ascii c).

Fixpoint strip_noise (s : string) : string :=
match s with
| EmptyString => EmptyString
| String c s' =>
  if phone_noise c then strip_noise s' else String c (strip_noise s')
end.

(** The source has three cases for a number without a leading plus; the
    last two (eleven digits starting with 1, and anything else) both give
    plus followed by the digits. *)
Definition searchPhone (phoneNumber : string) : string :=
if JS.startsWith phoneNumber "+" then phoneNumber
else
let digitsOnly := strip_noise phoneNumber in
if (String.length digitsOnly =? 10)%nat then "+1" ++ digitsOnly
else "+" ++ digitsOnly.

(** The same computation on the code units of any JavaScript string:
    startsWith('+'), replace(/[\s\-\(\)]/g, ''), length. *)
Definition starts_with_plus (phoneNumber : list N) : bool :=
match phoneNumber with
| u :: _ => (u =? 43)%N
| [] => false
end.

Definition searchPhone_units (phoneNumber : list N) : list N :=
if starts_with_plus phoneNumber then phoneNumber
else
let digitsOnly := List.filter (fun u => negb (noise_unit u)) phoneNumber in
if (length digitsOnly =? 10)%nat then 43%N :: 49%N :: digitsOnly
else 43%N :: digitsOnly.

(** getContactByExternalId(externalId, phoneNumber?): the search is by
phone; without a phone number the answer is [null] and no request is
sent.  Any error is caught and turned into [null]. *)
Definition getContactByExternalId (externalId : string)
(phoneNumber : option string) (s : S)
: option CallToolsContactResponse.t * S :=
if negb (JS.truthy phoneNumber) then (None, s)
else
match GET_contacts_by_phone api (searchPhone (default "" phoneNumber)) s with
| (Ok contacts, s') => (head contacts, s')
| (NotOk _ _, s') => (None, s')
| (Rejected _, s') => (None, s')
end.

Definition addContactToBucket (contactId bucketId : string) (s : S) :=
expect_ok (PATCH_bucket_add api bucketId contactId s).

(** addTagToContact: find or create the tag, then add the contact to it;
the whole body is inside try/catch and nothing is rethrown. *)
Definition addTagToContact (contactId tagName : string) (s : S)
: (Thrown + unit) * S :=
match GET_alltags api tagName s with
| (Ok (tagId :: _), s1) =>
  (inr tt, snd (PATCH_alltags_add api tagId contactId s1))
| (Ok [], s1) =>
  match POST_alltags api tagName s1 with
  | (Ok tagId, s2) => (inr tt, snd (PATCH_alltags_add api tagId contactId s2))
  | (_, s2) => (inr tt, s2)
  end
| (_, s1) => (inr tt, s1)
end.

Definition client : CallToolsClient S :=
Build_CallToolsClient S
constructor getContactByExternalId createContact updateContact
addContactToBucket addTagToContact.

End Client.
End CallTools.

(** The earlier CallToolsClient (src/unnamed/part_000), the one whose
    lookup is by external id.  createContact, updateContact and
    addContactToBucket are as above. *)
Module CallToolsEarlier.
Section Client.
Context {S : Type} (api : DialerApi S).

Definition constructor (apiKey : option string) : option Thrown := None.

(** getContactByExternalId(externalId): the one-argument lookup. *)
Definition getContactByExternalId (externalId : string)
    (phoneNumber : option string) (s : S)
  : option CallToolsContactResponse.t * S :=
  match GET_contacts_by_external_id api externalId s with
  | (Ok contacts, s') => (head contacts, s')
  | (NotOk _ _, s') => (None, s')
  | (Rejected _, s') => (None, s')
  end.

(** addTagToContact: a status that is not ok is only logged; a rejected
    fetch is not caught here. *)
Definition addTagToContact (contactId tagName : string) (s : S)
  : (Thrown + unit) * S :=
  match POST_contact_tag api contactId tagName s with
  | (Rejected e, s') => (inl e, s')
  | (_, s') => (inr tt, s')
  end.

Definition client : CallToolsClient S :=
  Build_CallToolsClient S
    constructor getContactByExternalId (CallTools.createContact api)
    (CallTools.updateContact api) (CallTools.addContactToBucket api)
    addTagToContact.

End Client.
End CallToolsEarlier.

(** ** The world a request runs in *)

(** The client calls the service makes, in order (ghost state). *)
Inductive Call : Type :=
| Call_getContactByExternalId (externalId : string) (phoneNumber : option string)
| Call_createContact (contact : CallToolsContact.t)
| Call_updateContact (contactId : string) (contact : CallToolsContact.t)
| Call_addContactToBucket (contactId bucketId : string)
| Call_addTagToContact (contactId tagName : string).

Definition is_create (c : Call) : bool :=
  match c with
  | Call_createContact _ => true
  | _ => false
  end.

Definition is_update (c : Call) : bool :=
  match c with
  | Call_updateContact _ _ => true
  | _ => false
  end.

Record World (R : Type) : Type := mkWorld {
  db : Ledger.table;        (* the D1 table *)
  remote : R;               (* the dialer server *)
  calls : list Call;        (* client calls made so far *)
  ticks : nat;              (* clock reads made so far *)
}.
Arguments mkWorld {R}.
Arguments db {R}.
Arguments remote {R}.
Arguments calls {R}.
Arguments ticks {R}.

(** What the CRM answers: a page of contacts for (limit, skip), and one
    contact by id; [inl] when the client throws (status not ok, network). *)
Record GHLServer : Type := {
  contacts_page : nat -> nat -> Thrown + list GHLContact.t;
  contact_by_id : string -> Thrown + GHLContact.t;
}.

(** State and exceptions. *)
Definition M (R A : Type) : Type := World R -> (Thrown + A) * World R.

Definition ret {R A} (a : A) : M R A := fun w => (inr a, w).

Definition throw {R A} (e : Thrown) : M R A := fun w => (inl e, w).

Definition bind {R A B} (m : M R A) (k : A -> M R B) : M R B :=
  fun w =>
    match m w with
    | (inr a, w') => k a w'
    | (inl e, w') => (inl e, w')
    end.

(** try { body } catch (error) { handler } *)
Definition try_catch {R A} (body : M R A) (handler : Thrown -> M R A) : M R A :=
  fun w =>
    match body w with
    | (inr a, w') => (inr a, w')
    | (inl e, w') => handler e w'
    end.

Definition lift {R A} (r : Thrown + A) : M R A := fun w => (r, w).

Notation "'let!' x ':=' m 'in' k" := (bind m (fun x => k))
  (at level 10, x name, m at level 100, k at level 200).
Notation "m ';;' k" := (bind m (fun _ => k))
  (at level 100, k at level 200, right associativity).

Inductive Action : Type :=
| Action_synced
| Action_updated
| Action_excluded
| Action_failed.

Module SyncResult.
Record t : Type := mk {
  total_processed : Z;
  synced : Z;
  updated : Z;
  excluded_customers : Z;
  failed : Z;
  bucket_name : string;
  bucket_id : option string;
  errors : list (option string * string);   (* contact_id, error *)
}.

Definition incr_synced (r : t) : t :=
  mk (total_processed r) (synced r + 1) (updated r) (excluded_customers r)
     (failed r) (bucket_name r) (bucket_id r) (errors r).
Definition incr_updated (r : t) : t :=
  mk (total_processed r) (synced r) (updated r + 1) (excluded_customers r)
     (failed r) (bucket_name r) (bucket_id r) (errors r).
Definition incr_excluded_customers (r : t) : t :=
  mk (total_processed r) (synced r) (updated r) (excluded_customers r + 1)
     (failed r) (bucket_name r) (bucket_id r) (errors r).
Definition incr_failed (r : t) : t :=
  mk (total_processed r) (synced r) (updated r) (excluded_customers r)
     (failed r + 1) (bucket_name r) (bucket_id r) (errors r).
Definition push_error (e : option string * string) (r : t) : t :=
  mk (total_processed r) (synced r) (updated r) (excluded_customers r)
     (failed r) (bucket_name r) (bucket_id r) (errors r ++ [e])%list.
Definition set_total_processed (n : Z) (r : t) : t :=
  mk n (synced r) (updated r) (excluded_customers r)
     (failed r) (bucket_name r) (bucket_id r) (errors r).
Definition set_bucket_id (b : option string) (r : t) : t :=
  mk (total_processed r) (synced r) (updated r) (excluded_customers r)
     (failed r) (bucket_name r) b (errors r).
End SyncResult.

Module SingleSync.
(** The object syncSingleContact resolves to. *)
Record t : Type := mk {
  success : bool;
  contact_id : string;
  action : Action;
  bucket_id : option string;
  error : option string;
}.
End SingleSync.

(** ** ContactSyncService (src/services/contactSyncService.ts) *)

Section Service.
Context {R : Type}.
Context (client : CallToolsClient R) (ghl : GHLServer) (clock : nat -> Z).

(** *** World accessors *)

Definition db_write (f : Ledger.table -> Ledger.table) : M R unit :=
  fun w => (inr tt, mkWorld (f (db w)) (remote w) (calls w) (ticks w)).

(** new Date().toISOString() *)
Definition now : M R Z :=
  fun w => (inr (clock (ticks w)), mkWorld (db w) (remote w) (calls w) (S (ticks w))).

(** One call of a client method, logged. *)
Definition remote_call {A} (c : Call) (f : R -> (Thrown + A) * R) : M R A :=
  fun w =>
    let '(r, s') := f (remote w) in
    (r, mkWorld (db w) s' (calls w ++ [c])%list (ticks w)).

(** getSyncedContact: D1 refuses to bind [undefined]. *)
Definition getSyncedContact (ghlContactId : option string)
  : M R (option SyncedContact.t) :=
  fun w =>
    match ghlContactId with
    | Some id => (inr (Ledger.getSyncedContact id (db w)), w)
    | None =>
        (inl (Error "D1_TYPE_ERROR: Type 'undefined' not supported for value 'undefined'"), w)
    end.

Definition updateSyncRecord (ghlContactId : string) (u : Updates.t) : M R unit :=
  db_write (Ledger.updateSyncRecord ghlContactId u).

Definition createOrUpdateSyncRecord (data : SyncedContact.t) : M R unit :=
  db_write (Ledger.createOrUpdateSyncRecord data).

Definition markAsCustomer (ghlContactId : string) : M R unit :=
  db_write (Ledger.markAsCustomer ghlContactId).

(** *** syncContact *)

Definition failed_updates (message : string) : Updates.t :=
  Updates.mk None None None None None
    (Some Status_failed) None (Some (Some message)).

Definition callToolsContact_of (ghlContact : GHLContact.t)
    (id phone bucketId : string) : CallToolsContact.t :=
  CallToolsContact.mk
    (JS.or_default (GHLContact.firstName ghlContact)
       (JS.or_default (GHLContact.name ghlContact) "Unknown"))
    (JS.or_default (GHLContact.lastName ghlContact) "")
    phone
    (JS.or_default (GHLContact.email ghlContact) "")
    id
    bucketId.

(** The two branches of the try block.  The lookup is called with the
    contact id alone, as the source does. *)
Definition sync_to_calltools (id : string) (c : CallToolsContact.t)
    (result : SyncResult.t) (bucketId : string) : M R SyncResult.t :=
  let! existingCallToolsContact :=
    remote_call (Call_getContactByExternalId id None)
      (fun s => let '(r, s') := getContactByExternalId client id None s in
                (inr r, s')) in
  match existingCallToolsContact with
  | Some existing =>
      let eid := CallToolsContactResponse.id existing in
      (remote_call (Call_updateContact eid c) (updateContact client eid c)) ;;
      (if negb (String.eqb bucketId "")
       then remote_call (Call_addContactToBucket eid bucketId)
              (addContactToBucket client eid bucketId)
       else ret tt) ;;
      (remote_call (Call_addTagToContact eid "ACA Cold lead")
         (addTagToContact client eid "ACA Cold lead")) ;;
      let! t := now in
      (updateSyncRecord id
         (Updates.mk
            (Some (Some eid))
            (Some (Some (CallToolsContact.first_name c)))
            (Some (Some (CallToolsContact.last_name c)))
            (Some (Some (CallToolsContact.phone_number c)))
            (Some (Some (CallToolsContact.email c)))
            (Some Status_synced)
            (Some (Some t))
            (Some None))) ;;
      ret (SyncResult.incr_updated result)
  | None =>
      let! createdContact :=
        remote_call (Call_createContact c) (createContact client c) in
      let cid := CallToolsContactResponse.id createdContact in
      (if negb (String.eqb bucketId "")
       then remote_call (Call_addContactToBucket cid bucketId)
              (addContactToBucket client cid bucketId)
       else ret tt) ;;
      (remote_call (Call_addTagToContact cid "ACA Cold lead")
         (addTagToContact client cid "ACA Cold lead")) ;;
      let! t := now in
      (createOrUpdateSyncRecord
         (SyncedContact.mk
            id
            (Some cid)
            (Some (CallToolsContact.first_name c))
            (JS.or_null (Some (CallToolsContact.last_name c)))
            (Some (CallToolsContact.phone_number c))
            (JS.or_null (Some (CallToolsContact.email c)))
            Status_synced
            (Some t)
            None
            0)) ;;
      ret (SyncResult.incr_synced result)
  end.

(** [result] is the caller's mutable object; every path increments one
    counter as its last statement, so returning the new value on normal
    completion and leaving it alone on a throw is what the caller sees. *)
Definition syncContact (ghlContact : GHLContact.t) (result : SyncResult.t)
    (bucketId : string) : M R SyncResult.t :=
  let! existingRecord := getSyncedContact (GHLContact.id ghlContact) in
  let id := default "" (GHLContact.id ghlContact) in
  if match existingRecord with
     | Some r => (SyncedContact.is_customer r =? 1)%Z
     | None => false
     end
  then ret (SyncResult.incr_excluded_customers result)
  else
    let phone := JS.or_default (GHLContact.phone ghlContact) "" in
    if String.eqb phone "" then
      (updateSyncRecord id (failed_updates "No phone number")) ;;
      ret (SyncResult.incr_failed result)
    else
      try_catch
        (sync_to_calltools id (callToolsContact_of ghlContact id phone bucketId)
           result bucketId)
        (fun error =>
           (updateSyncRecord id (failed_updates (error_message_of error))) ;;
           throw error).

(** *** syncSingleContact *)

(** The transformation of the webhook payload into a GHLContact.  The
    contact fields are read as the payload schemas declare them, optional
    strings; a payload that carries another kind of value in one of them
    is outside what [webhook_contact] follows (see [typed_payload]). *)
Definition webhook_tags (d : Json.t) : Thrown + list string :=
  let tags := Json.opt_prop (Some d) "tags" in
  if Json.truthy tags then
    match tags with
    | Some (Json.JStr s) => inr (JS.split s ",")
    | _ => inl (Error "webhookContactData.tags.split is not a function")
    end
  else inr [].

Definition webhook_contact (d : Json.t) : Thrown + GHLContact.t :=
  match webhook_tags d with
  | inl e => inl e
  | inr tags =>
      inr (GHLContact.mk
             (Json.str_field d "contact_id")
             (Json.str_field d "full_name")
             (Json.str_field d "first_name")
             (Json.str_field d "last_name")
             (Json.str_field d "email")
             (Json.str_field d "phone")
             (Some tags))
  end.

Definition resolve_contact (ghlContactId : string)
    (webhookContactData : Json.value) : Thrown + GHLContact.t :=
  match webhookContactData with
  | Some d =>
      if Json.truthy webhookContactData then webhook_contact d
      else contact_by_id ghl ghlContactId
  | None => contact_by_id ghl ghlContactId
  end.

(** Array.isArray(tags) ? tags.map(t => t.toLowerCase()) : [] *)
Definition lowered_tags (ghlContact : GHLContact.t) : list string :=
  match GHLContact.tags ghlContact with
  | Some tags => map JS.toLowerCase tags
  | None => []
  end.

Definition action_of (result : SyncResult.t) : Action :=
  if (0 <? SyncResult.synced result)%Z then Action_synced
  else if (0 <? SyncResult.updated result)%Z then Action_updated
  else Action_failed.

Definition syncSingleContact (ghlContactId : string)
    (webhookContactData : Json.value) : M R SingleSync.t :=
  try_catch
    (let bucketId := "11237" in
     let! ghlContact := lift (resolve_contact ghlContactId webhookContactData) in
     let tags := lowered_tags ghlContact in
     if isCustomer tags then
       (markAsCustomer ghlContactId) ;;
       ret (SingleSync.mk true ghlContactId Action_excluded None None)
     else if negb (isCold tags) then
       ret (SingleSync.mk true ghlContactId Action_excluded None
              (Some "Contact does not have cold lead tag"))
     else
       let result :=
         SyncResult.mk 1 0 0 0 0 "Cold Leads" (Some bucketId) [] in
       let! result := syncContact ghlContact result bucketId in
       ret (SingleSync.mk
              (SyncResult.failed result =? 0)%Z
              ghlContactId
              (action_of result)
              (Some bucketId)
              (snd <$> head (SyncResult.errors result))))
    (fun error =>
       ret (SingleSync.mk false ghlContactId Action_failed None
              (Some (error_message_of error)))).

(** *** syncColdContacts *)

(** gohighlevel.ts, getColdContactsExcludingCustomers: the paging loop
    runs while full pages come back, so it is given fuel. *)
Definition limit : nat := 100.

Fixpoint fetch_all (fuel skip : nat) (allContacts : list GHLContact.t)
  : option (Thrown + list GHLContact.t) :=
  match fuel with
  | O => None
  | S fuel' =>
      match contacts_page ghl limit skip with
      | inl e => Some (inl e)
      | inr page =>
          if (0 <? length page)%nat then
            if (length page =? limit)%nat
            then fetch_all fuel' (skip + limit) (allContacts ++ page)%list
            else Some (inr (allContacts ++ page)%list)
          else Some (inr allContacts)
      end
  end.

Definition cold_filter (contact : GHLContact.t) : bool :=
  let tags := map JS.toLowerCase (default [] (GHLContact.tags contact)) in
  if isCustomer tags then false else isCold tags.

Definition getColdContactsExcludingCustomers (fuel : nat)
  : option (Thrown + list GHLContact.t) :=
  match fetch_all fuel 0 [] with
  | None => None
  | Some (inl e) => Some (inl e)
  | Some (inr allContacts) => Some (inr (filter cold_filter allContacts))
  end.

(** The body of the for loop: a throw of syncContact is caught, counted
    as failed and recorded. *)
Definition sync_one (bucketId : string) (ghlContact : GHLContact.t)
    (result : SyncResult.t) : M R SyncResult.t :=
  try_catch
    (syncContact ghlContact result bucketId)
    (fun error =>
       ret (SyncResult.push_error
              (GHLContact.id ghlContact, error_message_of error)
              (SyncResult.incr_failed result))).

Fixpoint sync_each (bucketId : string) (coldContacts : list GHLContact.t)
    (result : SyncResult.t) : M R SyncResult.t :=
  match coldContacts with
  | [] => ret result
  | ghlContact :: rest =>
      let! result' := sync_one bucketId ghlContact result in
      sync_each bucketId rest result'
  end.

(** [None] only when the paging loop is still running at the end of the
    fuel.  An error of the fetch is rethrown by the outer catch. *)
Definition syncColdContacts (fuel : nat) (w : World R)
  : option ((Thrown + SyncResult.t) * World R) :=
  let result := SyncResult.mk 0 0 0 0 0 "Cold Leads" None [] in
  let bucketId := "11237" in
  let result := SyncResult.set_bucket_id (Some bucketId) result in
  match getColdContactsExcludingCustomers fuel with
  | None => None
  | Some (inl e) => Some (inl e, w)
  | Some (inr coldContacts) =>
      let result :=
        SyncResult.set_total_processed (Z.of_nat (length coldContacts)) result in
      Some (sync_each bucketId coldContacts result w)
  end.

End Service.

(** ** WebhookVerificationService (src/services/webhookVerification.ts) *)

Module Verification.

(** [result |= a.charCodeAt(i) ^ b.charCodeAt(i)] over the common length. *)
Fixpoint xor_fold (a b : string) (result : N) : N :=
  match a, b with
  | String x a', String y b' =>
      xor_fold a' b' (N.lor result (N.lxor (N_of_ascii x) (N_of_ascii y)))
  | _, _ => result
  end.

Definition constantTimeCompare (a b : string) : bool :=
  if negb (String.length a =? String.length b)%nat then false
  else (xor_fold a b 0 =? 0)%N.

Section Hmac.
(** crypto.subtle HMAC-SHA256 of the payload under the key, in
    lower-case hex; [None] when WebCrypto throws. *)
Context (hmac_sha256_hex : string -> string -> option string).

Definition verifySignature (webhookSecret payload : string)
    (signature : option string) : bool :=
  if negb (JS.truthy signature) then false
  else
    match hmac_sha256_hex webhookSecret payload with
    | Some expectedSignature =>
        constantTimeCompare (default "" signature) expectedSignature
    | None => false
    end.
End Hmac.

(** verifyTimestamp(timestamp: number), with [Date.now()] passed in;
    milliseconds. *)
Definition maxAge : Z := 5 * 60 * 1000.

Definition verifyTimestamp (now : Z) (timestamp : JS.number) : bool :=
  let age := JS.minus now timestamp in
  if JS.lt age 0 then false
  else if JS.gt age maxAge then false
  else true.

End Verification.

(** ** The inbound endpoints *)

Module Env.
Record t : Type := mk {
  GHL_WEBHOOK_SECRET : option string;
  GHL_API_KEY : option string;
  CALLTOOLS_API_KEY : option string;
}.
End Env.

Module Request.
Record t : Type := mk {
  rawBody : string;
  x_ghl_signature : option string;    (* the header, when sent *)
}.
End Request.

Module Response.
(** [c.json(body, status)]; [data] is contact_id, action, bucket_id. *)
Record t : Type := mk {
  status : Z;
  success : bool;
  message : option string;
  error : option string;
  data : option (string * Action * option string);
}.
End Response.

Definition action_string (a : Action) : string :=
  match a with
  | Action_synced => "synced"
  | Action_updated => "updated"
  | Action_excluded => "excluded"
  | Action_failed => "failed"
  end.

Section Endpoints.
Context {R : Type}.
Context (client : CallToolsClient R) (ghl : GHLServer) (clock : nat -> Z).
Context (hmac_sha256_hex : string -> string -> option string).
(** [JSON.parse]; [None] when it throws. *)
Context (JSON_parse : string -> option Json.t).

Definition reject (status : Z) (message : string) : Response.t :=
  Response.mk status false (Some message) None None.

(** The signature block shared by both versions of GHLWebhook.handle:
    [Some r] when the request is answered at once. *)
Definition signature_check (env : Env.t) (req : Request.t) : option Response.t :=
  let signature := JS.or_null (Request.x_ghl_signature req) in
  if JS.truthy (Env.GHL_WEBHOOK_SECRET env) then
    if negb (JS.truthy signature) then None   (* warns and proceeds *)
    else
      if Verification.verifySignature hmac_sha256_hex
           (default "" (Env.GHL_WEBHOOK_SECRET env))
           (Request.rawBody req) signature
      then None
      else Some (reject 401 "Invalid webhook signature")
  else None.

(** a.id || a.contactId || a.contact_id || a.contact?.id, for a value
    that is not [null]. *)
Definition webhook_id_chain (v : Json.t) : Json.value :=
  let o := Some v in
  Json.or (Json.opt_prop o "id")
    (Json.or (Json.opt_prop o "contactId")
       (Json.or (Json.opt_prop o "contact_id")
          (Json.opt_prop (Json.opt_prop o "contact") "id"))).

(** contact_id || contactId || id || contact?.id *)
Definition workflow_id_chain (v : Json.t) : Json.value :=
  let o := Some v in
  Json.or (Json.opt_prop o "contact_id")
    (Json.or (Json.opt_prop o "contactId")
       (Json.or (Json.opt_prop o "id")
          (Json.opt_prop (Json.opt_prop o "contact") "id"))).

(** The response built from the result of syncSingleContact. *)
Definition sync_response (suffix : string) (r : SingleSync.t) : Response.t :=
  Response.mk 200
    (SingleSync.success r)
    (Some (if SingleSync.success r
           then "Contact " ++ action_string (SingleSync.action r)
                ++ " successfully" ++ suffix
           else "Failed to sync contact: "
                ++ default "undefined" (SingleSync.error r)))
    None
    (Some (SingleSync.contact_id r, SingleSync.action r, SingleSync.bucket_id r)).

(** new ContactSyncService(...) followed by syncSingleContact; a throw of
    the constructor reaches the handler's catch. *)
Definition run_sync (env : Env.t) (suffix : string) (contactId : string)
    (webhookContactData : Json.value) (w : World R) : Response.t * World R :=
  match construct client (Env.CALLTOOLS_API_KEY env) with
  | Some e => (reject 500 (error_message_of e), w)
  | None =>
      match syncSingleContact client ghl clock contactId webhookContactData w with
      | (inr r, w') => (sync_response suffix r, w')
      | (inl e, w') => (reject 500 (error_message_of e), w')
      end
  end.

(** GHLWebhook.handle (src/endpoints/webhook/ghlWebhook.ts, current
    version).  With [.passthrough()] and optional fields only, the parsed
    [webhook] has the fields of [webhookData], so both halves of the id
    chain read the same value.  The result is [None] when the id found is
    not a string: the model does not follow such an id into the service. *)
Definition GHLWebhook_handle (env : Env.t) (req : Request.t) (w : World R)
  : option (Response.t * World R) :=
  match signature_check env req with
  | Some r => Some (r, w)
  | None =>
      match JSON_parse (Request.rawBody req) with
      | None => Some (reject 400 "Invalid JSON payload", w)
      | Some Json.JNull =>
          Some (reject 500 "Cannot read properties of null (reading 'id')", w)
      | Some webhookData =>
          let contactId :=
            Json.or (webhook_id_chain webhookData) (webhook_id_chain webhookData) in
          if negb (Json.truthy contactId) then
            Some (reject 400 "No contact ID found in webhook payload", w)
          else
            match contactId with
            | Some (Json.JStr id) => Some (run_sync env "" id (Some webhookData) w)
            | _ => None
            end
      end
  end.

(** GHLWorkflow.handle (src/endpoints/webhook/ghlWorkflow.ts): no
    signature, the contact is always fetched from the CRM. *)
Definition GHLWorkflow_handle (env : Env.t) (req : Request.t) (w : World R)
  : option (Response.t * World R) :=
  match JSON_parse (Request.rawBody req) with
  | None => Some (reject 400 "Invalid JSON payload", w)
  | Some Json.JNull =>
      Some (reject 500 "Cannot read properties of null (reading 'contact_id')", w)
  | Some workflowData =>
      let contactId := workflow_id_chain workflowData in
      if negb (Json.truthy contactId) then
        Some (reject 400 "No contact ID found in workflow data", w)
      else if negb (JS.truthy (Env.GHL_API_KEY env)) then
        Some (Response.mk 500 false None
                (Some "GoHighLevel API key not configured") None, w)
      else if negb (JS.truthy (Env.CALLTOOLS_API_KEY env)) then
        Some (Response.mk 500 false None
                (Some "CallTools API key not configured") None, w)
      else
        match contactId with
        | Some (Json.JStr id) => Some (run_sync env " in CallTools" id None w)
        | _ => None
        end
  end.

(** *** The first version of GHLWebhook.handle (strict schema) *)

Definition is_str (v : Json.value) : bool :=
  match v with Some (Json.JStr _) => true | _ => false end.

Definition opt_str (v : Json.value) : bool :=
  match v with None | Some (Json.JStr _) => true | _ => false end.

Definition opt_num (v : Json.value) : bool :=
  match v with None | Some (Json.JNum _) => true | _ => false end.

Definition opt_str_array (v : Json.value) : bool :=
  match v with
  | None => true
  | Some (Json.JArr items) =>
      forallb (fun i => match i with Json.JStr _ => true | _ => false end) items
  | _ => false
  end.

Definition valid_contact (v : Json.value) : bool :=
  match v with
  | None => true
  | Some (Json.JObj _) =>
      is_str (Json.opt_prop v "id")
      && opt_str (Json.opt_prop v "firstName")
      && opt_str (Json.opt_prop v "lastName")
      && opt_str (Json.opt_prop v "name")
      && opt_str (Json.opt_prop v "email")
      && opt_str (Json.opt_prop v "phone")
      && opt_str_array (Json.opt_prop v "tags")
  | _ => false
  end.

(** GHLWebhookSchema.safeParse(webhookData).success *)
Definition GHLWebhookSchema_v1 (v : Json.t) : bool :=
  match v with
  | Json.JObj _ =>
      let o := Some v in
      is_str (Json.opt_prop o "type")
      && is_str (Json.opt_prop o "location_id")
      && is_str (Json.opt_prop o "id")
      && valid_contact (Json.opt_prop o "contact")
      && opt_num (Json.opt_prop o "timestamp")
  | _ => false
  end.

Definition relevantTypes : list string :=
  ["ContactUpdate"; "ContactCreate"; "ContactTagUpdate"].

Definition GHLWebhook_handle_v1 (env : Env.t) (req : Request.t) (w : World R)
  : Response.t * World R :=
  match signature_check env req with
  | Some r => (r, w)
  | None =>
      match JSON_parse (Request.rawBody req) with
      | None => (reject 400 "Invalid JSON payload", w)
      | Some webhookData =>
          if negb (GHLWebhookSchema_v1 webhookData) then
            (reject 400 "Invalid webhook payload format", w)
          else
            let o := Some webhookData in
            let timestamp := Json.opt_prop o "timestamp" in
            let type := default "" (Json.str_field webhookData "type") in
            let id := default "" (Json.str_field webhookData "id") in
            let stale :=
              Json.truthy timestamp
              && JS.truthy (Env.GHL_WEBHOOK_SECRET env)
              && negb (Verification.verifyTimestamp (clock (ticks w))
                         (match timestamp with
                          | Some (Json.JNum n) => JS.Num n
                          | _ => JS.Num 0
                          end)) in
            let w1 :=
              if Json.truthy timestamp && JS.truthy (Env.GHL_WEBHOOK_SECRET env)
              then mkWorld (db w) (remote w) (calls w) (S (ticks w))
              else w in
            if stale then
              (reject 401 "Webhook timestamp is invalid or too old", w1)
            else if negb (existsb (String.eqb type) relevantTypes) then
              (Response.mk 200 true
                 (Some ("Webhook type " ++ type ++ " ignored")) None None, w1)
            else run_sync env "" id None w1
      end
  end.

End Endpoints.

(** ** The webhook router (src/endpoints/webhook/router.ts) *)

Inductive Route : Type :=
| Route_ghl             (* POST /webhook/ghl: the signed path *)
| Route_ghl_workflow.   (* POST /webhook/ghl-workflow *)

Section Router.
Context {R : Type}.
Context (client : CallToolsClient R) (ghl : GHLServer) (clock : nat -> Z).
Context (hmac_sha256_hex : string -> string -> option string).
Context (JSON_parse : string -> option Json.t).

Definition webhookRouter (route : Route) (env : Env.t) (req : Request.t)
    (w : World R) : option (Response.t * World R) :=
  match route with
  | Route_ghl =>
      GHLWebhook_handle client ghl clock hmac_sha256_hex JSON_parse env req w
  | Route_ghl_workflow =>
      GHLWorkflow_handle client ghl clock JSON_parse env req w
  end.

(** The check that precedes the parsing of the body on each route. *)
Definition route_check (route : Route) (env : Env.t) (req : Request.t)
  : option Response.t :=
  match route with
  | Route_ghl => signature_check hmac_sha256_hex env req
  | Route_ghl_workflow => None
  end.

Definition route_id_chain (route : Route) : Json.t -> Json.value :=
  match route with
  | Route_ghl => webhook_id_chain
  | Route_ghl_workflow => workflow_id_chain
  end.

(** The body is not JSON, or it is a JSON value other than null in which
    none of the aliases holds a truthy id. *)
Definition no_contact_id (route : Route) (rawBody : string) : Prop :=
  JSON_parse rawBody = None
  \/ exists v,
      JSON_parse rawBody = Some v
      /\ v <> Json.JNull
      /\ Json.truthy (route_id_chain route v) = false.

End Router.

Definition without_secret (env : Env.t) : Env.t :=
  Env.mk None (Env.GHL_API_KEY env) (Env.CALLTOOLS_API_KEY env).

(** ** A small dialer server and CRM to run the code on *)

Module Sim.

(** An in-memory dialer: contacts get consecutive ids, the phone search
    is by equality, bucket and tag edits always succeed. *)
Record Dialer : Type := mkDialer {
  contacts : list CallToolsContactResponse.t;
  next_id : Z;
  bucket_members : list (string * string);   (* bucket id, contact id *)
  tag_members : list (Z * string);           (* tag id, contact id *)
}.

Definition empty : Dialer := mkDialer [] 1 [] [].

Definition has_phone (p : string) (c : CallToolsContactResponse.t) : bool :=
  String.eqb (CallToolsContact.phone_number (CallToolsContactResponse.contact c)) p.

Definition has_id (i : string) (c : CallToolsContactResponse.t) : bool :=
  String.eqb (CallToolsContactResponse.id c) i.

Definition post_contacts (c : CallToolsContact.t) (s : Dialer)
  : Http CallToolsContactResponse.t * Dialer :=
  let created := CallToolsContactResponse.mk (pretty (next_id s)) c in
  (Ok created,
   mkDialer (contacts s ++ [created])%list (next_id s + 1)
     (bucket_members s) (tag_members s)).

Definition put_contact (i : string) (c : CallToolsContact.t) (s : Dialer)
  : Http CallToolsContactResponse.t * Dialer :=
  if existsb (has_id i) (contacts s) then
    (Ok (CallToolsContactResponse.mk i c),
     mkDialer
       (map (fun old => if has_id i old then CallToolsContactResponse.mk i c else old)
          (contacts s))
       (next_id s) (bucket_members s) (tag_members s))
  else (NotOk 404 "Not found", s).

Definition get_contacts_by_phone (p : string) (s : Dialer)
  : Http (list CallToolsContactResponse.t) * Dialer :=
  (Ok (List.filter (has_phone p) (contacts s)), s).

Definition patch_bucket_add (bucketId contactId : string) (s : Dialer)
  : Http unit * Dialer :=
  (Ok tt,
   mkDialer (contacts s) (next_id s)
     (bucket_members s ++ [(bucketId, contactId)])%list (tag_members s)).

Definition get_alltags (name : string) (s : Dialer) : Http (list Z) * Dialer :=
  (Ok [7%Z], s).

Definition post_alltags (name : string) (s : Dialer) : Http Z * Dialer :=
  (Ok 7%Z, s).

Definition patch_alltags_add (tagId : Z) (contactId : string) (s : Dialer)
  : Http unit * Dialer :=
  (Ok tt,
   mkDialer (contacts s) (next_id s) (bucket_members s)
     (tag_members s ++ [(tagId, contactId)])%list).

Definition has_external_id (i : string) (c : CallToolsContactResponse.t) : bool :=
  String.eqb (CallToolsContact.external_id (CallToolsContactResponse.contact c)) i.

Definition get_contacts_by_external_id (i : string) (s : Dialer)
  : Http (list CallToolsContactResponse.t) * Dialer :=
  (Ok (List.filter (has_external_id i) (contacts s)), s).

Definition post_contact_tag (contactId tagName : string) (s : Dialer)
  : Http unit * Dialer :=
  patch_alltags_add 7 contactId s.

Definition api : DialerApi Dialer := {|
  POST_contacts := post_contacts;
  PUT_contact := put_contact;
  GET_contacts_by_phone := get_contacts_by_phone;
  PATCH_bucket_add := patch_bucket_add;
  GET_alltags := get_alltags;
  POST_alltags := post_alltags;
  PATCH_alltags_add := patch_alltags_add;
  GET_contacts_by_external_id := get_contacts_by_external_id;
  POST_contact_tag := post_contact_tag;
|}.

(** The same server when creating a contact is refused. *)
Definition refusing_api : DialerApi Dialer := {|
  POST_contacts := fun _ s => (NotOk 500 "boom", s);
  PUT_contact := put_contact;
  GET_contacts_by_phone := get_contacts_by_phone;
  PATCH_bucket_add := patch_bucket_add;
  GET_alltags := get_alltags;
  POST_alltags := post_alltags;
  PATCH_alltags_add := patch_alltags_add;
  GET_contacts_by_external_id := get_contacts_by_external_id;
  POST_contact_tag := post_contact_tag;
|}.

(** The earlier client against the same server. *)
Definition earlier_client : CallToolsClient Dialer := CallToolsEarlier.client api.

(** The client of src/clients/calltools.ts against this server. *)
Definition client : CallToolsClient Dialer := CallTools.client api.

(** A CRM that holds the given contacts. *)
Definition has_ghl_id (i : string) (c : GHLContact.t) : bool :=
  match GHLContact.id c with
  | Some j => String.eqb i j
  | None => false
  end.

Definition crm (held : list GHLContact.t) : GHLServer := {|
  contacts_page := fun limit skip => inr (take limit (drop skip held));
  contact_by_id := fun i =>
    match List.find (has_ghl_id i) held with
    | Some c => inr c
    | None => inl (Error "GoHighLevel API error: 404 - Not found")
    end;
|}.

Definition clock (n : nat) : Z := (1700000000000 + Z.of_nat n)%Z.

Definition world0 : World Dialer := mkWorld ∅ empty [] 0.

Definition contact (i : string) (phone : option string) (tags : list string)
  : GHLContact.t :=
  GHLContact.mk (Some i) (Some "Pat Doe") (Some "Pat") (Some "Doe")
    (Some "pat@example.com") phone (Some tags).

(** A ledger row flagged as customer. *)
Definition customer_row (i : string) : SyncedContact.t :=
  SyncedContact.mk i None None None None None Status_excluded None None 1.

(** Stand-ins for the two library functions of the endpoints: the digest
    is a fixed string, and the parser knows the bodies used below. *)
Definition hmac (key payload : string) : option string :=
  Some "0000000000000000000000000000000000000000000000000000000000000000".

Definition quoted (s : string) : string :=
  String (ascii_of_nat 34) s ++ String (ascii_of_nat 34) EmptyString.

Definition member (k v : string) : string := quoted k ++ ":" ++ quoted v.

(** the text of {contact_id: c1, tags: cold lead, phone: +15551234567} *)
Definition cold_body : string :=
  "{" ++ member "contact_id" "c1" ++ "," ++ member "tags" "cold lead"
  ++ "," ++ member "phone" "+15551234567" ++ "}".

Definition cold_json : Json.t :=
  Json.JObj [("contact_id", Json.JStr "c1"); ("tags", Json.JStr "cold lead");
             ("phone", Json.JStr "+15551234567")].

Definition parse (body : string) : option Json.t :=
  if String.eqb body cold_body then Some cold_json
  else if String.eqb body "{}" then Some (Json.JObj [])
  else if String.eqb body "null" then Some Json.JNull
  else None.

Definition env (secret : option string) : Env.t :=
  Env.mk secret (Some "ghl-key") (Some "calltools-key").

(** One cold lead with a phone number, synced once and then again. *)
Definition lead : GHLContact.t := contact "c1" (Some "+15551234567") ["cold lead"].

Definition first_sync :=
  syncSingleContact client (crm [lead]) clock "c1" None world0.

Definition world1 : World Dialer := snd first_sync.

Definition second_sync :=
  syncSingleContact client (crm [lead]) clock "c1" None world1.

Definition world2 : World Dialer := snd second_sync.

(** Contacts carrying an active-client marker. *)
Definition active_alone : GHLContact.t :=
  contact "a1" (Some "+15551230001") ["ACA Active 2025"].
Definition active_and_cold : GHLContact.t :=
  contact "a2" (Some "+15551230002") ["ACA Active 2025"; "cold lead"].
Definition active_and_customer : GHLContact.t :=
  contact "a3" (Some "+15551230003") ["ACA Active 2026"; "customer"].

Definition active_crm : GHLServer :=
  crm [active_alone; active_and_cold; active_and_customer].

(** A contact with a customer tag, reconciled on an empty ledger. *)
Definition customer_sync :=
  syncSingleContact client
    (crm [contact "c9" (Some "+15550000009") ["customer"]])
    clock "c9" None world0.

(** A ledger in which c1 is flagged as customer. *)
Definition flagged_world : World Dialer :=
  mkWorld {[ "c1" := customer_row "c1" ]} empty [] 0.

(** Requests for the signed webhook path. *)
Definition unsigned_request : Request.t := Request.mk cold_body None.
Definition forged_request : Request.t := Request.mk cold_body (Some "ff").
Definition forged_garbage : Request.t := Request.mk "not json" (Some "ff").

(** The same two runs with the earlier client. *)
Definition earlier_first_sync :=
  syncSingleContact earlier_client (crm [lead]) clock "c1" None world0.

Definition earlier_second_sync :=
  syncSingleContact earlier_client (crm [lead]) clock "c1" None
    (snd earlier_first_sync).

Definition synced_row (target : string) (t : Z) : SyncedContact.t :=
  SyncedContact.mk "c1" (Some target) (Some "Pat") (Some "Doe")
    (Some "+15551234567") (Some "pat@example.com") Status_synced (Some t) None 0.

End Sim.

(** ** The operations that write the ledger, and the ledger invariant *)

(** The entry points of ContactSyncService that the endpoints call:
    the two webhook handlers (syncSingleContact), POST /sync/trigger
    (syncColdContacts) and POST /sync/mark-customer (markAsCustomer). *)
Inductive Op : Type :=
| Op_syncSingleContact (ghlContactId : string) (webhookContactData : Json.value)
| Op_syncColdContacts (fuel : nat)
| Op_markAsCustomer (ghlContactId : string).

Definition run_op {R} (client : CallToolsClient R) (ghl : GHLServer)
    (clock : nat -> Z) (op : Op) (w : World R) : option (World R) :=
  match op with
  | Op_syncSingleContact id d =>
      Some (snd (syncSingleContact client ghl clock id d w))
  | Op_syncColdContacts fuel =>
      snd <$> syncColdContacts client ghl clock fuel w
  | Op_markAsCustomer id =>
      Some (snd (markAsCustomer id w))
  end.

(** Worlds reachable from an empty ledger: any operation, against any
    dialer client, CRM and clock, interleaved with changes of the dialer
    made by others. *)
Inductive reachable {R : Type} : World R -> Prop :=
| reachable_init (w : World R) :
    db w = ∅ -> reachable w
| reachable_step client ghl clock op (w w' : World R) :
    reachable w -> run_op client ghl clock op w = Some w' -> reachable w'
| reachable_env (w : World R) (s : R) :
    reachable w -> reachable (mkWorld (db w) s (calls w) (ticks w)).

(** status = synced implies a timestamp and no error. *)
Definition row_ok (r : SyncedContact.t) : Prop :=
  SyncedContact.sync_status r = Status_synced ->
  SyncedContact.last_sync_at r <> None /\ SyncedContact.error_message r = None.

Definition ledger_ok (db : Ledger.table) : Prop :=
  map_Forall (fun _ r => row_ok r) db.

(** The sum of the four outcome counters. *)
Definition counted (r : SyncResult.t) : Z :=
  (SyncResult.synced r + SyncResult.updated r
   + SyncResult.excluded_customers r + SyncResult.failed r)%Z.

(** [r'] is [r] with exactly one of the four counters one higher. *)
Definition exactly_one (r r' : SyncResult.t) : Prop :=
  let d (f : SyncResult.t -> Z) := (f r' - f r)%Z in
  SyncResult.total_processed r' = SyncResult.total_processed r
  /\ ((d SyncResult.synced = 1 /\ d SyncResult.updated = 0
       /\ d SyncResult.excluded_customers = 0 /\ d SyncResult.failed = 0)
      \/ (d SyncResult.synced = 0 /\ d SyncResult.updated = 1
          /\ d SyncResult.excluded_customers = 0 /\ d SyncResult.failed = 0)
      \/ (d SyncResult.synced = 0 /\ d SyncResult.updated = 0
          /\ d SyncResult.excluded_customers = 1 /\ d SyncResult.failed = 0)
      \/ (d SyncResult.synced = 0 /\ d SyncResult.updated = 0
          /\ d SyncResult.excluded_customers = 0 /\ d SyncResult.failed = 1))%Z.

(** Reasoning rules for the monad: a property of the world kept by a
    computation whether it returns or throws, and a property of the value
    it returns. *)
Definition preserves {R A} (P : World R -> Prop) (m : M R A) : Prop :=
  forall w, P w -> P (snd (m w)).

Definition returns {R A} (Q : A -> Prop) (m : M R A) : Prop :=
  forall w, match fst (m w) with inr a => Q a | inl _ => True end.

Definition W_ok {R} (w : World R) : Prop := ledger_ok (db w).

(** ** Further code of the same files *)

(** *** getSyncStats (contactSyncService.ts) *)

Module SyncStats.
Record t : Type := mk {
  total_contacts : Z;
  synced : Z;
  failed : Z;
  excluded_customers : Z;
  pending : Z;
}.
End SyncStats.

Definition status_eqb (a b : SyncStatus) : bool :=
  match a, b with
  | Status_pending, Status_pending
  | Status_synced, Status_synced
  | Status_failed, Status_failed
  | Status_excluded, Status_excluded => true
  | _, _ => false
  end.

Definition has_status (st : SyncStatus) (r : SyncedContact.t) : bool :=
  status_eqb (SyncedContact.sync_status r) st.

Definition flagged_customer (r : SyncedContact.t) : bool :=
  (SyncedContact.is_customer r =? 1)%Z.

(** SUM(CASE WHEN p THEN 1 ELSE 0 END) over the table; COUNT of the rows
    that satisfy [p]. *)
Definition count_rows (p : SyncedContact.t -> bool) (db : Ledger.table) : Z :=
  Z.of_nat (length (List.filter p (map snd (map_to_list db)))).

(** getSyncStats: one aggregate query.  On an empty table the sums are
    NULL and [|| 0] turns them into 0, which is what the counts give. *)
Definition getSyncStats (db : Ledger.table) : SyncStats.t :=
  SyncStats.mk
    (count_rows (fun _ => true) db)
    (count_rows (has_status Status_synced) db)
    (count_rows (has_status Status_failed) db)
    (count_rows flagged_customer db)
    (count_rows (has_status Status_pending) db).

(** *** The other methods of CallToolsClient (src/clients/calltools.ts) *)

Module CallToolsBucket.
Record t : Type := mk {
  id : string;
  name : string;
}.
End CallToolsBucket.

Module BulkResult.
(** The object bulkCreateContacts resolves to. *)
Record t : Type := mk {
  success : Z;
  failed : Z;
  errors : list (CallToolsContact.t * string);
}.
End BulkResult.

Module CallToolsMore.
Section Client.
Context {St : Type} (api : DialerApi St).
(** DELETE /api/contacts/{id}/ *)
Context (DELETE_contact : string -> St -> Http unit * St).
(** GET /api/lists/, decoded as [data.results || []] *)
Context (GET_lists : St -> Http (list CallToolsBucket.t) * St).
(** POST /api/buckets/ with the name *)
Context (POST_buckets : string -> St -> Http CallToolsBucket.t * St).
(** PATCH /api/buckets/{bucketId}/ with remove_contacts *)
Context (PATCH_bucket_remove : string -> string -> St -> Http unit * St).
(** PATCH /api/alltags/{tagId}/ with remove_contacts *)
Context (PATCH_alltags_remove : Z -> string -> St -> Http unit * St).
(** String.prototype.toLowerCase, on bucket names *)
Context (toLowerCase : string -> string).

Definition deleteContact (contactId : string) (s : St) : (Thrown + unit) * St :=
  CallTools.expect_ok (DELETE_contact contactId s).

Definition getBuckets (s : St) : (Thrown + list CallToolsBucket.t) * St :=
  CallTools.expect_ok (GET_lists s).

(** b.name.toLowerCase() === bucketName.toLowerCase() *)
Definition same_bucket_name (bucketName : string) (b : CallToolsBucket.t) : bool :=
  String.eqb (toLowerCase (CallToolsBucket.name b)) (toLowerCase bucketName).

(** getOrCreateBucket: the catch block only logs and rethrows. *)
Definition getOrCreateBucket (bucketName : string) (s : St)
  : (Thrown + string) * St :=
  match getBuckets s with
  | (inl e, s1) => (inl e, s1)
  | (inr buckets, s1) =>
      match List.find (same_bucket_name bucketName) buckets with
      | Some existingBucket => (inr (CallToolsBucket.id existingBucket), s1)
      | None =>
          match CallTools.expect_ok (POST_buckets bucketName s1) with
          | (inl e, s2) => (inl e, s2)
          | (inr newBucket, s2) => (inr (CallToolsBucket.id newBucket), s2)
          end
      end
  end.

Definition removeContactFromBucket (contactId bucketId : string) (s : St)
  : (Thrown + unit) * St :=
  CallTools.expect_ok (PATCH_bucket_remove bucketId contactId s).

(** removeTagFromContact: find the tag, then remove the contact from it; a
    tag that does not exist is not created; nothing is rethrown. *)
Definition removeTagFromContact (contactId tagName : string) (s : St)
  : (Thrown + unit) * St :=
  match GET_alltags api tagName s with
  | (Ok (tagId :: _), s1) =>
      (inr tt, snd (PATCH_alltags_remove tagId contactId s1))
  | (_, s1) => (inr tt, s1)
  end.

(** One batch of bulkCreateContacts.  The requests of a batch are issued
    in array order; the answers are taken in that order here, so only the
    order of [errors] inside a batch is a choice of the model. *)
Fixpoint create_batch (batch : list CallToolsContact.t) (results : BulkResult.t)
    (s : St) : BulkResult.t * St :=
  match batch with
  | [] => (results, s)
  | contact :: rest =>
      match CallTools.createContact api contact s with
      | (inr _, s') =>
          create_batch rest
            (BulkResult.mk (BulkResult.success results + 1)
               (BulkResult.failed results) (BulkResult.errors results))
            s'
      | (inl e, s') =>
          create_batch rest
            (BulkResult.mk (BulkResult.success results)
               (BulkResult.failed results + 1)
               (BulkResult.errors results ++ [(contact, error_message_of e)])%list)
            s'
      end
  end.

Definition batchSize : nat := 10.

(** for (let i = 0; i < contacts.length; i += batchSize), with fuel. *)
Fixpoint bulk_loop (fuel i : nat) (contacts : list CallToolsContact.t)
    (results : BulkResult.t) (s : St) : option (BulkResult.t * St) :=
  match fuel with
  | O => None
  | S fuel' =>
      if (i <? length contacts)%nat then
        let batch := take batchSize (drop i contacts) in
        let '(results', s') := create_batch batch results s in
        bulk_loop fuel' (i + batchSize) contacts results' s'
      else Some (results, s)
  end.

Definition bulkCreateContacts (contacts : list CallToolsContact.t) (s : St)
  : option (BulkResult.t * St) :=
  bulk_loop (S (length contacts)) 0 contacts (BulkResult.mk 0 0 []) s.

End Client.
End CallToolsMore.

(** *** The sync routes (src/endpoints/sync) *)

Module Reply.
(** [c.json(body, status)] of the sync routes, with the payload type of
    [data]. *)
Record t (D : Type) : Type := mk {
  status : Z;
  success : bool;
  message : option string;
  error : option string;
  data : option D;
}.
Arguments mk {D}.
Arguments status {D}.
Arguments success {D}.
Arguments message {D}.
Arguments error {D}.
Arguments data {D}.
End Reply.

Section SyncRoutes.
Context {R : Type}.
Context (client : CallToolsClient R) (ghl : GHLServer) (clock : nat -> Z).

Definition reply_error {D} (text : string) : Reply.t D :=
  Reply.mk 500 false None (Some text) None.

(** SyncTrigger.handle (POST /sync/trigger); [None] only while the paging
    loop of the fetch is still running at the end of the fuel. *)
Definition SyncTrigger_handle (env : Env.t) (fuel : nat) (w : World R)
  : option (Reply.t SyncResult.t * World R) :=
  if negb (JS.truthy (Env.GHL_API_KEY env)) then
    Some (reply_error "GoHighLevel API key not configured", w)
  else if negb (JS.truthy (Env.CALLTOOLS_API_KEY env)) then
    Some (reply_error "CallTools API key not configured", w)
  else
    match construct client (Env.CALLTOOLS_API_KEY env) with
    | Some e => Some (reply_error (error_message_of e), w)
    | None =>
        match syncColdContacts client ghl clock fuel w with
        | None => None
        | Some (inr result, w') =>
            Some (Reply.mk 200 true None None (Some result), w')
        | Some (inl e, w') => Some (reply_error (error_message_of e), w')
        end
    end.

(** The service of SyncStats and MarkCustomer is built with
    [env.CALLTOOLS_API_KEY || '']. *)
Definition key_or_empty (key : option string) : option string :=
  Some (JS.or_default key "").

(** SyncStats.handle (GET /sync/stats) *)
Definition SyncStats_handle (env : Env.t) (w : World R)
  : Reply.t SyncStats.t * World R :=
  match construct client (key_or_empty (Env.CALLTOOLS_API_KEY env)) with
  | Some e => (reply_error (error_message_of e), w)
  | None => (Reply.mk 200 true None None (Some (getSyncStats (db w))), w)
  end.

(** MarkCustomer.handle (POST /sync/mark-customer/:ghl_contact_id) *)
Definition MarkCustomer_handle (env : Env.t) (ghl_contact_id : string)
    (w : World R) : Reply.t unit * World R :=
  match construct client (key_or_empty (Env.CALLTOOLS_API_KEY env)) with
  | Some e => (reply_error (error_message_of e), w)
  | None =>
      match markAsCustomer ghl_contact_id w with
      | (inr _, w') =>
          (Reply.mk 200 true
             (Some "Contact marked as customer and excluded from future syncs")
             None None, w')
      | (inl e, w') => (reply_error (error_message_of e), w')
      end
  end.

End SyncRoutes.

(** *** More of the simulated world *)

Module SimMore.

(** A CRM whose every page is full, whatever the offset. *)
Definition endless_crm : GHLServer := {|
  contacts_page := fun limit skip => inr (replicate limit Sim.lead);
  contact_by_id := fun _ => inl (Error "GoHighLevel API error: 404 - Not found");
|}.

(** A second cold lead. *)
Definition prospect : GHLContact.t :=
  Sim.contact "c2" (Some "+15557654321") ["prospect"].

(** A dialer that lists two buckets and refuses to create any. *)
Definition lists_server (s : unit) : Http (list CallToolsBucket.t) * unit :=
  (Ok [CallToolsBucket.mk "7" "Warm"; CallToolsBucket.mk "11237" "Cold Leads"], s).

Definition no_new_bucket (bucketName : string) (s : unit)
  : Http CallToolsBucket.t * unit :=
  (NotOk 403 "Forbidden", s).

(** The server of [Sim.api] when the tag endpoints are down. *)
Definition tagless_api : DialerApi Sim.Dialer := {|
  POST_contacts := Sim.post_contacts;
  PUT_contact := Sim.put_contact;
  GET_contacts_by_phone := Sim.get_contacts_by_phone;
  PATCH_bucket_add := Sim.patch_bucket_add;
  GET_alltags := fun _ s => (NotOk 500 "tags down", s);
  POST_alltags := fun _ s => (NotOk 500 "tags down", s);
  PATCH_alltags_add := fun _ _ s => (NotOk 500 "tags down", s);
  GET_contacts_by_external_id := Sim.get_contacts_by_external_id;
  POST_contact_tag := Sim.post_contact_tag;
|}.

(** The text of {id: c1, tags: cold lead}: the contact id under the alias
    [id], and no phone number. *)
Definition alias_body : string :=
  "{" ++ Sim.member "id" "c1" ++ "," ++ Sim.member "tags" "cold lead" ++ "}".

Definition alias_json : Json.t :=
  Json.JObj [("id", Json.JStr "c1"); ("tags", Json.JStr "cold lead")].

Definition parse_alias (body : string) : option Json.t :=
  if String.eqb body alias_body then Some alias_json else Sim.parse body.

(** The record syncSingleContact builds from [Sim.cold_json], and what the
    dialer of [Sim] answers to its creation. *)
Definition cold_contact : GHLContact.t :=
  GHLContact.mk (Some "c1") None None None None (Some "+15551234567")
    (Some ["cold lead"]).

Definition cold_created : CallToolsContactResponse.t :=
  CallToolsContactResponse.mk "1"
    (callToolsContact_of cold_contact "c1" "+15551234567" "11237").

(** A CRM that cannot be reached. *)
Definition failing_crm : GHLServer := {|
  contacts_page := fun _ _ => inl (Error "GoHighLevel API error: 500 - down");
  contact_by_id := fun _ => inl (Error "GoHighLevel API error: 500 - down");
|}.

(** A payload of the first webhook version. *)
Definition v1_json (type : string) (timestamp : option Z) : Json.t :=
  Json.JObj
    ([("type", Json.JStr type); ("location_id", Json.JStr "loc1");
      ("id", Json.JStr "c1")]
     ++ match timestamp with
        | Some t => [("timestamp", Json.JNum t)]
        | None => []
        end)%list.

(** A parser that reads every body as a ContactCreate event stamped one
    millisecond after the epoch. *)
Definition parse_old (body : string) : option Json.t :=
  Some (v1_json "ContactCreate" (Some 1%Z)).

End SimMore.

(** A property of the ledger alone, as a property of the world. *)
Definition on_db {R} (Q : Ledger.table -> Prop) (w : World R) : Prop := Q (db w).

(** The row of [k] is there and flagged as customer. *)
Definition flagged_in (k : string) (db : Ledger.table) : Prop :=
  exists r, db !! k = Some r /\ SyncedContact.is_customer r = 1%Z.

(** The customer flag and the status excluded go together. *)
Definition flag_ok (r : SyncedContact.t) : Prop :=
  SyncedContact.is_customer r = 1%Z
  <-> SyncedContact.sync_status r = Status_excluded.

Definition flags_ok (db : Ledger.table) : Prop :=
  map_Forall (fun _ r => flag_ok r) db.

(** The row of [k], if there is one, is not flagged as customer. *)
Definition unflagged (k : string) (db : Ledger.table) : Prop :=
  forall r, db !! k = Some r -> SyncedContact.is_customer r <> 1%Z.

(** The payloads that [webhook_contact] reads as syncSingleContact does:
    every contact field the service copies is a string or absent, as the
    payload schemas declare them.  (Any other value is kept by the service
    and read as absent by [Json.str_field].) *)
Definition typed_field (d : Json.t) (key : string) : bool :=
  match Json.opt_prop (Some d) key with
  | None | Some (Json.JStr _) => true
  | Some _ => false
  end.

Definition typed_payload (webhookContactData : Json.value) : bool :=
  match webhookContactData with
  | None => true
  | Some d =>
      forallb (typed_field d)
        ["contact_id"; "full_name"; "first_name"; "last_name"; "email"; "phone"]
  end.

(** A contact id as the handlers follow it: a string, or a value that is
    falsy and so answered 400. *)
Definition string_or_falsy (v : Json.value) : bool :=
  match v with
  | Some (Json.JStr _) => true
  | _ => negb (Json.truthy v)
  end.

(** The parsed bodies whose handling the model follows to the answer: the
    contact id found is a string or falsy, and on the signed route, where
    the body is handed to syncSingleContact, it is a typed payload. *)
Definition modelled_body (route : Route) (v : Json.t) : bool :=
  string_or_falsy (route_id_chain route v)
  && match route with
     | Route_ghl => typed_payload (Some v)
     | Route_ghl_workflow => true
     end.

Section AnswerShape.
Context {R : Type}.
Context (client : CallToolsClient R) (ghl : GHLServer) (clock : nat -> Z).

(** What the two webhook routes answer to a request whose body parses to
    [body]: an answer other than 200 comes with the world untouched; an
    answer 200 carries the result of syncSingleContact on the id found in
    the body, with the body as payload on the signed route. *)
Definition answer_shape (route : Route) (body : option Json.t)
    (w : World R) (resp : Response.t) (w' : World R) : Prop :=
  (Response.status resp <> 200%Z ->
   w' = w /\ Response.success resp = false /\ Response.data resp = None)
  /\ (Response.status resp = 200%Z ->
      exists v contactId r,
        body = Some v
        /\ route_id_chain route v = Some (Json.JStr contactId)
        /\ syncSingleContact client ghl clock contactId
             (match route with
              | Route_ghl => Some v
              | Route_ghl_workflow => None
              end) w
           = (inr r, w')
        /\ Response.success resp = SingleSync.success r
        /\ Response.data resp
           = Some (SingleSync.contact_id r, SingleSync.action r,
                   SingleSync.bucket_id r)).

End AnswerShape.

(** * Properties *)

(** ** The ledger primitives and the invariant *)

Section LedgerFacts.
Implicit Types (db : Ledger.table) (r : SyncedContact.t) (u : Updates.t).

Lemma ledger_ok_empty : ledger_ok ∅.
Proof. apply map_Forall_empty. Qed.

Lemma ledger_ok_insert db k r :
  ledger_ok db -> row_ok r -> ledger_ok (<[k := r]> db).
Proof. intros Hdb Hr. apply map_Forall_insert_2; assumption. Qed.

Lemma ledger_ok_lookup db k r :
  ledger_ok db -> db !! k = Some r -> row_ok r.
Proof. intros Hdb Hk. exact (Hdb k r Hk). Qed.

Lemma row_ok_inserted r : row_ok r -> row_ok (Ledger.inserted_row r).
Proof.
  unfold row_ok, Ledger.inserted_row; simpl. intros H Hs.
  destruct (H Hs) as [Ht He]. split; [assumption|].
  rewrite He. reflexivity.
Qed.

Lemma createOrUpdateSyncRecord_ok db r :
  ledger_ok db -> row_ok r -> ledger_ok (Ledger.createOrUpdateSyncRecord r db).
Proof.
  intros Hdb Hr. unfold Ledger.createOrUpdateSyncRecord.
  destruct (Ledger.getSyncedContact _ db).
  - apply ledger_ok_insert; assumption.
  - apply ledger_ok_insert; [assumption | apply row_ok_inserted; assumption].
Qed.

(** An update that sets a status other than synced cannot break a row. *)
Lemma updateSyncRecord_not_synced_ok db k u s :
  Updates.sync_status u = Some s -> s <> Status_synced ->
  ledger_ok db -> ledger_ok (Ledger.updateSyncRecord k u db).
Proof.
  intros Hu Hs Hdb. unfold Ledger.updateSyncRecord.
  destruct (Ledger.getSyncedContact k db) as [existing|].
  - apply ledger_ok_insert; [assumption|].
    unfold row_ok, Ledger.apply_updates; simpl. rewrite Hu; simpl.
    intros ->. contradiction.
  - apply createOrUpdateSyncRecord_ok; [assumption|].
    unfold row_ok, Ledger.fresh_record; simpl. rewrite Hu; simpl.
    intros ->. contradiction.
Qed.

(** An update that sets the timestamp and clears the error keeps a row
    sound whatever status it sets. *)
Lemma updateSyncRecord_stamped_ok db k u t :
  Updates.last_sync_at u = Some (Some t) ->
  Updates.error_message u = Some None ->
  ledger_ok db -> ledger_ok (Ledger.updateSyncRecord k u db).
Proof.
  intros Ht He Hdb. unfold Ledger.updateSyncRecord.
  destruct (Ledger.getSyncedContact k db) as [existing|].
  - apply ledger_ok_insert; [assumption|].
    unfold row_ok, Ledger.apply_updates; simpl. rewrite Ht, He; simpl.
    intros _. split; [discriminate | reflexivity].
  - apply createOrUpdateSyncRecord_ok; [assumption|].
    unfold row_ok, Ledger.fresh_record; simpl. rewrite Ht, He; simpl.
    intros _. split; [discriminate | reflexivity].
Qed.

Lemma row_ok_set_customer r : row_ok r -> row_ok (Ledger.set_customer r).
Proof. unfold row_ok, Ledger.set_customer; simpl. tauto. Qed.

Lemma alter_set_customer_ok db k :
  ledger_ok db -> ledger_ok (alter Ledger.set_customer k db).
Proof.
  intros Hdb i r Hi.
  destruct (decide (k = i)) as [->|Hne].
  - rewrite lookup_alter_eq in Hi.
    destruct (db !! i) as [r0|] eqn:Hr0; simpl in Hi; [|discriminate].
    injection Hi as <-. apply row_ok_set_customer. exact (Hdb i r0 Hr0).
  - rewrite lookup_alter_ne in Hi by assumption. exact (Hdb i r Hi).
Qed.

Lemma markAsCustomer_ok db k :
  ledger_ok db -> ledger_ok (Ledger.markAsCustomer k db).
Proof.
  intros Hdb. unfold Ledger.markAsCustomer.
  apply alter_set_customer_ok.
  eapply updateSyncRecord_not_synced_ok; [reflexivity | discriminate | assumption].
Qed.

End LedgerFacts.

(** ** Rules of the state-and-exception monad *)

Section MonadRules.
Context {R : Type}.
Implicit Types (P : World R -> Prop).

Lemma preserves_ret {A} P (a : A) : preserves P (ret a).
Proof. intros w Hw. exact Hw. Qed.

Lemma preserves_throw {A} P e : preserves P (@throw R A e).
Proof. intros w Hw. exact Hw. Qed.

Lemma preserves_lift {A} P (r : Thrown + A) : preserves P (lift r).
Proof. intros w Hw. exact Hw. Qed.

Lemma preserves_bind {A B} P (m : M R A) (k : A -> M R B) :
  preserves P m -> (forall a, preserves P (k a)) -> preserves P (bind m k).
Proof.
  intros Hm Hk w Hw. unfold bind. specialize (Hm w Hw).
  destruct (m w) as [[e|a] w']; simpl in *; [assumption|].
  apply Hk. assumption.
Qed.

Lemma preserves_try_catch {A} P (body : M R A) (handler : Thrown -> M R A) :
  preserves P body -> (forall e, preserves P (handler e)) ->
  preserves P (try_catch body handler).
Proof.
  intros Hm Hk w Hw. unfold try_catch. specialize (Hm w Hw).
  destruct (body w) as [[e|a] w']; simpl in *; [|assumption].
  apply Hk. assumption.
Qed.

Lemma returns_ret {A} (Q : A -> Prop) (a : A) : Q a -> returns (R:=R) Q (ret a).
Proof. intros Ha w. exact Ha. Qed.

Lemma returns_throw {A} (Q : A -> Prop) e : returns Q (@throw R A e).
Proof. intros w. exact I. Qed.

Lemma returns_bind {A B} (Q : B -> Prop) (m : M R A) (k : A -> M R B) :
  (forall a, returns Q (k a)) -> returns Q (bind m k).
Proof.
  intros Hk w. unfold bind.
  destruct (m w) as [[e|a] w']; simpl; [exact I|]. apply Hk.
Qed.

Lemma returns_try_catch {A} (Q : A -> Prop) (body : M R A) handler :
  returns Q body -> (forall e, returns Q (handler e)) ->
  returns Q (try_catch body handler).
Proof.
  intros Hm Hk w. unfold try_catch. specialize (Hm w).
  destruct (body w) as [[e|a] w']; simpl in *; [apply Hk | assumption].
Qed.

(** Steps that leave the ledger alone. *)
Lemma preserves_remote_call {A} (c : Call) (f : R -> (Thrown + A) * R) :
  preserves W_ok (remote_call c f).
Proof.
  intros w Hw. unfold remote_call. destruct (f (remote w)); exact Hw.
Qed.

Lemma preserves_now (clock : nat -> Z) : preserves (R:=R) W_ok (now clock).
Proof. intros w Hw. exact Hw. Qed.

Lemma preserves_getSyncedContact i : preserves (R:=R) W_ok (getSyncedContact i).
Proof. intros w Hw. unfold getSyncedContact. destruct i; exact Hw. Qed.

Lemma preserves_db_write (f : Ledger.table -> Ledger.table) :
  (forall db, ledger_ok db -> ledger_ok (f db)) ->
  preserves (R:=R) W_ok (db_write f).
Proof. intros Hf w Hw. apply Hf. exact Hw. Qed.

End MonadRules.

(** ** The service keeps the ledger invariant and counts every contact once *)

Section ServiceFacts.
Context {R : Type}.
Context (client : CallToolsClient R) (ghl : GHLServer) (clock : nat -> Z).

Local Ltac step :=
  first
    [ apply preserves_ret
    | apply preserves_throw
    | apply preserves_lift
    | apply preserves_remote_call
    | apply preserves_now
    | apply preserves_getSyncedContact
    | apply preserves_bind; [|intro]
    | apply preserves_try_catch; [|intro]
    | match goal with
      | |- preserves _ (if ?b then _ else _) => destruct b
      | |- preserves _ (match ?x with _ => _ end) => destruct x
      end ].

Lemma failed_update_ok k message :
  preserves (R:=R) W_ok (updateSyncRecord k (failed_updates message)).
Proof.
  apply preserves_db_write. intros db0 H.
  eapply updateSyncRecord_not_synced_ok; [reflexivity | discriminate | exact H].
Qed.

Lemma sync_to_calltools_ok id c result bucketId :
  preserves W_ok (sync_to_calltools client clock id c result bucketId).
Proof.
  unfold sync_to_calltools. repeat step.
  all: apply preserves_db_write; intros db0 H.
  all: first
         [ refine (updateSyncRecord_stamped_ok _ _ _ _ _ _ H); reflexivity
         | apply createOrUpdateSyncRecord_ok;
           [ exact H
           | unfold row_ok; simpl; intros _; split; [discriminate | reflexivity] ] ].
Qed.

Lemma syncContact_ok ghlContact result bucketId :
  preserves W_ok (syncContact client clock ghlContact result bucketId).
Proof.
  unfold syncContact.
  repeat first [apply failed_update_ok | apply sync_to_calltools_ok | step].
Qed.

Lemma markAsCustomer_W_ok k : preserves (R:=R) W_ok (markAsCustomer k).
Proof. apply preserves_db_write. intros db0. apply markAsCustomer_ok. Qed.

Lemma syncSingleContact_ok ghlContactId webhookContactData :
  preserves W_ok (syncSingleContact client ghl clock ghlContactId webhookContactData).
Proof.
  unfold syncSingleContact.
  repeat first [apply markAsCustomer_W_ok | apply syncContact_ok | step].
Qed.

Lemma sync_one_ok bucketId ghlContact result :
  preserves W_ok (sync_one client clock bucketId ghlContact result).
Proof. unfold sync_one. repeat first [apply syncContact_ok | step]. Qed.

Lemma sync_each_ok bucketId coldContacts :
  forall result, preserves W_ok (sync_each client clock bucketId coldContacts result).
Proof.
  induction coldContacts as [|c rest IH]; intros result; simpl.
  - apply preserves_ret.
  - apply preserves_bind; [apply sync_one_ok | intro; apply IH].
Qed.

Lemma run_op_ok op (w w' : World R) :
  W_ok w -> run_op client ghl clock op w = Some w' -> W_ok w'.
Proof.
  intros Hw Hrun. destruct op as [id d | fuel | id]; simpl in Hrun.
  - injection Hrun as <-. apply syncSingleContact_ok. exact Hw.
  - unfold syncColdContacts in Hrun.
    destruct (getColdContactsExcludingCustomers ghl fuel) as [[e|cold]|];
      simpl in Hrun; try discriminate; injection Hrun as <-.
    + exact Hw.
    + apply sync_each_ok. exact Hw.
  - injection Hrun as <-. apply markAsCustomer_W_ok. exact Hw.
Qed.

(** The paging loop does not depend on fuel beyond what it needs. *)
Lemma fetch_all_more_fuel fuel :
  forall fuel' skip allContacts r,
    fetch_all ghl fuel skip allContacts = Some r ->
    (fuel <= fuel')%nat ->
    fetch_all ghl fuel' skip allContacts = Some r.
Proof.
  induction fuel as [|fuel IH]; intros fuel' skip allContacts r Hrun Hle;
    simpl in Hrun; [discriminate|].
  destruct fuel' as [|fuel']; [lia|]. simpl.
  destruct (contacts_page ghl limit skip) as [e|page]; [exact Hrun|].
  destruct (0 <? length page)%nat; [|exact Hrun].
  destruct (length page =? limit)%nat; [|exact Hrun].
  apply IH; [exact Hrun | lia].
Qed.

Lemma syncColdContacts_more_fuel fuel fuel' (w : World R) r :
  syncColdContacts client ghl clock fuel w = Some r ->
  (fuel <= fuel')%nat ->
  syncColdContacts client ghl clock fuel' w = Some r.
Proof.
  unfold syncColdContacts, getColdContactsExcludingCustomers.
  intros Hrun Hle.
  destruct (fetch_all ghl fuel 0 []) as [fetched|] eqn:Hfetch; [|discriminate].
  rewrite (fetch_all_more_fuel fuel fuel' 0 [] fetched Hfetch Hle).
  exact Hrun.
Qed.

(** *** Counting *)

Local Ltac rstep :=
  first
    [ apply returns_throw
    | apply returns_bind; intro
    | apply returns_try_catch; [|intro]
    | match goal with
      | |- returns _ (if ?b then _ else _) => destruct b
      | |- returns _ (match ?x with _ => _ end) => destruct x
      end ].

Local Ltac one_more :=
  apply returns_ret; split;
  [ unfold exactly_one; simpl; lia | reflexivity ].

(** On normal completion syncContact has raised one counter and left the
    error list alone. *)
Lemma syncContact_exactly_one ghlContact result bucketId :
  returns
    (fun r' => exactly_one result r'
               /\ SyncResult.errors r' = SyncResult.errors result)
    (syncContact client clock ghlContact result bucketId).
Proof.
  unfold syncContact, sync_to_calltools.
  repeat first [one_more | rstep].
Qed.

(** One turn of the loop never throws, and counts the contact once. *)
Lemma sync_one_spec bucketId ghlContact result (w : World R) :
  exists r' w',
    sync_one client clock bucketId ghlContact result w = (inr r', w')
    /\ exactly_one result r'
    /\ (Z.of_nat (length (SyncResult.errors r'))
        - Z.of_nat (length (SyncResult.errors result))
        <= SyncResult.failed r' - SyncResult.failed result)%Z
    /\ (forall e w2,
          syncContact client clock ghlContact result bucketId w = (inl e, w2) ->
          r' = SyncResult.push_error
                 (GHLContact.id ghlContact, error_message_of e)
                 (SyncResult.incr_failed result)).
Proof.
  unfold sync_one, try_catch.
  pose proof (syncContact_exactly_one ghlContact result bucketId w) as H.
  destruct (syncContact client clock ghlContact result bucketId w)
    as [[e|r'] w']; simpl in H.
  - eexists _, _. split; [reflexivity|]. split; [|split].
    + unfold exactly_one; simpl. lia.
    + simpl. rewrite length_app; simpl. lia.
    + intros e' w2 Heq. injection Heq as <- _. reflexivity.
  - destruct H as [Hone Herr]. eexists _, _. split; [reflexivity|].
    split; [exact Hone|]. split.
    + rewrite Herr. unfold exactly_one in Hone. lia.
    + intros e w2 Heq. discriminate.
Qed.

Lemma exactly_one_counted r r' :
  exactly_one r r' -> counted r' = (counted r + 1)%Z.
Proof. unfold exactly_one, counted. lia. Qed.

Lemma sync_each_spec bucketId coldContacts :
  forall result (w : World R),
  exists r' w',
    sync_each client clock bucketId coldContacts result w = (inr r', w')
    /\ SyncResult.total_processed r' = SyncResult.total_processed result
    /\ counted r' = (counted result + Z.of_nat (length coldContacts))%Z
    /\ (Z.of_nat (length (SyncResult.errors r'))
        - Z.of_nat (length (SyncResult.errors result))
        <= SyncResult.failed r' - SyncResult.failed result)%Z.
Proof.
  induction coldContacts as [|c rest IH]; intros result w.
  - exists result, w. simpl. repeat split; lia.
  - destruct (sync_one_spec bucketId c result w) as (r1 & w1 & H1 & Hone & Herr1 & _).
    destruct (IH r1 w1) as (r2 & w2 & H2 & Htot & Hcnt & Herr2).
    exists r2, w2. split.
    + simpl. unfold bind. rewrite H1. exact H2.
    + pose proof (exactly_one_counted _ _ Hone) as Hc.
      destruct Hone as [Ht _].
      cbn [length]. repeat split; lia.
Qed.

End ServiceFacts.

(** ** The ledger invariant (C9) *)

(** C9.  Every operation of the service that writes the Sync Ledger keeps
    the invariant, so in every world reachable from an empty ledger a row
    whose sync_status is synced has last_sync_at set and error_message
    null. *)
Theorem ledger_synced_rows_are_stamped {R : Type} (w : World R) (k : string)
    (r : SyncedContact.t) :
  reachable w ->
  db w !! k = Some r ->
  SyncedContact.sync_status r = Status_synced ->
  SyncedContact.last_sync_at r <> None /\ SyncedContact.error_message r = None.
Proof.
  intros Hreach. revert k r.
  change (W_ok w).
  induction Hreach as [w Hempty | client ghl clock op w w' _ IH Hrun | w s _ IH].
  - unfold W_ok. rewrite Hempty. apply ledger_ok_empty.
  - exact (run_op_ok client ghl clock op w w' IH Hrun).
  - exact IH.
Qed.

Lemma ledger_synced_rows_are_stamped_witness :
  SyncedContact.last_sync_at (Sim.synced_row "1" 1700000000000) <> None
  /\ SyncedContact.error_message (Sim.synced_row "1" 1700000000000) = None.
Proof.
  apply (ledger_synced_rows_are_stamped Sim.world1 "c1").
  - apply (reachable_step Sim.client (Sim.crm [Sim.lead]) Sim.clock
             (Op_syncSingleContact "c1" None) Sim.world0).
    + apply reachable_init. reflexivity.
    + reflexivity.
  - vm_compute. reflexivity.
  - reflexivity.
Defined.

(** ** The batch counters (C10) *)

(** C10.  When the CRM fetch returns, syncColdContacts returns a result (no
    exception of a single contact stops it): total_processed is the number
    of contacts fetched; every turn of the loop completes and raises
    exactly one of synced, updated, excluded_customers, failed by one, a
    throw of syncContact being counted as failed with an entry in the error
    list; so the four counters add up to total_processed. *)
Theorem syncColdContacts_counts_every_contact {R : Type}
    (client : CallToolsClient R) (ghl : GHLServer) (clock : nat -> Z)
    (fuel : nat) (coldContacts : list GHLContact.t) (w : World R) :
  getColdContactsExcludingCustomers ghl fuel = Some (inr coldContacts) ->
  (forall c r w0, exists r' w1,
      sync_one client clock "11237" c r w0 = (inr r', w1)
      /\ exactly_one r r'
      /\ (forall e w2,
            syncContact client clock c r "11237" w0 = (inl e, w2) ->
            r' = SyncResult.push_error (GHLContact.id c, error_message_of e)
                   (SyncResult.incr_failed r)))
  /\ exists result w',
      syncColdContacts client ghl clock fuel w = Some (inr result, w')
      /\ SyncResult.total_processed result = Z.of_nat (length coldContacts)
      /\ (SyncResult.synced result + SyncResult.updated result
          + SyncResult.excluded_customers result + SyncResult.failed result
          = SyncResult.total_processed result)%Z
      /\ (Z.of_nat (length (SyncResult.errors result)) <= SyncResult.failed result)%Z.
Proof.
  intros Hfetch. split.
  - intros c r w0.
    destruct (sync_one_spec client clock "11237" c r w0)
      as (r' & w1 & H & Hone & _ & Hthrow).
    exists r', w1. split; [exact H|]. split; [exact Hone | exact Hthrow].
  - unfold syncColdContacts. rewrite Hfetch.
    match goal with
    | |- context [sync_each _ _ _ _ ?r0 _] =>
        destruct (sync_each_spec client clock "11237" coldContacts r0 w)
          as (r' & w' & Hrun & Htot & Hcnt & Herr)
    end.
    exists r', w'. rewrite Hrun.
    unfold counted in Hcnt. simpl in Htot, Hcnt, Herr.
    repeat split; lia.
Qed.

Lemma syncColdContacts_counts_every_contact_witness :
  (forall c r w0, exists r' w1,
      sync_one Sim.client Sim.clock "11237" c r w0 = (inr r', w1)
      /\ exactly_one r r'
      /\ (forall e w2,
            syncContact Sim.client Sim.clock c r "11237" w0 = (inl e, w2) ->
            r' = SyncResult.push_error (GHLContact.id c, error_message_of e)
                   (SyncResult.incr_failed r)))
  /\ exists result w',
      syncColdContacts Sim.client
        (Sim.crm [Sim.lead; Sim.contact "c2" None ["prospect"];
                  Sim.contact "c3" (Some "+15550000003") ["customer"]])
        Sim.clock 3 Sim.world0
      = Some (inr result, w')
      /\ SyncResult.total_processed result = Z.of_nat (length [Sim.lead; Sim.contact "c2" None ["prospect"]])
      /\ (SyncResult.synced result + SyncResult.updated result
          + SyncResult.excluded_customers result + SyncResult.failed result
          = SyncResult.total_processed result)%Z
      /\ (Z.of_nat (length (SyncResult.errors result)) <= SyncResult.failed result)%Z.
Proof.
  apply (syncColdContacts_counts_every_contact Sim.client _ Sim.clock 3
           [Sim.lead; Sim.contact "c2" None ["prospect"]] Sim.world0).
  vm_compute. reflexivity.
Defined.

(** ** Single-contact reconciliation *)

Section ReconcileFacts.
Context {R : Type}.
Context (client : CallToolsClient R) (ghl : GHLServer) (clock : nat -> Z).

Lemma or_default_falsy (v : option string) :
  JS.truthy v = false -> JS.or_default v "" = "".
Proof.
  destruct v as [s|]; simpl; [|reflexivity].
  destruct (String.eqb s ""); [reflexivity | discriminate].
Qed.

(** syncContact on a contact already flagged as customer: nothing
    happens but the excluded_customers count. *)
Lemma syncContact_flagged ghlContact result bucketId i r (w : World R) :
  GHLContact.id ghlContact = Some i ->
  db w !! i = Some r ->
  SyncedContact.is_customer r = 1%Z ->
  syncContact client clock ghlContact result bucketId w
  = (inr (SyncResult.incr_excluded_customers result), w).
Proof.
  intros Hid Hrow Hflag.
  unfold syncContact, bind, getSyncedContact, Ledger.getSyncedContact.
  rewrite Hid, Hrow, Hflag. reflexivity.
Qed.

(** syncContact on a contact without a phone number, not flagged as
    customer: the ledger row is marked failed and no client call is
    made; this is the path of the batch as well. *)
Lemma syncContact_no_phone ghlContact result bucketId i (w : World R) :
  GHLContact.id ghlContact = Some i ->
  (forall r, db w !! i = Some r -> SyncedContact.is_customer r <> 1%Z) ->
  JS.truthy (GHLContact.phone ghlContact) = false ->
  syncContact client clock ghlContact result bucketId w
  = (inr (SyncResult.incr_failed result),
     mkWorld (Ledger.updateSyncRecord i (failed_updates "No phone number") (db w))
       (remote w) (calls w) (ticks w)).
Proof.
  intros Hid Hflag Hphone.
  unfold syncContact, bind, getSyncedContact, Ledger.getSyncedContact.
  rewrite Hid. simpl.
  assert (match db w !! i with
          | Some r => (SyncedContact.is_customer r =? 1)%Z
          | None => false
          end = false) as ->.
  { destruct (db w !! i) as [r|] eqn:Hr; [|reflexivity].
    apply Z.eqb_neq. apply Hflag. reflexivity. }
  rewrite (or_default_falsy _ Hphone). reflexivity.
Qed.

Lemma failed_row_after_update (db0 : Ledger.table) i :
  exists row,
    Ledger.updateSyncRecord i (failed_updates "No phone number") db0 !! i = Some row
    /\ SyncedContact.sync_status row = Status_failed
    /\ SyncedContact.error_message row = Some "No phone number".
Proof.
  unfold Ledger.updateSyncRecord, Ledger.createOrUpdateSyncRecord,
    Ledger.getSyncedContact.
  destruct (db0 !! i) as [existing|] eqn:Hrow; simpl.
  - eexists. rewrite lookup_insert_eq. split; [reflexivity|]. split; reflexivity.
  - rewrite Hrow. eexists. rewrite lookup_insert_eq.
    split; [reflexivity|]. split; reflexivity.
Qed.

Lemma markAsCustomer_fresh (db0 : Ledger.table) i :
  db0 !! i = None ->
  Ledger.markAsCustomer i db0
  = <[i := SyncedContact.mk i None None None None None Status_excluded None None 1]> db0.
Proof.
  intros Hrow.
  unfold Ledger.markAsCustomer, Ledger.updateSyncRecord,
    Ledger.createOrUpdateSyncRecord, Ledger.getSyncedContact.
  rewrite Hrow. simpl. rewrite Hrow.
  rewrite alter_insert_eq. reflexivity.
Qed.

End ReconcileFacts.

(** *** C6: a cold lead without a phone number *)

(** C6.  A cold lead without a phone number is reported failed with a
    ledger row 'No phone number' only when the record resolved carries its
    id.  GHLWebhook.handle accepts the id under id, contactId, contact_id
    or contact.id, but syncSingleContact copies contact_id only: for the
    body {id: c1, tags: cold lead} the record resolved is a cold lead with
    no phone number and no id, getSyncedContact(undefined) is refused by
    the database before the phone is looked at, and the reconcile is
    answered failed with that error while the ledger gets no row. *)
Theorem cold_lead_without_phone_under_alias_id_gets_no_row :
  resolve_contact (Sim.crm []) "c1" (Some SimMore.alias_json)
  = inr (GHLContact.mk None None None None None None (Some ["cold lead"]))
  /\ isCustomer ["cold lead"] = false
  /\ isCold ["cold lead"] = true
  /\ webhookRouter Sim.client (Sim.crm []) Sim.clock Sim.hmac SimMore.parse_alias
       Route_ghl (Sim.env None) (Request.mk SimMore.alias_body None) Sim.world0
     = Some (Response.mk 200 false
               (Some "Failed to sync contact: D1_TYPE_ERROR: Type 'undefined' not supported for value 'undefined'")
               None (Some ("c1", Action_failed, None)),
             Sim.world0)
  /\ db Sim.world0 !! "c1" = None.
Proof. repeat split; vm_compute; reflexivity. Qed.

(** *** C5: a contact flagged as customer in the ledger *)

(** C5 (what the code does).  For a contact whose ledger row has
    is_customer = 1 and whose labels are cold-lead labels without a
    customer marker, the attempt is short-circuited: no client call, no
    ledger write, success is true -- but the action reported is failed,
    not excluded, because the action is derived from the synced and updated
    counters only. *)
Theorem flagged_customer_is_reported_failed {R : Type}
    (client : CallToolsClient R) (ghl : GHLServer) (clock : nat -> Z)
    (ghlContactId : string) (webhookContactData : Json.value)
    (ghlContact : GHLContact.t) (i : string) (r : SyncedContact.t)
    (w : World R) :
  resolve_contact ghl ghlContactId webhookContactData = inr ghlContact ->
  isCustomer (lowered_tags ghlContact) = false ->
  isCold (lowered_tags ghlContact) = true ->
  GHLContact.id ghlContact = Some i ->
  db w !! i = Some r ->
  SyncedContact.is_customer r = 1%Z ->
  syncSingleContact client ghl clock ghlContactId webhookContactData w
  = (inr (SingleSync.mk true ghlContactId Action_failed (Some "11237") None), w).
Proof.
  intros Hres Hcust Hcold Hid Hrow Hflag.
  unfold syncSingleContact, try_catch, bind, lift.
  rewrite Hres, Hcust, Hcold. simpl.
  rewrite (syncContact_flagged client clock _ _ _ i r w Hid Hrow Hflag).
  reflexivity.
Qed.

Lemma flagged_customer_is_reported_failed_witness :
  syncSingleContact Sim.client (Sim.crm [Sim.lead]) Sim.clock "c1" None
    Sim.flagged_world
  = (inr (SingleSync.mk true "c1" Action_failed (Some "11237") None),
     Sim.flagged_world).
Proof.
  apply (flagged_customer_is_reported_failed Sim.client _ Sim.clock "c1" None
           Sim.lead "c1" (Sim.customer_row "c1")).
  - reflexivity.
  - reflexivity.
  - reflexivity.
  - reflexivity.
  - vm_compute. reflexivity.
  - reflexivity.
Defined.

(** *** C3: a customer tag and no ledger record *)

(** C3 (as amended).  When the labels carry a customer marker and the
    ledger has no record for the source id, the engine returns excluded
    with success, makes no client call, and creates a ledger row for the id
    with status excluded and is_customer = 1, all other columns null. *)
Theorem customer_tag_without_record_creates_row {R : Type}
    (client : CallToolsClient R) (ghl : GHLServer) (clock : nat -> Z)
    (ghlContactId : string) (webhookContactData : Json.value)
    (ghlContact : GHLContact.t) (w : World R) :
  resolve_contact ghl ghlContactId webhookContactData = inr ghlContact ->
  isCustomer (lowered_tags ghlContact) = true ->
  db w !! ghlContactId = None ->
  syncSingleContact client ghl clock ghlContactId webhookContactData w
  = (inr (SingleSync.mk true ghlContactId Action_excluded None None),
     mkWorld
       (<[ghlContactId :=
            SyncedContact.mk ghlContactId None None None None None
              Status_excluded None None 1]> (db w))
       (remote w) (calls w) (ticks w)).
Proof.
  intros Hres Hcust Hrow.
  unfold syncSingleContact, try_catch, bind, lift, markAsCustomer, db_write.
  rewrite Hres, Hcust. simpl.
  rewrite (markAsCustomer_fresh _ _ Hrow). reflexivity.
Qed.

Lemma customer_tag_without_record_creates_row_witness :
  syncSingleContact Sim.client
    (Sim.crm [Sim.contact "c9" (Some "+15550000009") ["Customer"]])
    Sim.clock "c9" None Sim.world0
  = (inr (SingleSync.mk true "c9" Action_excluded None None),
     mkWorld
       (<["c9" := Sim.customer_row "c9"]> (db Sim.world0))
       (remote Sim.world0) (calls Sim.world0) (ticks Sim.world0)).
Proof.
  apply (customer_tag_without_record_creates_row Sim.client _ Sim.clock "c9" None
           (Sim.contact "c9" (Some "+15550000009") ["Customer"]) Sim.world0).
  - reflexivity.
  - reflexivity.
  - reflexivity.
Defined.

(** C3, as stated, fails: with the label customer and an empty ledger the
    outcome is excluded but a ledger row has been created. *)
Lemma excluded_without_record_writes_ledger :
  isCustomer ["customer"] = true
  /\ db Sim.world0 !! "c9" = None
  /\ fst Sim.customer_sync = inr (SingleSync.mk true "c9" Action_excluded None None)
  /\ db (snd Sim.customer_sync) !! "c9" = Some (Sim.customer_row "c9")
  /\ db (snd Sim.customer_sync) <> db Sim.world0.
Proof.
  repeat split; try (vm_compute; reflexivity).
  intros Heq.
  assert (db (snd Sim.customer_sync) !! "c9" = db Sim.world0 !! "c9") as H.
  { rewrite Heq. reflexivity. }
  vm_compute in H. discriminate.
Qed.

(** ** C1: active-client markers *)

(** C1 (what the code does).  syncSingleContact knows two label families
    only.  A contact whose one label is ACA Active 2025 is excluded for
    want of a cold lead tag, and nothing is written anywhere; with a cold
    label next to it the contact is synced as a cold lead into bucket
    11237; with a customer label next to it the contact is excluded as a
    customer.  In no case is there an active-client outcome. *)
Theorem active_marker_is_not_recognised :
  syncSingleContact Sim.client Sim.active_crm Sim.clock "a1" None Sim.world0
  = (inr (SingleSync.mk true "a1" Action_excluded None
            (Some "Contact does not have cold lead tag")),
     Sim.world0)
  /\ fst (syncSingleContact Sim.client Sim.active_crm Sim.clock "a2" None Sim.world0)
     = inr (SingleSync.mk true "a2" Action_synced (Some "11237") None)
  /\ calls (snd (syncSingleContact Sim.client Sim.active_crm Sim.clock "a2" None Sim.world0))
     = [Call_getContactByExternalId "a2" None;
        Call_createContact
          (CallToolsContact.mk "Pat" "Doe" "+15551230002" "pat@example.com" "a2" "11237");
        Call_addContactToBucket "1" "11237";
        Call_addTagToContact "1" "ACA Cold lead"]
  /\ fst (syncSingleContact Sim.client Sim.active_crm Sim.clock "a3" None Sim.world0)
     = inr (SingleSync.mk true "a3" Action_excluded None None)
  /\ calls (snd (syncSingleContact Sim.client Sim.active_crm Sim.clock "a3" None Sim.world0))
     = [].
Proof. repeat split; vm_compute; reflexivity. Qed.

(** The classifier is a chain of two tests: a customer tag wins over a
    cold tag, and no tag of either family means excluded. *)
Lemma customer_tag_wins {R : Type} (client : CallToolsClient R) ghl clock
    id data ghlContact (w : World R) :
  resolve_contact ghl id data = inr ghlContact ->
  isCustomer (lowered_tags ghlContact) = true ->
  fst (syncSingleContact client ghl clock id data w)
  = inr (SingleSync.mk true id Action_excluded None None)
  /\ calls (snd (syncSingleContact client ghl clock id data w)) = calls w.
Proof.
  intros Hres Hcust.
  unfold syncSingleContact, try_catch, bind, lift, markAsCustomer, db_write.
  rewrite Hres, Hcust. simpl. split; reflexivity.
Qed.

Lemma no_marker_is_excluded {R : Type} (client : CallToolsClient R) ghl clock
    id data ghlContact (w : World R) :
  resolve_contact ghl id data = inr ghlContact ->
  isCustomer (lowered_tags ghlContact) = false ->
  isCold (lowered_tags ghlContact) = false ->
  syncSingleContact client ghl clock id data w
  = (inr (SingleSync.mk true id Action_excluded None
            (Some "Contact does not have cold lead tag")), w).
Proof.
  intros Hres Hcust Hcold.
  unfold syncSingleContact, try_catch, bind, lift.
  rewrite Hres, Hcust, Hcold. reflexivity.
Qed.

(** A throw inside the loop: the dialer refuses the creation, the contact
    is counted as failed with its error, the ledger row says why, and the
    next contact is still processed. *)
Example batch_survives_a_refused_creation :
  syncColdContacts (CallTools.client Sim.refusing_api)
    (Sim.crm [Sim.lead; Sim.contact "c2" None ["prospect"]]) Sim.clock 3 Sim.world0
  = Some
      (inr (SyncResult.mk 2 0 0 0 2 "Cold Leads" (Some "11237")
              [(Some "c1", "CallTools API error: 500 - boom")]),
       mkWorld
         (<["c2" := SyncedContact.mk "c2" None None None None None Status_failed
                      None (Some "No phone number") 0]>
            (<["c1" := SyncedContact.mk "c1" None None None None None Status_failed
                         None (Some "CallTools API error: 500 - boom") 0]> ∅))
         Sim.empty
         [Call_getContactByExternalId "c1" None;
          Call_createContact
            (CallToolsContact.mk "Pat" "Doe" "+15551234567" "pat@example.com"
               "c1" "11237")]
         0).
Proof. vm_compute. reflexivity. Qed.

(** ** C2: reconciling the same contact twice *)

(** The lookup of src/clients/calltools.ts answers null, without a
    request, whenever it is not given a phone number -- which is how
    syncContact calls it. *)
Lemma lookup_without_phone_is_null {S : Type} (api : DialerApi S)
    (externalId : string) (s : S) :
  CallTools.getContactByExternalId api externalId None s = (None, s).
Proof. reflexivity. Qed.

(** Hence against this client syncContact never takes its update branch:
    whatever the dialer answers, no updateContact call is ever made. *)
Lemma no_update_after_null_lookup {R : Type} (client : CallToolsClient R)
    (clock : nat -> Z) id c result bucketId (w : World R) :
  fst (getContactByExternalId client id None (remote w)) = None ->
  List.filter is_update
    (calls (snd (sync_to_calltools client clock id c result bucketId w)))
  = List.filter is_update (calls w).
Proof.
  intros Hnull.
  unfold sync_to_calltools, bind, remote_call.
  destruct (getContactByExternalId client id None (remote w)) as [r s0].
  simpl in Hnull. subst r. simpl.
  destruct (createContact client c s0) as [[e|created] s1]; simpl.
  - rewrite !List.filter_app. simpl. rewrite !app_nil_r. reflexivity.
  - destruct (negb (String.eqb bucketId "")); simpl;
      repeat match goal with
        | |- context [addContactToBucket ?cl ?a ?b ?s] =>
            destruct (addContactToBucket cl a b s) as [[?|?] ?]; simpl
        | |- context [addTagToContact ?cl ?a ?b ?s] =>
            destruct (addTagToContact cl a b s) as [[?|?] ?]; simpl
        end;
      unfold ret; simpl;
      rewrite !List.filter_app; simpl; rewrite !app_nil_r; reflexivity.
Qed.

Lemma cited_client_never_updates {S : Type} (api : DialerApi S)
    (clock : nat -> Z) ghlContact result bucketId (w : World S) :
  List.filter is_update
    (calls (snd (syncContact (CallTools.client api) clock ghlContact result
                   bucketId w)))
  = List.filter is_update (calls w).
Proof.
  unfold syncContact, bind, getSyncedContact.
  destruct (GHLContact.id ghlContact) as [i|]; simpl; [|reflexivity].
  destruct (match Ledger.getSyncedContact i (db w) with
            | Some r => (SyncedContact.is_customer r =? 1)%Z
            | None => false
            end); simpl; [reflexivity|].
  destruct (String.eqb (JS.or_default (GHLContact.phone ghlContact) "") "");
    simpl; [reflexivity|].
  unfold try_catch.
  match goal with
  | |- context [sync_to_calltools ?cl ?ck ?a ?b ?c ?d w] =>
      pose proof (no_update_after_null_lookup cl ck a b c d w eq_refl) as H;
      destruct (sync_to_calltools cl ck a b c d w) as [[e|r] w']
  end; simpl in *; exact H.
Qed.

(** Given the phone number, the same lookup finds the contact created by
    the first sync. *)
Lemma lookup_with_phone_finds_first_contact :
  fst (CallTools.getContactByExternalId Sim.api "c1" (Some "+15551234567")
         (remote Sim.world1))
  = Some (CallToolsContactResponse.mk "1"
            (CallToolsContact.mk "Pat" "Doe" "+15551234567" "pat@example.com"
               "c1" "11237")).
Proof. vm_compute. reflexivity. Qed.

(** With the earlier client, whose lookup is by external id, the second
    run finds the contact, updates it and keeps the ledger's target id. *)
Lemma earlier_client_second_sync_updates :
  fst Sim.earlier_first_sync
  = inr (SingleSync.mk true "c1" Action_synced (Some "11237") None)
  /\ fst Sim.earlier_second_sync
     = inr (SingleSync.mk true "c1" Action_updated (Some "11237") None)
  /\ length (List.filter is_create (calls (snd Sim.earlier_second_sync))) = 1
  /\ length (List.filter is_update (calls (snd Sim.earlier_second_sync))) = 1
  /\ map CallToolsContactResponse.id
       (Sim.contacts (remote (snd Sim.earlier_second_sync))) = ["1"]
  /\ db (snd Sim.earlier_first_sync) !! "c1"
     = Some (Sim.synced_row "1" 1700000000000)
  /\ db (snd Sim.earlier_second_sync) !! "c1"
     = Some (Sim.synced_row "1" 1700000000001).
Proof. repeat split; vm_compute; reflexivity. Qed.

(** C2 (what the code does).  Reconciling the same cold lead twice, with
    the same labels and phone number, creates two contacts in the target
    system: the second run looks the contact up without its phone number,
    gets null, creates again and overwrites the ledger's target id. *)
Theorem second_sync_creates_a_duplicate :
  fst Sim.first_sync
  = inr (SingleSync.mk true "c1" Action_synced (Some "11237") None)
  /\ fst Sim.second_sync
     = inr (SingleSync.mk true "c1" Action_synced (Some "11237") None)
  /\ length (List.filter is_create (calls Sim.world2)) = 2
  /\ List.filter is_update (calls Sim.world2) = []
  /\ map CallToolsContactResponse.id (Sim.contacts (remote Sim.world2)) = ["1"; "2"]
  /\ db Sim.world1 !! "c1" = Some (Sim.synced_row "1" 1700000000000)
  /\ db Sim.world2 !! "c1" = Some (Sim.synced_row "2" 1700000000001).
Proof. repeat split; vm_compute; reflexivity. Qed.

(** ** C8: the freshness window *)


(** ** Signature comparison *)

Lemma N_of_ascii_inj (x y : ascii) : N_of_ascii x = N_of_ascii y -> x = y.
Proof.
  intros H. rewrite <- (ascii_N_embedding x), <- (ascii_N_embedding y), H.
  reflexivity.
Qed.

Lemma xor_fold_zero (a : string) :
  forall b acc, String.length a = String.length b ->
    Verification.xor_fold a b acc = 0%N <-> acc = 0%N /\ a = b.
Proof.
  induction a as [|x a IH]; intros [|y b] acc Hlen; simpl in *; try discriminate.
  - tauto.
  - injection Hlen as Hlen. rewrite (IH b _ Hlen).
    rewrite N.lor_eq_0_iff, N.lxor_eq_0_iff. split.
    + intros [[Hacc Hxy] Hab]. apply N_of_ascii_inj in Hxy. subst. tauto.
    + intros [Hacc Heq]. injection Heq as -> ->. tauto.
Qed.

(** constantTimeCompare is equality of strings. *)
Lemma constantTimeCompare_true_iff (a b : string) :
  Verification.constantTimeCompare a b = true <-> a = b.
Proof.
  unfold Verification.constantTimeCompare.
  destruct (String.length a =? String.length b)%nat eqn:Hlen; simpl.
  - apply Nat.eqb_eq in Hlen. rewrite N.eqb_eq, (xor_fold_zero a b 0%N Hlen). tauto.
  - apply Nat.eqb_neq in Hlen. split; [discriminate|]. intros ->. contradiction.
Qed.

(** A signature verifies exactly when it is the digest of the payload. *)
Lemma verifySignature_true_iff hmac (secret payload signature : string) :
  Verification.verifySignature hmac secret payload (Some signature) = true
  <-> signature <> "" /\ hmac secret payload = Some signature.
Proof.
  unfold Verification.verifySignature; simpl.
  destruct (String.eqb_spec signature "") as [->|Hne]; simpl.
  - split; [discriminate | tauto].
  - destruct (hmac secret payload) as [expected|].
    + rewrite constantTimeCompare_true_iff. split.
      * intros ->. tauto.
      * intros [_ Heq]. injection Heq as ->. reflexivity.
    + split; [discriminate|]. intros [_ Heq]. discriminate.
Qed.

(** ** C4: the signature check of the signed webhook path *)

Section SignatureFacts.
Context {R : Type}.
Context (client : CallToolsClient R) (ghl : GHLServer) (clock : nat -> Z).
Context (hmac : string -> string -> option string).
Context (JSON_parse : string -> option Json.t).

Lemma or_null_truthy (v : option string) : JS.truthy v = true -> JS.or_null v = v.
Proof. unfold JS.or_null. intros ->. reflexivity. Qed.

Lemma or_null_falsy (v : option string) : JS.truthy v = false -> JS.or_null v = None.
Proof. unfold JS.or_null. intros ->. reflexivity. Qed.

Lemma check_rejects_forged env req :
  JS.truthy (Env.GHL_WEBHOOK_SECRET env) = true ->
  JS.truthy (Request.x_ghl_signature req) = true ->
  Verification.verifySignature hmac (default "" (Env.GHL_WEBHOOK_SECRET env))
    (Request.rawBody req) (Request.x_ghl_signature req) = false ->
  signature_check hmac env req = Some (reject 401 "Invalid webhook signature").
Proof.
  intros Hsecret Hsig Hbad. unfold signature_check.
  rewrite Hsecret, (or_null_truthy _ Hsig), Hsig, Hbad. reflexivity.
Qed.

Lemma check_passes_unsigned env req :
  JS.truthy (Request.x_ghl_signature req) = false ->
  signature_check hmac env req = None.
Proof.
  intros Hsig. unfold signature_check.
  rewrite (or_null_falsy _ Hsig). simpl.
  destruct (JS.truthy (Env.GHL_WEBHOOK_SECRET env)); reflexivity.
Qed.

Lemma check_passes_without_secret env req :
  signature_check hmac (without_secret env) req = None.
Proof. reflexivity. Qed.

End SignatureFacts.

(** C4 (as amended).  With a webhook secret configured, a request whose
    signature header is present and does not verify is answered 401 with
    success = false by both versions of the handler, and the world (ledger,
    dialer, call log) is untouched.  A request without a signature header
    is not rejected: the check lets it through and the handler treats it
    exactly as it would with no secret configured. *)
Theorem forged_signature_is_rejected_unsigned_is_not {R : Type}
    (client : CallToolsClient R) (ghl : GHLServer) (clock : nat -> Z)
    (hmac : string -> string -> option string)
    (JSON_parse : string -> option Json.t)
    (env : Env.t) (forged unsigned : Request.t) (w : World R) :
  JS.truthy (Env.GHL_WEBHOOK_SECRET env) = true ->
  JS.truthy (Request.x_ghl_signature forged) = true ->
  Verification.verifySignature hmac (default "" (Env.GHL_WEBHOOK_SECRET env))
    (Request.rawBody forged) (Request.x_ghl_signature forged) = false ->
  JS.truthy (Request.x_ghl_signature unsigned) = false ->
  GHLWebhook_handle client ghl clock hmac JSON_parse env forged w
  = Some (Response.mk 401 false (Some "Invalid webhook signature") None None, w)
  /\ GHLWebhook_handle_v1 client ghl clock hmac JSON_parse env forged w
     = (Response.mk 401 false (Some "Invalid webhook signature") None None, w)
  /\ signature_check hmac env unsigned = None
  /\ GHLWebhook_handle client ghl clock hmac JSON_parse env unsigned w
     = GHLWebhook_handle client ghl clock hmac JSON_parse (without_secret env) unsigned w.
Proof.
  intros Hsecret Hsig Hbad Hnone.
  pose proof (check_rejects_forged hmac env forged Hsecret Hsig Hbad) as Hcheck.
  pose proof (check_passes_unsigned hmac env unsigned Hnone) as Hpass.
  repeat split.
  - unfold GHLWebhook_handle. rewrite Hcheck. reflexivity.
  - unfold GHLWebhook_handle_v1. rewrite Hcheck. reflexivity.
  - exact Hpass.
  - unfold GHLWebhook_handle. rewrite Hpass, check_passes_without_secret.
    reflexivity.
Qed.

Lemma forged_signature_is_rejected_unsigned_is_not_witness :
  GHLWebhook_handle Sim.client (Sim.crm []) Sim.clock Sim.hmac Sim.parse
    (Sim.env (Some "s3cret")) Sim.forged_request Sim.world0
  = Some (Response.mk 401 false (Some "Invalid webhook signature") None None,
          Sim.world0)
  /\ GHLWebhook_handle_v1 Sim.client (Sim.crm []) Sim.clock Sim.hmac Sim.parse
       (Sim.env (Some "s3cret")) Sim.forged_request Sim.world0
     = (Response.mk 401 false (Some "Invalid webhook signature") None None,
        Sim.world0)
  /\ signature_check Sim.hmac (Sim.env (Some "s3cret")) Sim.unsigned_request = None
  /\ GHLWebhook_handle Sim.client (Sim.crm []) Sim.clock Sim.hmac Sim.parse
       (Sim.env (Some "s3cret")) Sim.unsigned_request Sim.world0
     = GHLWebhook_handle Sim.client (Sim.crm []) Sim.clock Sim.hmac Sim.parse
         (without_secret (Sim.env (Some "s3cret"))) Sim.unsigned_request Sim.world0.
Proof.
  apply (forged_signature_is_rejected_unsigned_is_not Sim.client (Sim.crm [])
           Sim.clock Sim.hmac Sim.parse (Sim.env (Some "s3cret"))
           Sim.forged_request Sim.unsigned_request Sim.world0).
  - reflexivity.
  - reflexivity.
  - vm_compute. reflexivity.
  - reflexivity.
Defined.

(** C4, as stated, fails for the missing header: with a secret configured
    and no signature header the request is answered 200, the contact is
    created in the dialer and the ledger gets its row. *)
Lemma unsigned_request_is_processed :
  JS.truthy (Env.GHL_WEBHOOK_SECRET (Sim.env (Some "s3cret"))) = true
  /\ Request.x_ghl_signature Sim.unsigned_request = None
  /\ fst <$> GHLWebhook_handle Sim.client (Sim.crm []) Sim.clock Sim.hmac
               Sim.parse (Sim.env (Some "s3cret")) Sim.unsigned_request Sim.world0
     = Some (Response.mk 200 true (Some "Contact synced successfully") None
               (Some ("c1", Action_synced, Some "11237")))
  /\ (calls ∘ snd) <$> GHLWebhook_handle Sim.client (Sim.crm []) Sim.clock Sim.hmac
               Sim.parse (Sim.env (Some "s3cret")) Sim.unsigned_request Sim.world0
     = Some [Call_getContactByExternalId "c1" None;
             Call_createContact
               (CallToolsContact.mk "Unknown" "" "+15551234567" "" "c1" "11237");
             Call_addContactToBucket "1" "11237";
             Call_addTagToContact "1" "ACA Cold lead"]
  /\ (fun r => SyncedContact.sync_status <$> db (snd r) !! "c1")
       <$> GHLWebhook_handle Sim.client (Sim.crm []) Sim.clock Sim.hmac
             Sim.parse (Sim.env (Some "s3cret")) Sim.unsigned_request Sim.world0
     = Some (Some Status_synced).
Proof. repeat split; vm_compute; reflexivity. Qed.

(** ** C7: bodies that cannot be used *)

(** C7 (as amended).  On the workflow route, and on the signed route once
    the signature check has let the request through, a body that is not
    JSON, or that parses to a value other than null in which no alias (id,
    contactId, contact_id, contact.id) holds a truthy id, is answered 400
    with success = false and a message, and the world is untouched. *)
Theorem unusable_body_is_rejected {R : Type}
    (client : CallToolsClient R) (ghl : GHLServer) (clock : nat -> Z)
    (hmac : string -> string -> option string)
    (JSON_parse : string -> option Json.t)
    (route : Route) (env : Env.t) (req : Request.t) (w : World R) :
  route_check hmac route env req = None ->
  no_contact_id JSON_parse route (Request.rawBody req) ->
  exists message,
    webhookRouter client ghl clock hmac JSON_parse route env req w
    = Some (Response.mk 400 false (Some message) None None, w).
Proof.
  intros Hcheck Hbody.
  destruct route;
    unfold route_check, webhookRouter, no_contact_id, route_id_chain in *.
  - unfold GHLWebhook_handle. rewrite Hcheck.
    destruct Hbody as [Hparse | (v & Hparse & Hnull & Hid)]; rewrite Hparse.
    + eexists. reflexivity.
    + assert (Json.truthy (Json.or (webhook_id_chain v) (webhook_id_chain v)) = false)
        as Hor.
      { unfold Json.or. rewrite Hid. exact Hid. }
      destruct v; try contradiction; rewrite Hor; eexists; reflexivity.
  - unfold GHLWorkflow_handle.
    destruct Hbody as [Hparse | (v & Hparse & Hnull & Hid)]; rewrite Hparse.
    + eexists. reflexivity.
    + destruct v; try contradiction; rewrite Hid; eexists; reflexivity.
Qed.

Lemma unusable_body_is_rejected_witness :
  exists message,
    webhookRouter Sim.client (Sim.crm []) Sim.clock Sim.hmac Sim.parse
      Route_ghl (Sim.env (Some "s3cret")) (Request.mk "{}" None) Sim.world0
    = Some (Response.mk 400 false (Some message) None None, Sim.world0).
Proof.
  apply (unusable_body_is_rejected Sim.client (Sim.crm []) Sim.clock Sim.hmac
           Sim.parse Route_ghl (Sim.env (Some "s3cret")) (Request.mk "{}" None)
           Sim.world0).
  - reflexivity.
  - right. exists (Json.JObj []). split; [reflexivity|].
    split; [discriminate | reflexivity].
Defined.

(** When none of the aliases is present the id chain is undefined. *)
Lemma absent_aliases_give_no_id (route : Route) (v : Json.t) :
  Json.opt_prop (Some v) "id" = None ->
  Json.opt_prop (Some v) "contactId" = None ->
  Json.opt_prop (Some v) "contact_id" = None ->
  Json.opt_prop (Json.opt_prop (Some v) "contact") "id" = None ->
  Json.truthy (route_id_chain route v) = false.
Proof.
  intros H1 H2 H3 H4.
  destruct route; simpl; unfold webhook_id_chain, workflow_id_chain, Json.or;
    rewrite H1, H2, H3, H4; reflexivity.
Qed.

(** C7, as stated, fails on the signed route: a body that is not JSON,
    sent with a signature that does not verify, is answered 401, not 400.
    (The body null, which is JSON and holds no id, is answered 500 on both
    routes: reading a property of null throws and the outer catch answers.) *)
Lemma forged_garbage_is_answered_401 :
  Sim.parse (Request.rawBody Sim.forged_garbage) = None
  /\ webhookRouter Sim.client (Sim.crm []) Sim.clock Sim.hmac Sim.parse
       Route_ghl (Sim.env (Some "s3cret")) Sim.forged_garbage Sim.world0
     = Some (Response.mk 401 false (Some "Invalid webhook signature") None None,
             Sim.world0)
  /\ Sim.parse "null" = Some Json.JNull
  /\ webhookRouter Sim.client (Sim.crm []) Sim.clock Sim.hmac Sim.parse
       Route_ghl_workflow (Sim.env None) (Request.mk "null" None) Sim.world0
     = Some (Response.mk 500 false
               (Some "Cannot read properties of null (reading 'contact_id')")
               None None,
             Sim.world0).
Proof. repeat split; vm_compute; reflexivity. Qed.


(** * Further properties of the code *)

(** ** The ledger under the service operations *)

Section LedgerFrame.
Implicit Types (db : Ledger.table) (r : SyncedContact.t) (u : Updates.t).

Lemma createOrUpdateSyncRecord_other db data j :
  SyncedContact.ghl_contact_id data <> j ->
  Ledger.createOrUpdateSyncRecord data db !! j = db !! j.
Proof.
  intros Hne. unfold Ledger.createOrUpdateSyncRecord.
  destruct (Ledger.getSyncedContact _ db); apply lookup_insert_ne; exact Hne.
Qed.

Lemma updateSyncRecord_other db k u j :
  k <> j -> Ledger.updateSyncRecord k u db !! j = db !! j.
Proof.
  intros Hne. unfold Ledger.updateSyncRecord.
  destruct (Ledger.getSyncedContact k db).
  - apply lookup_insert_ne. exact Hne.
  - apply createOrUpdateSyncRecord_other. exact Hne.
Qed.

Lemma markAsCustomer_other db k j :
  k <> j -> Ledger.markAsCustomer k db !! j = db !! j.
Proof.
  intros Hne. unfold Ledger.markAsCustomer.
  rewrite lookup_alter_ne by exact Hne.
  apply updateSyncRecord_other. exact Hne.
Qed.

Lemma createOrUpdateSyncRecord_keeps db data j :
  is_Some (db !! j) -> is_Some (Ledger.createOrUpdateSyncRecord data db !! j).
Proof.
  intros Hj. unfold Ledger.createOrUpdateSyncRecord.
  destruct (Ledger.getSyncedContact _ db);
    (destruct (decide (SyncedContact.ghl_contact_id data = j)) as [->|Hne];
     [rewrite lookup_insert_eq; eauto | rewrite lookup_insert_ne by exact Hne; exact Hj]).
Qed.

Lemma updateSyncRecord_keeps db k u j :
  is_Some (db !! j) -> is_Some (Ledger.updateSyncRecord k u db !! j).
Proof.
  intros Hj. unfold Ledger.updateSyncRecord.
  destruct (Ledger.getSyncedContact k db).
  - destruct (decide (k = j)) as [->|Hne];
      [rewrite lookup_insert_eq; eauto | rewrite lookup_insert_ne by exact Hne; exact Hj].
  - apply createOrUpdateSyncRecord_keeps. exact Hj.
Qed.

Lemma markAsCustomer_keeps db k j :
  is_Some (db !! j) -> is_Some (Ledger.markAsCustomer k db !! j).
Proof.
  intros Hj. unfold Ledger.markAsCustomer.
  apply (updateSyncRecord_keeps db k
           (Updates.mk None None None None None (Some Status_excluded) None None))
    in Hj.
  destruct Hj as [r Hr].
  destruct (decide (k = j)) as [->|Hne].
  - rewrite lookup_alter_eq, Hr. simpl. eauto.
  - rewrite lookup_alter_ne by exact Hne. rewrite Hr. eauto.
Qed.

(** After markAsCustomer the row is there, excluded and flagged. *)
Lemma markAsCustomer_lookup db k :
  exists r0,
    Ledger.updateSyncRecord k
      (Updates.mk None None None None None (Some Status_excluded) None None) db
    !! k = Some r0
    /\ Ledger.markAsCustomer k db !! k = Some (Ledger.set_customer r0)
    /\ SyncedContact.sync_status r0 = Status_excluded
    /\ (forall old, db !! k = Some old ->
         r0 = SyncedContact.mk
                (SyncedContact.ghl_contact_id old)
                (SyncedContact.calltools_contact_id old)
                (SyncedContact.first_name old)
                (SyncedContact.last_name old)
                (SyncedContact.phone old)
                (SyncedContact.email old)
                Status_excluded
                (SyncedContact.last_sync_at old)
                (SyncedContact.error_message old)
                (SyncedContact.is_customer old)).
Proof.
  unfold Ledger.markAsCustomer, Ledger.updateSyncRecord,
    Ledger.createOrUpdateSyncRecord, Ledger.getSyncedContact.
  destruct (db !! k) as [old|] eqn:Hold; simpl.
  - eexists. rewrite lookup_alter_eq, lookup_insert_eq. simpl.
    repeat split. intros old' Heq. injection Heq as <-. reflexivity.
  - rewrite Hold. eexists. rewrite lookup_alter_eq, lookup_insert_eq. simpl.
    repeat split. intros old' Heq. discriminate.
Qed.

Lemma markAsCustomer_flags db k : flagged_in k (Ledger.markAsCustomer k db).
Proof.
  destruct (markAsCustomer_lookup db k) as (r0 & _ & Hlook & _).
  exists (Ledger.set_customer r0). split; [exact Hlook | reflexivity].
Qed.

Lemma markAsCustomer_keeps_flag db k j :
  flagged_in j db -> flagged_in j (Ledger.markAsCustomer k db).
Proof.
  intros Hj. destruct (decide (k = j)) as [->|Hne].
  - apply markAsCustomer_flags.
  - destruct Hj as (r & Hr & Hflag). exists r.
    rewrite (markAsCustomer_other db k j Hne). split; assumption.
Qed.

Lemma markAsCustomer_idem db k :
  Ledger.markAsCustomer k (Ledger.markAsCustomer k db) = Ledger.markAsCustomer k db.
Proof.
  apply map_eq. intros j.
  destruct (decide (k = j)) as [<-|Hne].
  - destruct (markAsCustomer_lookup db k) as (r0 & _ & Hlook & Hst & _).
    destruct (markAsCustomer_lookup (Ledger.markAsCustomer k db) k)
      as (r1 & _ & Hlook1 & _ & Hold1).
    rewrite Hlook1, Hlook. rewrite (Hold1 _ Hlook).
    destruct r0; simpl in *. subst. reflexivity.
  - rewrite !markAsCustomer_other by exact Hne. reflexivity.
Qed.

End LedgerFrame.

(** X3.  markAsCustomer leaves the row of the id excluded and flagged
    (is_customer = 1) whether or not a row existed; an existing row keeps
    all its other columns, error_message and last_sync_at included; and
    marking twice is the same as marking once. *)
Theorem markAsCustomer_marks_once_and_for_all (db : Ledger.table) (k : string) :
  (exists r,
      Ledger.markAsCustomer k db !! k = Some r
      /\ SyncedContact.sync_status r = Status_excluded
      /\ SyncedContact.is_customer r = 1%Z
      /\ forall old, db !! k = Some old ->
           SyncedContact.calltools_contact_id r = SyncedContact.calltools_contact_id old
           /\ SyncedContact.first_name r = SyncedContact.first_name old
           /\ SyncedContact.last_name r = SyncedContact.last_name old
           /\ SyncedContact.phone r = SyncedContact.phone old
           /\ SyncedContact.email r = SyncedContact.email old
           /\ SyncedContact.last_sync_at r = SyncedContact.last_sync_at old
           /\ SyncedContact.error_message r = SyncedContact.error_message old)
  /\ Ledger.markAsCustomer k (Ledger.markAsCustomer k db) = Ledger.markAsCustomer k db.
Proof.
  split.
  - destruct (markAsCustomer_lookup db k) as (r0 & _ & Hlook & Hst & Hold).
    exists (Ledger.set_customer r0). split; [exact Hlook|].
    split; [exact Hst|]. split; [reflexivity|].
    intros old Ho. rewrite (Hold old Ho). simpl. repeat split.
  - apply markAsCustomer_idem.
Qed.

Section ServiceLedgerFacts.
Context {R : Type}.
Context (client : CallToolsClient R) (ghl : GHLServer) (clock : nat -> Z).
Implicit Types (Q : Ledger.table -> Prop).

Lemma preserves_on_db_remote_call Q {A} (c : Call) (f : R -> (Thrown + A) * R) :
  preserves (on_db Q) (remote_call c f).
Proof. intros w Hw. unfold remote_call. destruct (f (remote w)); exact Hw. Qed.

Lemma preserves_on_db_now Q : preserves (R:=R) (on_db Q) (now clock).
Proof. intros w Hw. exact Hw. Qed.

Lemma preserves_on_db_getSyncedContact Q i :
  preserves (R:=R) (on_db Q) (getSyncedContact i).
Proof. intros w Hw. unfold getSyncedContact. destruct i; exact Hw. Qed.

Lemma preserves_on_db_write Q (f : Ledger.table -> Ledger.table) :
  (forall db0, Q db0 -> Q (f db0)) -> preserves (R:=R) (on_db Q) (db_write f).
Proof. intros Hf w Hw. apply Hf. exact Hw. Qed.

Local Ltac dstep tac :=
  first
    [ apply preserves_ret
    | apply preserves_throw
    | apply preserves_lift
    | apply preserves_on_db_remote_call
    | apply preserves_on_db_now
    | apply preserves_on_db_getSyncedContact
    | apply preserves_on_db_write; intros ? ?; tac
    | apply preserves_bind; [|intro]
    | apply preserves_try_catch; [|intro]
    | match goal with
      | |- preserves _ (if ?b then _ else _) => destruct b
      | |- preserves _ (match ?x with _ => _ end) => destruct x
      end ].

(** *** Rows are kept *)

Lemma syncContact_keeps_rows ghlContact result bucketId k :
  preserves (on_db (fun db0 => is_Some (db0 !! k)))
    (syncContact client clock ghlContact result bucketId).
Proof.
  unfold syncContact, sync_to_calltools.
  repeat dstep ltac:(first [ apply updateSyncRecord_keeps
                           | apply createOrUpdateSyncRecord_keeps ]; assumption).
Qed.

Lemma syncSingleContact_keeps_rows ghlContactId webhookContactData k :
  preserves (on_db (fun db0 => is_Some (db0 !! k)))
    (syncSingleContact client ghl clock ghlContactId webhookContactData).
Proof.
  unfold syncSingleContact.
  repeat first
    [ apply syncContact_keeps_rows
    | dstep ltac:(apply markAsCustomer_keeps; assumption) ].
Qed.

Lemma sync_each_keeps_rows bucketId coldContacts k :
  forall result,
    preserves (on_db (fun db0 => is_Some (db0 !! k)))
      (sync_each client clock bucketId coldContacts result).
Proof.
  induction coldContacts as [|c rest IH]; intros result; simpl.
  - apply preserves_ret.
  - apply preserves_bind; [|intro; apply IH].
    unfold sync_one. apply preserves_try_catch; [apply syncContact_keeps_rows|].
    intro. apply preserves_ret.
Qed.

(** *** A reconcile writes the row of its own contact only *)

Lemma syncContact_frame ghlContact result bucketId k (w : World R) :
  GHLContact.id ghlContact <> Some k ->
  db (snd (syncContact client clock ghlContact result bucketId w)) !! k = db w !! k.
Proof.
  intros Hne.
  destruct (GHLContact.id ghlContact) as [i|] eqn:Hid.
  - assert (i <> k) as Hik by congruence.
    assert (preserves (on_db (fun db0 => db0 !! k = db w !! k))
              (syncContact client clock ghlContact result bucketId)) as Hp.
    { unfold syncContact, sync_to_calltools. rewrite Hid. simpl default.
      repeat dstep ltac:(first
        [ rewrite updateSyncRecord_other by exact Hik
        | rewrite createOrUpdateSyncRecord_other by exact Hik ]; assumption). }
    exact (Hp w eq_refl).
  - unfold syncContact, bind, getSyncedContact. rewrite Hid. reflexivity.
Qed.

Lemma syncContact_keeps_flag ghlContact result bucketId k (w : World R) :
  flagged_in k (db w) ->
  flagged_in k (db (snd (syncContact client clock ghlContact result bucketId w))).
Proof.
  intros (r & Hr & Hflag).
  destruct (decide (GHLContact.id ghlContact = Some k)) as [Hid|Hne].
  - rewrite (syncContact_flagged client clock _ _ _ k r w Hid Hr Hflag).
    exists r. split; assumption.
  - exists r. rewrite (syncContact_frame _ _ _ k w Hne). split; assumption.
Qed.

Lemma syncContact_preserves_flag ghlContact result bucketId k :
  preserves (on_db (flagged_in k))
    (syncContact client clock ghlContact result bucketId).
Proof. intros w Hw. apply syncContact_keeps_flag. exact Hw. Qed.

Lemma syncSingleContact_preserves_flag ghlContactId webhookContactData k :
  preserves (on_db (flagged_in k))
    (syncSingleContact client ghl clock ghlContactId webhookContactData).
Proof.
  unfold syncSingleContact.
  repeat first
    [ apply syncContact_preserves_flag
    | dstep ltac:(apply markAsCustomer_keeps_flag; assumption) ].
Qed.

Lemma sync_each_preserves_flag bucketId coldContacts k :
  forall result,
    preserves (on_db (flagged_in k))
      (sync_each client clock bucketId coldContacts result).
Proof.
  induction coldContacts as [|c rest IH]; intros result; simpl.
  - apply preserves_ret.
  - apply preserves_bind; [|intro; apply IH].
    unfold sync_one. apply preserves_try_catch; [apply syncContact_preserves_flag|].
    intro. apply preserves_ret.
Qed.

Lemma sync_each_frame bucketId coldContacts k :
  Forall (fun c => GHLContact.id c <> Some k) coldContacts ->
  forall result (w : World R),
    db (snd (sync_each client clock bucketId coldContacts result w)) !! k = db w !! k.
Proof.
  induction 1 as [|c rest Hc _ IH]; intros result w; simpl; [reflexivity|].
  unfold bind, sync_one, try_catch.
  pose proof (syncContact_frame c result bucketId k w Hc) as Hone.
  destruct (syncContact client clock c result bucketId w) as [[e|r'] w'];
    simpl in *; rewrite IH; exact Hone.
Qed.

End ServiceLedgerFacts.

(** X1.  A reconcile of one contact, from the CRM or from a payload whose
    contact fields are strings or absent, changes no other contact's ledger
    row: every row whose key is neither the id the reconcile was invoked
    with nor the id of the contact it resolved is the same afterwards. *)
Theorem reconcile_leaves_other_rows_alone {R : Type}
    (client : CallToolsClient R) (ghl : GHLServer) (clock : nat -> Z)
    (ghlContactId : string) (webhookContactData : Json.value)
    (k : string) (w : World R) :
  typed_payload webhookContactData = true ->
  k <> ghlContactId ->
  (forall c, resolve_contact ghl ghlContactId webhookContactData = inr c ->
             GHLContact.id c <> Some k) ->
  db (snd (syncSingleContact client ghl clock ghlContactId webhookContactData w)) !! k
  = db w !! k.
Proof.
  intros _ Hk Hres.
  unfold syncSingleContact, try_catch, bind, lift.
  destruct (resolve_contact ghl ghlContactId webhookContactData) as [e|c];
    simpl; [reflexivity|].
  specialize (Hres c eq_refl).
  destruct (isCustomer (lowered_tags c)); simpl.
  - apply markAsCustomer_other. congruence.
  - destruct (isCold (lowered_tags c)); simpl; [|reflexivity].
    pose proof (syncContact_frame client clock c
                  (SyncResult.mk 1 0 0 0 0 "Cold Leads" (Some "11237") [])
                  "11237" k w Hres) as Hone.
    destruct (syncContact client clock c _ "11237" w) as [[e|r'] w'];
      simpl in *; exact Hone.
Qed.

Lemma reconcile_leaves_other_rows_alone_witness :
  db (snd (syncSingleContact Sim.client (Sim.crm []) Sim.clock "c9"
             (Some Sim.cold_json) Sim.flagged_world)) !! "zz"
  = db Sim.flagged_world !! "zz".
Proof.
  apply (reconcile_leaves_other_rows_alone Sim.client (Sim.crm [])
           Sim.clock "c9" (Some Sim.cold_json) "zz" Sim.flagged_world).
  - reflexivity.
  - discriminate.
  - intros c Hc. vm_compute in Hc. injection Hc as <-. discriminate.
Defined.

(** X2.  Once the contacts are fetched the batch runs to its end, and it
    changes the ledger rows of the contacts it was given and no others. *)
Theorem batch_leaves_other_rows_alone {R : Type}
    (client : CallToolsClient R) (ghl : GHLServer) (clock : nat -> Z)
    (fuel : nat) (coldContacts : list GHLContact.t) (k : string)
    (w : World R) :
  getColdContactsExcludingCustomers ghl fuel = Some (inr coldContacts) ->
  Forall (fun c => GHLContact.id c <> Some k) coldContacts ->
  exists out w',
    syncColdContacts client ghl clock fuel w = Some (out, w')
    /\ db w' !! k = db w !! k.
Proof.
  intros Hfetch Hids. unfold syncColdContacts. rewrite Hfetch.
  pose proof (sync_each_frame client clock "11237" coldContacts k Hids
                (SyncResult.set_total_processed (Z.of_nat (length coldContacts))
                   (SyncResult.set_bucket_id (Some "11237")
                      (SyncResult.mk 0 0 0 0 0 "Cold Leads" None [])))
                w) as Hframe.
  match goal with
  | |- context [sync_each ?cl ?ck ?b ?cs ?r ?w0] =>
      destruct (sync_each cl ck b cs r w0) as [out w'] eqn:Hrun
  end.
  exists out, w'. split; [reflexivity | exact Hframe].
Qed.

Lemma batch_leaves_other_rows_alone_witness :
  exists out w',
    syncColdContacts Sim.client (Sim.crm [SimMore.prospect]) Sim.clock 3
      Sim.flagged_world = Some (out, w')
    /\ db w' !! "c1" = db Sim.flagged_world !! "c1".
Proof.
  apply (batch_leaves_other_rows_alone Sim.client (Sim.crm [SimMore.prospect])
           Sim.clock 3 [SimMore.prospect] "c1" Sim.flagged_world).
  - vm_compute. reflexivity.
  - repeat constructor. discriminate.
Defined.

(** X4.  The customer flag is sticky: no operation of the service
    (syncSingleContact, syncColdContacts, markAsCustomer), against any
    dialer, CRM and clock, takes the flag off a row that has it. *)
Theorem customer_flag_is_sticky {R : Type}
    (client : CallToolsClient R) (ghl : GHLServer) (clock : nat -> Z)
    (op : Op) (w w' : World R) (k : string) (r : SyncedContact.t) :
  run_op client ghl clock op w = Some w' ->
  db w !! k = Some r ->
  SyncedContact.is_customer r = 1%Z ->
  exists r', db w' !! k = Some r' /\ SyncedContact.is_customer r' = 1%Z.
Proof.
  intros Hrun Hr Hflag.
  assert (flagged_in k (db w)) as Hw by (exists r; split; assumption).
  change (flagged_in k (db w')).
  destruct op as [id d | fuel | id]; simpl in Hrun.
  - injection Hrun as <-. apply syncSingleContact_preserves_flag. exact Hw.
  - unfold syncColdContacts in Hrun.
    destruct (getColdContactsExcludingCustomers ghl fuel) as [[e|cold]|];
      simpl in Hrun; try discriminate; injection Hrun as <-.
    + exact Hw.
    + apply sync_each_preserves_flag. exact Hw.
  - injection Hrun as <-. apply markAsCustomer_keeps_flag. exact Hw.
Qed.

Lemma customer_flag_is_sticky_witness :
  exists r',
    db (snd (syncSingleContact Sim.client (Sim.crm [SimMore.prospect]) Sim.clock
               "c2" None Sim.flagged_world)) !! "c1" = Some r'
    /\ SyncedContact.is_customer r' = 1%Z.
Proof.
  apply (customer_flag_is_sticky Sim.client (Sim.crm [SimMore.prospect]) Sim.clock
           (Op_syncSingleContact "c2" None) Sim.flagged_world
           (snd (syncSingleContact Sim.client (Sim.crm [SimMore.prospect]) Sim.clock
                   "c2" None Sim.flagged_world))
           "c1" (Sim.customer_row "c1")).
  - reflexivity.
  - vm_compute. reflexivity.
  - reflexivity.
Defined.

(** X5.  No operation of the service deletes a ledger row. *)
Theorem ledger_rows_are_never_deleted {R : Type}
    (client : CallToolsClient R) (ghl : GHLServer) (clock : nat -> Z)
    (op : Op) (w w' : World R) (k : string) :
  run_op client ghl clock op w = Some w' ->
  is_Some (db w !! k) ->
  is_Some (db w' !! k).
Proof.
  intros Hrun Hw.
  destruct op as [id d | fuel | id]; simpl in Hrun.
  - injection Hrun as <-.
    exact (syncSingleContact_keeps_rows client ghl clock id d k w Hw).
  - unfold syncColdContacts in Hrun.
    destruct (getColdContactsExcludingCustomers ghl fuel) as [[e|cold]|];
      simpl in Hrun; try discriminate; injection Hrun as <-.
    + exact Hw.
    + exact (sync_each_keeps_rows client clock "11237" cold k _ w Hw).
  - injection Hrun as <-. apply markAsCustomer_keeps. exact Hw.
Qed.

Lemma ledger_rows_are_never_deleted_witness :
  is_Some (db (snd (markAsCustomer "c2" Sim.world1)) !! "c1").
Proof.
  apply (ledger_rows_are_never_deleted Sim.client (Sim.crm [Sim.lead]) Sim.clock
           (Op_markAsCustomer "c2") Sim.world1
           (snd (markAsCustomer "c2" Sim.world1)) "c1").
  - reflexivity.
  - vm_compute. eexists. reflexivity.
Defined.

(** ** Marking and reconciling *)

(** X6.  Once a contact has been marked as customer, reconciling it
    again -- whatever labels it carries now, and whether or not it can be
    resolved -- leaves the world as it was: no call to the dialer, no clock
    read, and every ledger row as before. *)
Theorem marked_customer_is_left_alone {R : Type}
    (client : CallToolsClient R) (ghl : GHLServer) (clock : nat -> Z)
    (ghlContactId : string) (webhookContactData : Json.value) (w : World R) :
  (forall c, resolve_contact ghl ghlContactId webhookContactData = inr c ->
             GHLContact.id c = Some ghlContactId) ->
  snd (syncSingleContact client ghl clock ghlContactId webhookContactData
         (snd (markAsCustomer ghlContactId w)))
  = snd (markAsCustomer ghlContactId w).
Proof.
  intros Hres.
  unfold syncSingleContact, try_catch, bind, lift.
  destruct (resolve_contact ghl ghlContactId webhookContactData) as [e|c];
    simpl; [reflexivity|].
  specialize (Hres c eq_refl).
  destruct (isCustomer (lowered_tags c)); simpl.
  - unfold db_write. simpl. rewrite markAsCustomer_idem. reflexivity.
  - destruct (isCold (lowered_tags c)); simpl; [|reflexivity].
    destruct (markAsCustomer_flags (db w) ghlContactId) as (r & Hr & Hflag).
    rewrite (syncContact_flagged client clock c _ "11237" ghlContactId r
               (snd (markAsCustomer ghlContactId w)) Hres Hr Hflag).
    reflexivity.
Qed.

Lemma marked_customer_is_left_alone_witness :
  snd (syncSingleContact Sim.client (Sim.crm [Sim.lead]) Sim.clock "c1" None
         (snd (markAsCustomer "c1" Sim.world1)))
  = snd (markAsCustomer "c1" Sim.world1).
Proof.
  apply (marked_customer_is_left_alone Sim.client (Sim.crm [Sim.lead]) Sim.clock
           "c1" None Sim.world1).
  intros c Hc. vm_compute in Hc. injection Hc as <-. reflexivity.
Defined.

(** X7.  syncSingleContact never throws: whatever the CRM, the dialer and
    the payload do, it resolves to a result for the id it was given.  In
    that result success = false only with action failed; the actions synced
    and updated come with success = true and bucket 11237; the action
    excluded comes with success = true and no bucket. *)
Theorem syncSingleContact_always_resolves {R : Type}
    (client : CallToolsClient R) (ghl : GHLServer) (clock : nat -> Z)
    (ghlContactId : string) (webhookContactData : Json.value) (w : World R) :
  exists r w',
    syncSingleContact client ghl clock ghlContactId webhookContactData w = (inr r, w')
    /\ SingleSync.contact_id r = ghlContactId
    /\ (SingleSync.success r = false -> SingleSync.action r = Action_failed)
    /\ (SingleSync.action r = Action_synced \/ SingleSync.action r = Action_updated ->
        SingleSync.success r = true /\ SingleSync.bucket_id r = Some "11237")
    /\ (SingleSync.action r = Action_excluded ->
        SingleSync.success r = true /\ SingleSync.bucket_id r = None).
Proof.
  assert (forall r : SingleSync.t, forall P : Prop,
            (SingleSync.action r = Action_synced \/ SingleSync.action r = Action_updated -> P)
            <-> ((SingleSync.action r = Action_synced -> P)
                 /\ (SingleSync.action r = Action_updated -> P))) as Hor by tauto.
  unfold syncSingleContact, try_catch, bind, lift.
  destruct (resolve_contact ghl ghlContactId webhookContactData) as [e|c]; simpl.
  - eexists _, _. split; [reflexivity|]. rewrite Hor. simpl.
    repeat split; intros; congruence.
  - destruct (isCustomer (lowered_tags c)); simpl.
    + eexists _, _. split; [reflexivity|]. rewrite Hor. simpl.
      repeat split; intros; congruence.
    + destruct (isCold (lowered_tags c)); simpl.
      * pose proof (syncContact_exactly_one client clock c
                      (SyncResult.mk 1 0 0 0 0 "Cold Leads" (Some "11237") [])
                      "11237" w) as Hone.
        destruct (syncContact client clock c _ "11237" w) as [[e|r'] w'];
          simpl in *.
        -- eexists _, _. split; [reflexivity|]. rewrite Hor. simpl.
           repeat split; intros; congruence.
        -- eexists _, _. split; [reflexivity|]. rewrite Hor. simpl.
           destruct Hone as [[_ Hone] _]. unfold action_of.
           assert (SyncResult.synced r' = 1 /\ SyncResult.updated r' = 0
                   /\ SyncResult.failed r' = 0
                   \/ SyncResult.synced r' = 0 /\ SyncResult.updated r' = 1
                      /\ SyncResult.failed r' = 0
                   \/ SyncResult.synced r' = 0 /\ SyncResult.updated r' = 0
                      /\ SyncResult.failed r' = 0
                   \/ SyncResult.synced r' = 0 /\ SyncResult.updated r' = 0
                      /\ SyncResult.failed r' = 1)%Z as Hcases.
           { simpl in Hone. lia. }
           destruct Hcases as [K|[K|[K|K]]]; destruct K as (-> & -> & ->);
             simpl; repeat split; intros; congruence.
      * eexists _, _. split; [reflexivity|]. rewrite Hor. simpl.
        repeat split; intros; congruence.
Qed.

(** ** Webhook verification *)

(** X8.  constantTimeCompare decides equality of strings: it answers true
    exactly when the two strings are the same, code unit by code unit. *)
Theorem constantTimeCompare_is_string_equality (a b : string) :
  Verification.constantTimeCompare a b = true <-> a = b.
Proof. apply constantTimeCompare_true_iff. Qed.

(** X9.  verifySignature accepts a request exactly when a non-empty
    signature is given and it is the HMAC digest of the payload under the
    secret; a missing or empty signature, a failure of the digest and any
    difference are all refused. *)
Theorem verifySignature_accepts_the_digest_only
    (hmac : string -> string -> option string)
    (secret payload : string) (signature : option string) :
  Verification.verifySignature hmac secret payload signature = true
  <-> exists sig, signature = Some sig /\ sig <> "" /\ hmac secret payload = Some sig.
Proof.
  destruct signature as [sig|].
  - rewrite verifySignature_true_iff. split.
    + intros [Hne Hd]. exists sig. repeat split; assumption.
    + intros (sig' & Heq & Hne & Hd). injection Heq as <-. split; assumption.
  - split; [discriminate|]. intros (sig & Heq & _). discriminate.
Qed.

(** ** The CRM fetch of the batch (src/clients/gohighlevel.ts) *)

Section FetchFacts.
Context (ghl : GHLServer).

Lemma fetch_all_collects (held : list GHLContact.t) :
  (forall skip, contacts_page ghl limit skip = inr (take limit (drop skip held))) ->
  forall fuel skip,
    (skip <= length held)%nat ->
    (length held < skip + fuel * limit)%nat ->
    fetch_all ghl fuel skip (take skip held) = Some (inr held).
Proof.
  intros Hpages. unfold limit in *.
  induction fuel as [|fuel IH]; intros skip Hle Hlt; [lia|].
  simpl. unfold limit. rewrite Hpages.
  pose proof (length_take (drop skip held) 100) as Hlen.
  rewrite length_drop in Hlen.
  destruct (0 <? length (take 100 (drop skip held)))%nat eqn:Hpos.
  - apply Nat.ltb_lt in Hpos.
    destruct (length (take 100 (drop skip held)) =? 100)%nat eqn:Hfull.
    + apply Nat.eqb_eq in Hfull.
      rewrite take_take_drop. apply IH; lia.
    + apply Nat.eqb_neq in Hfull.
      rewrite (take_ge (drop skip held)) by (rewrite length_drop; lia).
      rewrite take_drop. reflexivity.
  - apply Nat.ltb_ge in Hpos.
    rewrite (take_ge held) by lia. reflexivity.
Qed.

Lemma fetch_all_endless :
  (forall skip, exists page,
      contacts_page ghl limit skip = inr page /\ length page = limit) ->
  forall fuel skip allContacts, fetch_all ghl fuel skip allContacts = None.
Proof.
  intros Hfull. induction fuel as [|fuel IH]; intros skip acc; [reflexivity|].
  simpl. destruct (Hfull skip) as (page & -> & Hlen).
  rewrite Hlen. unfold limit. simpl. apply IH.
Qed.

End FetchFacts.

(** X10.  Against a CRM that serves its contacts in pages by offset, the
    paging loop of getColdContactsExcludingCustomers ends and returns every
    contact held, in order, filtered to the cold leads that are not
    customers -- also when the number of contacts is a multiple of the page
    size, and when there is none. *)
Theorem paged_contacts_are_all_fetched (ghl : GHLServer)
    (held : list GHLContact.t) :
  (forall skip, contacts_page ghl limit skip = inr (take limit (drop skip held))) ->
  getColdContactsExcludingCustomers ghl (S (length held))
  = Some (inr (filter cold_filter held)).
Proof.
  intros Hpages. unfold getColdContactsExcludingCustomers.
  pose proof (fetch_all_collects ghl held Hpages (S (length held)) 0) as H.
  change (take 0 held) with (@nil GHLContact.t) in H.
  rewrite H; [reflexivity | lia | unfold limit; lia].
Qed.

Lemma paged_contacts_are_all_fetched_witness :
  getColdContactsExcludingCustomers
    (Sim.crm [Sim.lead; Sim.contact "c9" (Some "+15550000009") ["customer"]]) 3
  = Some (inr (filter cold_filter
                 [Sim.lead; Sim.contact "c9" (Some "+15550000009") ["customer"]])).
Proof.
  apply (paged_contacts_are_all_fetched
           (Sim.crm [Sim.lead; Sim.contact "c9" (Some "+15550000009") ["customer"]])
           [Sim.lead; Sim.contact "c9" (Some "+15550000009") ["customer"]]).
  intros skip. reflexivity.
Defined.

(** X11.  The paging loop has no bound of its own: against a CRM whose
    every page is full it never returns, and neither does the batch. *)
Theorem full_pages_never_end {R : Type}
    (client : CallToolsClient R) (ghl : GHLServer) (clock : nat -> Z)
    (fuel : nat) (w : World R) :
  (forall skip, exists page,
      contacts_page ghl limit skip = inr page /\ length page = limit) ->
  getColdContactsExcludingCustomers ghl fuel = None
  /\ syncColdContacts client ghl clock fuel w = None.
Proof.
  intros Hfull.
  assert (getColdContactsExcludingCustomers ghl fuel = None) as Hnone.
  { unfold getColdContactsExcludingCustomers.
    rewrite (fetch_all_endless ghl Hfull). reflexivity. }
  split; [exact Hnone|].
  unfold syncColdContacts. rewrite Hnone. reflexivity.
Qed.

Lemma full_pages_never_end_witness :
  getColdContactsExcludingCustomers SimMore.endless_crm 50 = None
  /\ syncColdContacts Sim.client SimMore.endless_crm Sim.clock 50 Sim.world0 = None.
Proof.
  apply (full_pages_never_end Sim.client SimMore.endless_crm Sim.clock 50 Sim.world0).
  intros skip. eexists. split; [reflexivity|]. apply length_replicate.
Defined.

(** X12.  Every contact the batch processes is one the webhook path would
    sync too: it has no customer tag and has a cold tag, under the
    classification of syncSingleContact. *)
Theorem batch_contacts_are_cold_leads (ghl : GHLServer) (fuel : nat)
    (coldContacts : list GHLContact.t) (c : GHLContact.t) :
  getColdContactsExcludingCustomers ghl fuel = Some (inr coldContacts) ->
  c ∈ coldContacts ->
  isCustomer (lowered_tags c) = false /\ isCold (lowered_tags c) = true.
Proof.
  unfold getColdContactsExcludingCustomers.
  destruct (fetch_all ghl fuel 0 []) as [[e|allContacts]|]; try discriminate.
  intros Heq Hin. injection Heq as <-.
  apply list_elem_of_filter in Hin. destruct Hin as [Hcold _].
  unfold cold_filter, lowered_tags in *.
  destruct (GHLContact.tags c) as [tags|]; simpl in *.
  - destruct (isCustomer (map JS.toLowerCase tags)); [contradiction|].
    split; [reflexivity|]. apply Is_true_true. exact Hcold.
  - contradiction.
Qed.

Lemma batch_contacts_are_cold_leads_witness :
  isCustomer (lowered_tags Sim.lead) = false /\ isCold (lowered_tags Sim.lead) = true.
Proof.
  apply (batch_contacts_are_cold_leads
           (Sim.crm [Sim.lead; Sim.contact "c9" (Some "+15550000009") ["customer"]])
           3 [Sim.lead] Sim.lead).
  - vm_compute. reflexivity.
  - apply list_elem_of_here.
Defined.

(** ** The other methods of the dialer client (src/clients/calltools.ts) *)

Section ClientFacts.
Context {St : Type} (api : DialerApi St).

Lemma strip_noise_clean (s : string) (c : ascii) :
  In c (list_ascii_of_string (CallTools.strip_noise s)) ->
  CallTools.phone_noise c = false.
Proof.
  induction s as [|x s IH]; simpl; [tauto|].
  destruct (CallTools.phone_noise x) eqn:Hx; simpl; [exact IH|].
  intros [<-|Hin]; [exact Hx | exact (IH Hin)].
Qed.

Lemma list_ascii_of_string_app (a b : string) :
  list_ascii_of_string (a ++ b)
  = (list_ascii_of_string a ++ list_ascii_of_string b)%list.
Proof. induction a as [|x a IH]; simpl; [reflexivity | rewrite IH; reflexivity]. Qed.

Lemma create_batch_counts (batch : list CallToolsContact.t) :
  forall (results : BulkResult.t) (s : St),
    let out := fst (CallToolsMore.create_batch api batch results s) in
    (BulkResult.success out + BulkResult.failed out
     = BulkResult.success results + BulkResult.failed results
       + Z.of_nat (length batch))%Z
    /\ (Z.of_nat (length (BulkResult.errors out)) - BulkResult.failed out
        = Z.of_nat (length (BulkResult.errors results)) - BulkResult.failed results)%Z
    /\ (forall e, In e (BulkResult.errors out) ->
                  In e (BulkResult.errors results) \/ In (fst e) batch).
Proof.
  induction batch as [|contact rest IH]; intros results s; simpl.
  - repeat split; [lia | tauto].
  - destruct (CallTools.createContact api contact s) as [[e|created] s'].
    + destruct (IH (BulkResult.mk (BulkResult.success results)
                      (BulkResult.failed results + 1)
                      (BulkResult.errors results ++ [(contact, error_message_of e)])%list)
                   s') as (Hsum & Herr & Hin).
      simpl in Hsum, Herr, Hin. rewrite length_app in Herr. simpl in Herr.
      repeat split; [lia | lia |].
      intros x Hx. destruct (Hin x Hx) as [Hold|Hrest]; [|tauto].
      apply in_app_or in Hold. destruct Hold as [Hold|[<-|[]]]; simpl; tauto.
    + destruct (IH (BulkResult.mk (BulkResult.success results + 1)
                      (BulkResult.failed results) (BulkResult.errors results))
                   s') as (Hsum & Herr & Hin).
      simpl in Hsum, Herr, Hin.
      repeat split; [lia | lia |].
      intros x Hx. destruct (Hin x Hx); tauto.
Qed.

Lemma bulk_loop_counts (contacts : list CallToolsContact.t) :
  forall (fuel i : nat) (results : BulkResult.t) (s : St),
    (0 < fuel)%nat ->
    (length contacts + CallToolsMore.batchSize <= i + fuel * CallToolsMore.batchSize)%nat ->
    exists out s',
      CallToolsMore.bulk_loop api fuel i contacts results s = Some (out, s')
      /\ (BulkResult.success out + BulkResult.failed out
          = BulkResult.success results + BulkResult.failed results
            + Z.of_nat (length (drop i contacts)))%Z
      /\ (Z.of_nat (length (BulkResult.errors out)) - BulkResult.failed out
          = Z.of_nat (length (BulkResult.errors results)) - BulkResult.failed results)%Z
      /\ (forall e, In e (BulkResult.errors out) ->
                    In e (BulkResult.errors results) \/ In (fst e) contacts).
Proof.
  unfold CallToolsMore.batchSize.
  induction fuel as [|fuel IH]; intros i results s Hpos Hfuel; [lia|].
  simpl. unfold CallToolsMore.batchSize.
  destruct (i <? length contacts)%nat eqn:Hi.
  - apply Nat.ltb_lt in Hi.
    pose proof (create_batch_counts (take 10 (drop i contacts)) results s)
      as (Hsum & Herr & Hin).
    destruct (CallToolsMore.create_batch api (take 10 (drop i contacts)) results s)
      as [results' s'].
    simpl in Hsum, Herr, Hin.
    destruct (IH (i + 10)%nat results' s') as (out & s'' & Hrun & Hsum' & Herr' & Hin');
      [lia | lia |].
    exists out, s''. split; [exact Hrun|].
    assert (length (drop i contacts)
            = (length (take 10 (drop i contacts)) + length (drop (i + 10) contacts))%nat)
      as Hlen.
    { rewrite <- (take_drop 10 (drop i contacts)) at 1.
      rewrite length_app, drop_drop. reflexivity. }
    repeat split; [lia | lia |].
    intros e He. destruct (Hin' e He) as [Hold|Hc]; [|tauto].
    destruct (Hin e Hold) as [Hold'|Hb]; [tauto|]. right.
    apply list_elem_of_In. apply list_elem_of_In in Hb.
    eapply subseteq_drop, subseteq_take. exact Hb.
  - apply Nat.ltb_ge in Hi. exists results, s. split; [reflexivity|].
    rewrite drop_ge by lia. simpl.
    split; [lia|]. split; [lia|]. intros e He. left. exact He.
Qed.

End ClientFacts.

Lemma units_app (a b : string) :
  JS.units (a ++ b) = (JS.units a ++ JS.units b)%list.
Proof.
  unfold JS.units. rewrite list_ascii_of_string_app, List.map_app. reflexivity.
Qed.

Lemma length_units (s : string) : length (JS.units s) = String.length s.
Proof.
  unfold JS.units. induction s as [|c s IH]; simpl; [reflexivity|].
  rewrite IH. reflexivity.
Qed.

Lemma units_strip_noise (s : string) :
  JS.units (CallTools.strip_noise s)
  = List.filter (fun u => negb (CallTools.noise_unit u)) (JS.units s).
Proof.
  unfold JS.units. induction s as [|c s IH]; simpl; [reflexivity|].
  unfold CallTools.phone_noise.
  destruct (CallTools.noise_unit (N_of_ascii c)); simpl; rewrite IH; reflexivity.
Qed.

Lemma startsWith_plus (s : string) :
  JS.startsWith s "+" = CallTools.starts_with_plus (JS.units s).
Proof.
  destruct s as [|c s]; [reflexivity|].
  change (JS.startsWith (String c s) "+")
    with (if ascii_dec "+" c then String.prefix "" s else false).
  change (CallTools.starts_with_plus (JS.units (String c s)))
    with (N_of_ascii c =? 43)%N.
  destruct (ascii_dec "+" c) as [<-|Hne].
  - destruct s; reflexivity.
  - symmetry. apply N.eqb_neq. intros Heq. apply Hne.
    apply N_of_ascii_inj. rewrite Heq. reflexivity.
Qed.

(** On the strings of the development the client's searchPhone is
    searchPhone_units. *)
Lemma searchPhone_on_units (phoneNumber : string) :
  JS.units (CallTools.searchPhone phoneNumber)
  = CallTools.searchPhone_units (JS.units phoneNumber).
Proof.
  unfold CallTools.searchPhone, CallTools.searchPhone_units.
  rewrite startsWith_plus.
  destruct (CallTools.starts_with_plus (JS.units phoneNumber)); [reflexivity|].
  rewrite <- units_strip_noise, length_units.
  destruct (String.length (CallTools.strip_noise phoneNumber) =? 10)%nat;
    rewrite units_app; reflexivity.
Qed.

(** X13.  The phone number the dialer is searched with, as a sequence of
    UTF-16 code units: it always starts with a plus sign, and is already
    in the form the search produces; a number that starts with a plus is
    searched as it is; any other number has lost every code unit of the
    class [\s\-\(\)] -- the white space of ECMAScript, Unicode spaces
    included, dashes and parentheses.  On the strings of the development
    (code units below U+0100) the client's searchPhone is this function. *)
Theorem searchPhone_is_normalised (phoneNumber : list N) :
  (exists rest, CallTools.searchPhone_units phoneNumber = 43%N :: rest)
  /\ CallTools.searchPhone_units (CallTools.searchPhone_units phoneNumber)
     = CallTools.searchPhone_units phoneNumber
  /\ (CallTools.starts_with_plus phoneNumber = true ->
      CallTools.searchPhone_units phoneNumber = phoneNumber)
  /\ (CallTools.starts_with_plus phoneNumber = false ->
      forall u, In u (CallTools.searchPhone_units phoneNumber) ->
                CallTools.noise_unit u = false)
  /\ (forall s : string,
        JS.units (CallTools.searchPhone s)
        = CallTools.searchPhone_units (JS.units s)).
Proof.
  assert (exists rest, CallTools.searchPhone_units phoneNumber = 43%N :: rest)
    as Hplus.
  { unfold CallTools.searchPhone_units.
    destruct (CallTools.starts_with_plus phoneNumber) eqn:Hp.
    - destruct phoneNumber as [|u rest]; [discriminate|].
      simpl in Hp. apply N.eqb_eq in Hp. subst u. exists rest. reflexivity.
    - destruct (length _ =? 10)%nat; eexists; reflexivity. }
  split; [exact Hplus|]. split.
  - destruct Hplus as [rest Hrest]. rewrite Hrest. reflexivity.
  - split; [|split].
    + intros Hp. unfold CallTools.searchPhone_units. rewrite Hp. reflexivity.
    + intros Hp u. unfold CallTools.searchPhone_units. rewrite Hp.
      assert (forall x, In x (List.filter (fun u => negb (CallTools.noise_unit u))
                                phoneNumber) ->
                        CallTools.noise_unit x = false) as Hclean.
      { intros x Hx. apply List.filter_In in Hx. destruct Hx as [_ Hx].
        destruct (CallTools.noise_unit x); [discriminate | reflexivity]. }
      destruct (length _ =? 10)%nat; simpl;
        intros Hin; repeat (destruct Hin as [<-|Hin]; [reflexivity|]);
        exact (Hclean u Hin).
    + exact searchPhone_on_units.
Qed.

(** X14.  Tagging is best effort in the client: addTagToContact and
    removeTagFromContact never throw, whatever the tag endpoints answer.
    When the search for the tag finds none, removeTagFromContact sends no
    further request, and when the search itself fails neither method
    does. *)
Theorem tagging_never_throws {St : Type} (api : DialerApi St)
    (PATCH_alltags_remove : Z -> string -> St -> Http unit * St)
    (contactId tagName : string) (s : St) :
  fst (CallTools.addTagToContact api contactId tagName s) = inr tt
  /\ fst (CallToolsMore.removeTagFromContact api PATCH_alltags_remove
            contactId tagName s) = inr tt
  /\ (fst (GET_alltags api tagName s) = Ok [] ->
      snd (CallToolsMore.removeTagFromContact api PATCH_alltags_remove
             contactId tagName s) = snd (GET_alltags api tagName s))
  /\ ((forall ids, fst (GET_alltags api tagName s) <> Ok ids) ->
      snd (CallTools.addTagToContact api contactId tagName s)
      = snd (GET_alltags api tagName s)
      /\ snd (CallToolsMore.removeTagFromContact api PATCH_alltags_remove
                contactId tagName s) = snd (GET_alltags api tagName s)).
Proof.
  unfold CallTools.addTagToContact, CallToolsMore.removeTagFromContact.
  destruct (GET_alltags api tagName s) as [[e|status text|[|tagId ids]] s1]; simpl.
  - repeat split; try reflexivity; intros; discriminate.
  - repeat split; try reflexivity; intros; discriminate.
  - destruct (POST_alltags api tagName s1) as [[e|status text|tagId] s2]; simpl;
      (split; [reflexivity|]); (split; [reflexivity|]);
      (split; [reflexivity|]); intros H; exfalso; exact (H [] eq_refl).
  - split; [reflexivity|]. split; [reflexivity|]. split; [discriminate|].
    intros H; exfalso; exact (H (tagId :: ids) eq_refl).
Qed.

(** X15.  bulkCreateContacts always comes to an end and accounts for every
    contact once: success plus failed is the number of contacts given,
    there is one error entry per failed contact, and every error entry is
    about a contact of the input. *)
Theorem bulkCreateContacts_accounts_for_every_contact {St : Type}
    (api : DialerApi St) (contacts : list CallToolsContact.t) (s : St) :
  exists results s',
    CallToolsMore.bulkCreateContacts api contacts s = Some (results, s')
    /\ (BulkResult.success results + BulkResult.failed results
        = Z.of_nat (length contacts))%Z
    /\ Z.of_nat (length (BulkResult.errors results)) = BulkResult.failed results
    /\ (forall e, In e (BulkResult.errors results) -> In (fst e) contacts).
Proof.
  unfold CallToolsMore.bulkCreateContacts.
  destruct (bulk_loop_counts api contacts (S (length contacts)) 0
              (BulkResult.mk 0 0 []) s)
    as (out & s' & Hrun & Hsum & Herr & Hin);
    [lia | unfold CallToolsMore.batchSize; lia |].
  exists out, s'. split; [exact Hrun|].
  simpl in Hsum, Herr, Hin. rewrite drop_0 in Hsum.
  split; [lia|]. split; [lia|].
  intros e He. destruct (Hin e He) as [[]|Hc]. exact Hc.
Qed.

(** X16.  getOrCreateBucket creates no bucket when the dialer already
    lists one whose name, lower-cased, is the wanted name lower-cased: it
    answers the id of such a bucket and sends nothing after the listing.
    This holds whatever toLowerCase does, so for the Unicode lower-casing
    of the code. *)
Theorem getOrCreateBucket_reuses_a_listed_bucket {St : Type}
    (GET_lists : St -> Http (list CallToolsBucket.t) * St)
    (POST_buckets : string -> St -> Http CallToolsBucket.t * St)
    (toLowerCase : string -> string)
    (bucketName : string) (s s1 : St)
    (buckets : list CallToolsBucket.t) (b : CallToolsBucket.t) :
  GET_lists s = (Ok buckets, s1) ->
  In b buckets ->
  toLowerCase (CallToolsBucket.name b) = toLowerCase bucketName ->
  exists existingBucket,
    CallToolsMore.getOrCreateBucket GET_lists POST_buckets toLowerCase bucketName s
    = (inr (CallToolsBucket.id existingBucket), s1)
    /\ In existingBucket buckets
    /\ toLowerCase (CallToolsBucket.name existingBucket)
       = toLowerCase bucketName.
Proof.
  intros Hget Hin Hname.
  unfold CallToolsMore.getOrCreateBucket, CallToolsMore.getBuckets.
  rewrite Hget. simpl.
  destruct (List.find (CallToolsMore.same_bucket_name toLowerCase bucketName) buckets)
    as [existingBucket|] eqn:Hfind.
  - apply List.find_some in Hfind. destruct Hfind as [Hmem Hsame].
    exists existingBucket. split; [reflexivity|]. split; [exact Hmem|].
    apply String.eqb_eq. exact Hsame.
  - exfalso. pose proof (List.find_none _ _ Hfind b Hin) as Hno.
    unfold CallToolsMore.same_bucket_name in Hno.
    rewrite Hname, String.eqb_refl in Hno. discriminate.
Qed.

Lemma getOrCreateBucket_reuses_a_listed_bucket_witness :
  exists existingBucket,
    CallToolsMore.getOrCreateBucket SimMore.lists_server SimMore.no_new_bucket
      JS.toLowerCase "cold leads" tt
    = (inr (CallToolsBucket.id existingBucket), tt)
    /\ In existingBucket
         [CallToolsBucket.mk "7" "Warm"; CallToolsBucket.mk "11237" "Cold Leads"]
    /\ JS.toLowerCase (CallToolsBucket.name existingBucket)
       = JS.toLowerCase "cold leads".
Proof.
  apply (getOrCreateBucket_reuses_a_listed_bucket SimMore.lists_server
           SimMore.no_new_bucket JS.toLowerCase "cold leads" tt tt
           [CallToolsBucket.mk "7" "Warm"; CallToolsBucket.mk "11237" "Cold Leads"]
           (CallToolsBucket.mk "11237" "Cold Leads")).
  - reflexivity.
  - simpl. right. left. reflexivity.
  - vm_compute. reflexivity.
Defined.

(** ** The statistics (getSyncStats) *)

Section StatsFacts.

Lemma filter_length_perm {A} (p : A -> bool) (l l' : list A) :
  l ≡ₚ l' -> length (List.filter p l) = length (List.filter p l').
Proof.
  induction 1 as [|x l l' _ IH|x y l|l l' l'' _ IH1 _ IH2]; simpl.
  - reflexivity.
  - destruct (p x); simpl; congruence.
  - destruct (p x), (p y); reflexivity.
  - congruence.
Qed.

Lemma count_rows_insert_fresh p (db : Ledger.table) k r :
  db !! k = None ->
  count_rows p (<[k := r]> db)
  = ((if p r then 1 else 0) + count_rows p db)%Z.
Proof.
  intros Hk. unfold count_rows.
  rewrite (filter_length_perm p _ _
             (Permutation_map snd (map_to_list_insert db k r Hk))).
  simpl. destruct (p r); simpl; lia.
Qed.

Lemma count_rows_split p (db : Ledger.table) k :
  count_rows p db
  = (match db !! k with
     | Some r => if p r then 1 else 0
     | None => 0
     end + count_rows p (delete k db))%Z.
Proof.
  destruct (db !! k) as [r|] eqn:Hk.
  - rewrite <- (insert_delete_id db k r Hk) at 1.
    apply count_rows_insert_fresh. apply lookup_delete_eq.
  - rewrite (delete_id db k Hk). lia.
Qed.

Lemma count_rows_ext p q (db : Ledger.table) :
  map_Forall (fun _ r => p r = q r) db -> count_rows p db = count_rows q db.
Proof.
  intros H. apply map_Forall_to_list in H. unfold count_rows. f_equal.
  induction H as [|[k r] l Hr _ IH]; simpl; [reflexivity|].
  simpl in Hr. rewrite Hr. destruct (q r); simpl; congruence.
Qed.

Lemma statuses_partition (l : list SyncedContact.t) :
  (length (List.filter (has_status Status_synced) l)
   + length (List.filter (has_status Status_failed) l)
   + length (List.filter (has_status Status_pending) l)
   + length (List.filter (has_status Status_excluded) l)
   = length l)%nat.
Proof.
  unfold has_status.
  induction l as [|r l IH]; simpl; [reflexivity|].
  destruct (SyncedContact.sync_status r); simpl; lia.
Qed.

Lemma flag_ok_counts r :
  flag_ok r -> flagged_customer r = has_status Status_excluded r.
Proof.
  unfold flag_ok, flagged_customer, has_status. intros [H1 H2].
  destruct (Z.eqb_spec (SyncedContact.is_customer r) 1) as [Heq|Hne].
  - rewrite (H1 Heq). reflexivity.
  - destruct (SyncedContact.sync_status r); try reflexivity.
    exfalso. apply Hne. apply H2. reflexivity.
Qed.

(** *** The flag and the status excluded go together on every ledger the
    service builds *)

Lemma flags_ok_insert (db : Ledger.table) k r :
  flags_ok db -> flag_ok r -> flags_ok (<[k := r]> db).
Proof. intros Hdb Hr. apply map_Forall_insert_2; assumption. Qed.

Lemma createOrUpdateSyncRecord_flags_ok (db : Ledger.table) data :
  SyncedContact.is_customer data = 0%Z ->
  SyncedContact.sync_status data <> Status_excluded ->
  flags_ok db ->
  flags_ok (Ledger.createOrUpdateSyncRecord data db)
  /\ unflagged (SyncedContact.ghl_contact_id data)
       (Ledger.createOrUpdateSyncRecord data db).
Proof.
  intros Hflag Hst Hdb. unfold Ledger.createOrUpdateSyncRecord.
  destruct (Ledger.getSyncedContact _ db); split.
  - apply flags_ok_insert; [exact Hdb|]. unfold flag_ok. rewrite Hflag.
    split; [discriminate | contradiction].
  - intros r Hr. rewrite lookup_insert_eq in Hr. injection Hr as <-.
    rewrite Hflag. discriminate.
  - apply flags_ok_insert; [exact Hdb|]. unfold flag_ok, Ledger.inserted_row; simpl.
    rewrite Hflag. split; [discriminate | contradiction].
  - intros r Hr. rewrite lookup_insert_eq in Hr. injection Hr as <-.
    unfold Ledger.inserted_row; simpl. rewrite Hflag. discriminate.
Qed.

Lemma updateSyncRecord_flags_ok (db : Ledger.table) k u st :
  Updates.sync_status u = Some st -> st <> Status_excluded ->
  flags_ok db /\ unflagged k db ->
  flags_ok (Ledger.updateSyncRecord k u db)
  /\ unflagged k (Ledger.updateSyncRecord k u db).
Proof.
  intros Hu Hst [Hdb Hk]. unfold Ledger.updateSyncRecord.
  destruct (Ledger.getSyncedContact k db) as [existing|] eqn:Hex.
  - specialize (Hk existing Hex). split.
    + apply flags_ok_insert; [exact Hdb|].
      unfold flag_ok, Ledger.apply_updates; simpl. rewrite Hu; simpl.
      split; [contradiction | intros ->; contradiction].
    + intros r Hr. rewrite lookup_insert_eq in Hr. injection Hr as <-.
      exact Hk.
  - apply (createOrUpdateSyncRecord_flags_ok db (Ledger.fresh_record k u));
      [reflexivity | | exact Hdb].
    unfold Ledger.fresh_record; simpl. rewrite Hu. exact Hst.
Qed.

Lemma markAsCustomer_flags_ok (db : Ledger.table) k :
  flags_ok db -> flags_ok (Ledger.markAsCustomer k db).
Proof.
  intros Hdb i r Hi.
  destruct (decide (k = i)) as [<-|Hne].
  - destruct (markAsCustomer_lookup db k) as (r0 & _ & Hlook & Hst & _).
    rewrite Hlook in Hi. injection Hi as <-.
    unfold flag_ok, Ledger.set_customer; simpl. rewrite Hst. tauto.
  - rewrite (markAsCustomer_other db k i Hne) in Hi. exact (Hdb i r Hi).
Qed.

End StatsFacts.

Section ServiceFlagFacts.
Context {R : Type}.
Context (client : CallToolsClient R) (ghl : GHLServer) (clock : nat -> Z).

Lemma preserves_db_remote_call (Q : Ledger.table -> Prop) {A} (c : Call)
    (f : R -> (Thrown + A) * R) :
  preserves (on_db Q) (remote_call c f).
Proof. intros w Hw. unfold remote_call. destruct (f (remote w)); exact Hw. Qed.

Lemma preserves_db_now (Q : Ledger.table -> Prop) :
  preserves (R:=R) (on_db Q) (now clock).
Proof. intros w Hw. exact Hw. Qed.

Lemma preserves_db_update (Q : Ledger.table -> Prop) (f : Ledger.table -> Ledger.table) :
  (forall db0, Q db0 -> Q (f db0)) -> preserves (R:=R) (on_db Q) (db_write f).
Proof. intros Hf w Hw. apply Hf. exact Hw. Qed.

Local Ltac fstep :=
  first
    [ apply preserves_ret
    | apply preserves_throw
    | apply preserves_db_remote_call
    | apply preserves_db_now
    | apply preserves_bind; [|intro]
    | apply preserves_try_catch; [|intro]
    | match goal with
      | |- preserves _ (if ?b then _ else _) => destruct b
      | |- preserves _ (match ?x with _ => _ end) => destruct x
      end ].

(** What syncContact does once it has found the row of the contact not
    flagged. *)
Lemma syncContact_writes_flags_ok (i : string) (c : CallToolsContact.t)
    (phone : string) (result : SyncResult.t) (bucketId : string) :
  preserves (on_db (fun db0 => flags_ok db0 /\ unflagged i db0))
    (if String.eqb phone ""
     then (updateSyncRecord i (failed_updates "No phone number")) ;;
          ret (SyncResult.incr_failed result)
     else
       try_catch
         (sync_to_calltools client clock i c result bucketId)
         (fun error =>
            (updateSyncRecord i (failed_updates (error_message_of error))) ;;
            throw error)).
Proof.
  unfold sync_to_calltools.
  repeat first
    [ fstep
    | apply preserves_db_update; intros db0 H0;
      first
        [ refine (updateSyncRecord_flags_ok db0 i _ _ _ _ H0);
          [reflexivity | discriminate]
        | destruct H0 as [H0 _];
          refine (createOrUpdateSyncRecord_flags_ok db0 _ _ _ H0);
          [reflexivity | discriminate] ] ].
Qed.

Lemma syncContact_flags_ok ghlContact result bucketId :
  preserves (on_db flags_ok) (syncContact client clock ghlContact result bucketId).
Proof.
  intros w Hw. unfold syncContact, bind, getSyncedContact.
  destruct (GHLContact.id ghlContact) as [i|]; [|exact Hw]. simpl.
  unfold Ledger.getSyncedContact.
  destruct (db w !! i) as [r|] eqn:Hr.
  - destruct (SyncedContact.is_customer r =? 1)%Z eqn:Hflag; [exact Hw|].
    apply Z.eqb_neq in Hflag.
    refine (proj1 (syncContact_writes_flags_ok i _ _ result bucketId w _)).
    split; [exact Hw|]. intros r' Hr'. congruence.
  - refine (proj1 (syncContact_writes_flags_ok i _ _ result bucketId w _)).
    split; [exact Hw|]. intros r' Hr'. congruence.
Qed.

Lemma markAsCustomer_preserves_flags_ok k :
  preserves (R:=R) (on_db flags_ok) (markAsCustomer k).
Proof. apply preserves_db_update. intros db0. apply markAsCustomer_flags_ok. Qed.

Lemma syncSingleContact_flags_ok ghlContactId webhookContactData :
  preserves (on_db flags_ok)
    (syncSingleContact client ghl clock ghlContactId webhookContactData).
Proof.
  unfold syncSingleContact.
  repeat first
    [ apply markAsCustomer_preserves_flags_ok
    | apply syncContact_flags_ok
    | apply preserves_lift
    | fstep ].
Qed.

Lemma sync_each_flags_ok bucketId coldContacts :
  forall result,
    preserves (on_db flags_ok) (sync_each client clock bucketId coldContacts result).
Proof.
  induction coldContacts as [|c rest IH]; intros result; simpl.
  - apply preserves_ret.
  - apply preserves_bind; [|intro; apply IH].
    unfold sync_one. apply preserves_try_catch; [apply syncContact_flags_ok|].
    intro. apply preserves_ret.
Qed.

Lemma run_op_flags_ok op (w w' : World R) :
  flags_ok (db w) -> run_op client ghl clock op w = Some w' -> flags_ok (db w').
Proof.
  intros Hw Hrun. destruct op as [id d | fuel | id]; simpl in Hrun.
  - injection Hrun as <-. apply syncSingleContact_flags_ok. exact Hw.
  - unfold syncColdContacts in Hrun.
    destruct (getColdContactsExcludingCustomers ghl fuel) as [[e|cold]|];
      simpl in Hrun; try discriminate; injection Hrun as <-.
    + exact Hw.
    + apply sync_each_flags_ok. exact Hw.
  - injection Hrun as <-. apply markAsCustomer_preserves_flags_ok. exact Hw.
Qed.

End ServiceFlagFacts.

Lemma reachable_flags_ok {R : Type} (w : World R) : reachable w -> flags_ok (db w).
Proof.
  induction 1 as [w Hempty | client ghl clock op w w' _ IH Hrun | w s _ IH].
  - rewrite Hempty. apply map_Forall_empty.
  - exact (run_op_flags_ok client ghl clock op w w' IH Hrun).
  - exact IH.
Qed.

(** X17.  On every ledger the service builds from an empty one -- by any
    sequence of single reconciles, batches and markings -- the customer
    flag and the status excluded go together, so the statistics count
    every row once: synced + failed + pending + excluded_customers is
    total_contacts, which is the number of rows. *)
Theorem statistics_add_up {R : Type} (w : World R) :
  reachable w ->
  (forall k r, db w !! k = Some r ->
     (SyncedContact.is_customer r = 1%Z
      <-> SyncedContact.sync_status r = Status_excluded))
  /\ SyncStats.total_contacts (getSyncStats (db w)) = Z.of_nat (size (db w))
  /\ (SyncStats.synced (getSyncStats (db w))
      + SyncStats.failed (getSyncStats (db w))
      + SyncStats.pending (getSyncStats (db w))
      + SyncStats.excluded_customers (getSyncStats (db w))
      = SyncStats.total_contacts (getSyncStats (db w)))%Z.
Proof.
  intros Hreach. pose proof (reachable_flags_ok w Hreach) as Hok.
  split; [exact Hok|]. split.
  - unfold getSyncStats, count_rows; simpl.
    rewrite List.filter_true, length_map, length_map_to_list. reflexivity.
  - unfold getSyncStats; simpl.
    rewrite (count_rows_ext flagged_customer (has_status Status_excluded) (db w)).
    + unfold count_rows. rewrite List.filter_true.
      pose proof (statuses_partition (map snd (map_to_list (db w)))). lia.
    + intros k r Hr. apply flag_ok_counts. exact (Hok k r Hr).
Qed.

Lemma statistics_add_up_witness :
  (forall k r, db Sim.world1 !! k = Some r ->
     (SyncedContact.is_customer r = 1%Z
      <-> SyncedContact.sync_status r = Status_excluded))
  /\ SyncStats.total_contacts (getSyncStats (db Sim.world1))
     = Z.of_nat (size (db Sim.world1))
  /\ (SyncStats.synced (getSyncStats (db Sim.world1))
      + SyncStats.failed (getSyncStats (db Sim.world1))
      + SyncStats.pending (getSyncStats (db Sim.world1))
      + SyncStats.excluded_customers (getSyncStats (db Sim.world1))
      = SyncStats.total_contacts (getSyncStats (db Sim.world1)))%Z.
Proof.
  apply (statistics_add_up Sim.world1).
  apply (reachable_step Sim.client (Sim.crm [Sim.lead]) Sim.clock
           (Op_syncSingleContact "c1" None) Sim.world0).
  - apply reachable_init. reflexivity.
  - reflexivity.
Defined.

(** X18.  In the statistics, marking a contact as customer adds one to
    total_contacts exactly when the contact had no row, and one to
    excluded_customers exactly when it was not flagged before; a contact
    counted as synced before is no longer. *)
Theorem marking_shows_in_the_statistics (db : Ledger.table) (k : string) :
  SyncStats.total_contacts (getSyncStats (Ledger.markAsCustomer k db))
  = (SyncStats.total_contacts (getSyncStats db)
     + match db !! k with Some _ => 0 | None => 1 end)%Z
  /\ SyncStats.excluded_customers (getSyncStats (Ledger.markAsCustomer k db))
     = (SyncStats.excluded_customers (getSyncStats db)
        + match db !! k with
          | Some r => if (SyncedContact.is_customer r =? 1)%Z then 0 else 1
          | None => 1
          end)%Z
  /\ SyncStats.synced (getSyncStats (Ledger.markAsCustomer k db))
     = (SyncStats.synced (getSyncStats db)
        - match db !! k with
          | Some r => if has_status Status_synced r then 1 else 0
          | None => 0
          end)%Z.
Proof.
  destruct (markAsCustomer_lookup db k) as (r0 & _ & Hlook & Hst & _).
  assert (delete k (Ledger.markAsCustomer k db) = delete k db) as Hdel.
  { apply map_eq. intros j. destruct (decide (k = j)) as [<-|Hne].
    - rewrite !lookup_delete_eq. reflexivity.
    - rewrite !lookup_delete_ne by exact Hne. apply markAsCustomer_other. exact Hne. }
  unfold getSyncStats; simpl.
  rewrite (count_rows_split (fun _ => true) (Ledger.markAsCustomer k db) k),
          (count_rows_split (fun _ => true) db k),
          (count_rows_split flagged_customer (Ledger.markAsCustomer k db) k),
          (count_rows_split flagged_customer db k),
          (count_rows_split (has_status Status_synced) (Ledger.markAsCustomer k db) k),
          (count_rows_split (has_status Status_synced) db k).
  rewrite Hdel, Hlook.
  assert (has_status Status_synced (Ledger.set_customer r0) = false) as Hsynced.
  { unfold has_status, Ledger.set_customer; simpl. rewrite Hst. reflexivity. }
  rewrite Hsynced.
  change (flagged_customer (Ledger.set_customer r0)) with true.
  unfold flagged_customer.
  destruct (db !! k) as [r|]; [|repeat split; lia].
  destruct (SyncedContact.is_customer r =? 1)%Z;
    destruct (has_status Status_synced r); repeat split; lia.
Qed.

(** ** Reconciling with the client of src/clients/calltools.ts *)

Section CitedClientFacts.
Context {St : Type} (api : DialerApi St) (clock : nat -> Z).

Lemma or_default_truthy (phone : string) :
  phone <> "" -> JS.or_default (Some phone) "" = phone.
Proof.
  intros Hne. unfold JS.or_default.
  destruct (String.eqb_spec phone ""); [contradiction | reflexivity].
Qed.

Lemma unflagged_test (i : string) (db0 : Ledger.table) :
  unflagged i db0 ->
  match Ledger.getSyncedContact i db0 with
  | Some r => (SyncedContact.is_customer r =? 1)%Z
  | None => false
  end = false.
Proof.
  intros Hun. unfold Ledger.getSyncedContact.
  destruct (db0 !! i) as [r|] eqn:Hr; [|reflexivity].
  apply Z.eqb_neq. exact (Hun r Hr).
Qed.

Lemma addTagToContact_returns (contactId tagName : string) (s : St) :
  fst (CallTools.addTagToContact api contactId tagName s) = inr tt.
Proof.
  unfold CallTools.addTagToContact.
  destruct (GET_alltags api tagName s) as [[e|status text|[|tagId ids]] s1];
    try reflexivity.
  destruct (POST_alltags api tagName s1) as [[e|status text|tagId] s2]; reflexivity.
Qed.

Lemma syncContact_creates (c : GHLContact.t) (result : SyncResult.t)
    (i phone : string) (created : CallToolsContactResponse.t) (s1 s2 : St)
    (w : World St) :
  GHLContact.id c = Some i ->
  unflagged i (db w) ->
  GHLContact.phone c = Some phone -> phone <> "" ->
  POST_contacts api (callToolsContact_of c i phone "11237") (remote w)
  = (Ok created, s1) ->
  PATCH_bucket_add api "11237" (CallToolsContactResponse.id created) s1
  = (Ok tt, s2) ->
  syncContact (CallTools.client api) clock c result "11237" w
  = (inr (SyncResult.incr_synced result),
     mkWorld
       (Ledger.createOrUpdateSyncRecord
          (SyncedContact.mk i
             (Some (CallToolsContactResponse.id created))
             (Some (CallToolsContact.first_name (callToolsContact_of c i phone "11237")))
             (JS.or_null (Some (CallToolsContact.last_name (callToolsContact_of c i phone "11237"))))
             (Some phone)
             (JS.or_null (Some (CallToolsContact.email (callToolsContact_of c i phone "11237"))))
             Status_synced (Some (clock (ticks w))) None 0)
          (db w))
       (snd (CallTools.addTagToContact api (CallToolsContactResponse.id created)
               "ACA Cold lead" s2))
       (calls w ++ [Call_getContactByExternalId i None;
                    Call_createContact (callToolsContact_of c i phone "11237");
                    Call_addContactToBucket (CallToolsContactResponse.id created) "11237";
                    Call_addTagToContact (CallToolsContactResponse.id created) "ACA Cold lead"])%list
       (S (ticks w))).
Proof.
  intros Hid Hun Hphone Hne Hpost Hpatch.
  unfold syncContact, bind, getSyncedContact. rewrite Hid. simpl.
  rewrite (unflagged_test i (db w) Hun).
  rewrite Hphone, (or_default_truthy phone Hne).
  destruct (String.eqb_spec phone ""); [contradiction|].
  unfold try_catch, sync_to_calltools, bind, remote_call. simpl.
  unfold CallTools.createContact, CallTools.addContactToBucket, CallTools.expect_ok.
  rewrite Hpost. simpl. rewrite Hpatch. simpl.
  pose proof (addTagToContact_returns (CallToolsContactResponse.id created)
                "ACA Cold lead" s2) as Htag.
  destruct (CallTools.addTagToContact api (CallToolsContactResponse.id created)
              "ACA Cold lead" s2) as [r s3].
  simpl in Htag. subst r. unfold ret. simpl.
  rewrite <- !app_assoc. reflexivity.
Qed.

Lemma syncContact_refused (c : GHLContact.t) (result : SyncResult.t)
    (bucketId i phone : string) (e : Thrown) (s1 : St) (w : World St) :
  GHLContact.id c = Some i ->
  unflagged i (db w) ->
  GHLContact.phone c = Some phone -> phone <> "" ->
  CallTools.createContact api (callToolsContact_of c i phone bucketId) (remote w)
  = (inl e, s1) ->
  syncContact (CallTools.client api) clock c result bucketId w
  = (inl e,
     mkWorld
       (Ledger.updateSyncRecord i (failed_updates (error_message_of e)) (db w))
       s1
       (calls w ++ [Call_getContactByExternalId i None;
                    Call_createContact (callToolsContact_of c i phone bucketId)])%list
       (ticks w)).
Proof.
  intros Hid Hun Hphone Hne Hpost.
  unfold syncContact, bind, getSyncedContact. rewrite Hid. simpl.
  rewrite (unflagged_test i (db w) Hun).
  rewrite Hphone, (or_default_truthy phone Hne).
  destruct (String.eqb_spec phone ""); [contradiction|].
  unfold try_catch, sync_to_calltools, bind, remote_call. simpl.
  rewrite Hpost. simpl. unfold throw. rewrite <- !app_assoc. reflexivity.
Qed.

Lemma failed_row_recorded (db0 : Ledger.table) (i message : string) :
  message <> "" ->
  exists row,
    Ledger.updateSyncRecord i (failed_updates message) db0 !! i = Some row
    /\ SyncedContact.sync_status row = Status_failed
    /\ SyncedContact.error_message row = Some message.
Proof.
  intros Hne.
  assert (JS.or_null (Some message) = Some message) as Hkeep.
  { unfold JS.or_null, JS.truthy.
    destruct (String.eqb_spec message ""); [contradiction | reflexivity]. }
  unfold Ledger.updateSyncRecord, Ledger.createOrUpdateSyncRecord,
    Ledger.getSyncedContact.
  destruct (db0 !! i) as [existing|] eqn:Hrow; simpl.
  - eexists. rewrite lookup_insert_eq. split; [reflexivity|]. split; reflexivity.
  - rewrite Hrow. eexists. rewrite lookup_insert_eq.
    split; [reflexivity|]. split; [reflexivity|]. simpl.
    rewrite Hkeep. exact Hkeep.
Qed.

End CitedClientFacts.

(** X19.  With the client of src/clients/calltools.ts: take a reconcile,
    from the CRM or from a payload whose contact fields are strings or
    absent, that resolves a cold lead carrying an id and a non-empty phone
    number, with no ledger row flagged as customer under that id.  When
    the dialer accepts the creation and the bucket assignment, the
    reconcile reports synced and leaves under the contact's id a synced
    row stamped with the time of the run, whatever the tag endpoints
    answer.  The dialer is asked, in this order, for the lookup (without a
    phone number), the creation, the bucket assignment and the tagging. *)
Theorem created_lead_is_synced_whatever_the_tag_endpoints_answer {St : Type}
    (api : DialerApi St) (ghl : GHLServer) (clock : nat -> Z)
    (ghlContactId : string) (webhookContactData : Json.value)
    (c : GHLContact.t) (i phone : string)
    (created : CallToolsContactResponse.t) (s1 s2 : St) (w : World St) :
  typed_payload webhookContactData = true ->
  resolve_contact ghl ghlContactId webhookContactData = inr c ->
  GHLContact.id c = Some i ->
  isCustomer (lowered_tags c) = false ->
  isCold (lowered_tags c) = true ->
  unflagged i (db w) ->
  GHLContact.phone c = Some phone ->
  phone <> "" ->
  POST_contacts api (callToolsContact_of c i phone "11237") (remote w)
  = (Ok created, s1) ->
  PATCH_bucket_add api "11237" (CallToolsContactResponse.id created) s1
  = (Ok tt, s2) ->
  exists w',
    syncSingleContact (CallTools.client api) ghl clock ghlContactId
      webhookContactData w
    = (inr (SingleSync.mk true ghlContactId Action_synced (Some "11237") None), w')
    /\ calls w'
       = (calls w
          ++ [Call_getContactByExternalId i None;
              Call_createContact (callToolsContact_of c i phone "11237");
              Call_addContactToBucket (CallToolsContactResponse.id created) "11237";
              Call_addTagToContact (CallToolsContactResponse.id created)
                "ACA Cold lead"])%list
    /\ exists r,
         db w' !! i = Some r
         /\ SyncedContact.sync_status r = Status_synced
         /\ SyncedContact.last_sync_at r = Some (clock (ticks w))
         /\ SyncedContact.error_message r = None
         /\ SyncedContact.phone r = Some phone
         /\ SyncedContact.is_customer r = 0%Z.
Proof.
  intros _ Hres Hid Hcust Hcold Hun Hphone Hne Hpost Hpatch.
  unfold syncSingleContact, try_catch, bind, lift.
  rewrite Hres. simpl. rewrite Hcust, Hcold. simpl.
  rewrite (syncContact_creates api clock c _ i phone created s1 s2 w
             Hid Hun Hphone Hne Hpost Hpatch).
  simpl. eexists. split; [reflexivity|]. split; [reflexivity|]. simpl.
  unfold Ledger.createOrUpdateSyncRecord. simpl.
  assert (JS.or_null (Some phone) = Some phone) as Hkeep.
  { unfold JS.or_null, JS.truthy.
    destruct (String.eqb_spec phone ""); [contradiction | reflexivity]. }
  destruct (Ledger.getSyncedContact i (db w));
    eexists; rewrite lookup_insert_eq; (split; [reflexivity|]); simpl;
    rewrite ?Hkeep; repeat split; reflexivity.
Qed.

Lemma created_lead_is_synced_whatever_the_tag_endpoints_answer_witness :
  exists w',
    syncSingleContact (CallTools.client SimMore.tagless_api) (Sim.crm [])
      Sim.clock "c1" (Some Sim.cold_json) Sim.world0
    = (inr (SingleSync.mk true "c1" Action_synced (Some "11237") None), w')
    /\ calls w'
       = (calls Sim.world0
          ++ [Call_getContactByExternalId "c1" None;
              Call_createContact
                (callToolsContact_of SimMore.cold_contact "c1" "+15551234567" "11237");
              Call_addContactToBucket
                (CallToolsContactResponse.id SimMore.cold_created) "11237";
              Call_addTagToContact
                (CallToolsContactResponse.id SimMore.cold_created)
                "ACA Cold lead"])%list
    /\ exists r,
         db w' !! "c1" = Some r
         /\ SyncedContact.sync_status r = Status_synced
         /\ SyncedContact.last_sync_at r = Some (Sim.clock (ticks Sim.world0))
         /\ SyncedContact.error_message r = None
         /\ SyncedContact.phone r = Some "+15551234567"
         /\ SyncedContact.is_customer r = 0%Z.
Proof.
  apply (created_lead_is_synced_whatever_the_tag_endpoints_answer
           SimMore.tagless_api (Sim.crm []) Sim.clock "c1" (Some Sim.cold_json)
           SimMore.cold_contact "c1" "+15551234567" SimMore.cold_created
           (snd (Sim.post_contacts
                   (callToolsContact_of SimMore.cold_contact "c1" "+15551234567" "11237")
                   Sim.empty))
           (snd (Sim.patch_bucket_add "11237" "1"
                   (snd (Sim.post_contacts
                           (callToolsContact_of SimMore.cold_contact "c1"
                              "+15551234567" "11237")
                           Sim.empty))))
           Sim.world0).
  - reflexivity.
  - vm_compute. reflexivity.
  - reflexivity.
  - vm_compute. reflexivity.
  - vm_compute. reflexivity.
  - intros r Hr. vm_compute in Hr. discriminate.
  - reflexivity.
  - discriminate.
  - vm_compute. reflexivity.
  - vm_compute. reflexivity.
Defined.

(** X20.  With the same client and for the same reconciles (a cold lead
    carrying an id and a non-empty phone number, not flagged, from the CRM
    or from a payload whose contact fields are strings or absent): when
    the creation fails with a non-empty error message, the reconcile
    reports failed with that message, the ledger row under the contact's
    id is failed with that message, and the dialer is asked for nothing
    after the creation. *)
Theorem refused_creation_is_recorded {St : Type}
    (api : DialerApi St) (ghl : GHLServer) (clock : nat -> Z)
    (ghlContactId : string) (webhookContactData : Json.value)
    (c : GHLContact.t) (i phone : string) (e : Thrown) (s1 : St) (w : World St) :
  typed_payload webhookContactData = true ->
  resolve_contact ghl ghlContactId webhookContactData = inr c ->
  GHLContact.id c = Some i ->
  isCustomer (lowered_tags c) = false ->
  isCold (lowered_tags c) = true ->
  unflagged i (db w) ->
  GHLContact.phone c = Some phone ->
  phone <> "" ->
  CallTools.createContact api (callToolsContact_of c i phone "11237")
    (remote w) = (inl e, s1) ->
  error_message_of e <> "" ->
  exists w',
    syncSingleContact (CallTools.client api) ghl clock ghlContactId
      webhookContactData w
    = (inr (SingleSync.mk false ghlContactId Action_failed None
              (Some (error_message_of e))), w')
    /\ remote w' = s1
    /\ calls w'
       = (calls w
          ++ [Call_getContactByExternalId i None;
              Call_createContact (callToolsContact_of c i phone "11237")])%list
    /\ exists r,
         db w' !! i = Some r
         /\ SyncedContact.sync_status r = Status_failed
         /\ SyncedContact.error_message r = Some (error_message_of e).
Proof.
  intros _ Hres Hid Hcust Hcold Hun Hphone Hne Hpost Hmsg.
  unfold syncSingleContact, try_catch, bind, lift.
  rewrite Hres. simpl. rewrite Hcust, Hcold. simpl.
  rewrite (syncContact_refused api clock c _ "11237" i phone e s1 w
             Hid Hun Hphone Hne Hpost).
  simpl. eexists. split; [reflexivity|]. split; [reflexivity|].
  split; [reflexivity|]. simpl.
  exact (failed_row_recorded (db w) i (error_message_of e) Hmsg).
Qed.

Lemma refused_creation_is_recorded_witness :
  exists w',
    syncSingleContact (CallTools.client Sim.refusing_api) (Sim.crm [])
      Sim.clock "c1" (Some Sim.cold_json) Sim.world0
    = (inr (SingleSync.mk false "c1" Action_failed None
              (Some (error_message_of (CallTools.api_error 500 "boom")))), w')
    /\ remote w' = Sim.empty
    /\ calls w'
       = (calls Sim.world0
          ++ [Call_getContactByExternalId "c1" None;
              Call_createContact
                (callToolsContact_of SimMore.cold_contact "c1" "+15551234567" "11237")])%list
    /\ exists r,
         db w' !! "c1" = Some r
         /\ SyncedContact.sync_status r = Status_failed
         /\ SyncedContact.error_message r
            = Some (error_message_of (CallTools.api_error 500 "boom")).
Proof.
  apply (refused_creation_is_recorded Sim.refusing_api (Sim.crm [])
           Sim.clock "c1" (Some Sim.cold_json) SimMore.cold_contact
           "c1" "+15551234567"
           (CallTools.api_error 500 "boom") Sim.empty Sim.world0).
  - reflexivity.
  - vm_compute. reflexivity.
  - reflexivity.
  - vm_compute. reflexivity.
  - vm_compute. reflexivity.
  - intros r Hr. vm_compute in Hr. discriminate.
  - reflexivity.
  - discriminate.
  - reflexivity.
  - vm_compute. discriminate.
Defined.

(** ** The answers of the endpoints *)

Section EndpointFacts.
Context {R : Type}.
Context (client : CallToolsClient R) (ghl : GHLServer) (clock : nat -> Z).
Context (hmac_sha256_hex : string -> string -> option string).
Context (JSON_parse : string -> option Json.t).

Lemma syncSingleContact_returns ghlContactId webhookContactData (w : World R) :
  exists r w',
    syncSingleContact client ghl clock ghlContactId webhookContactData w = (inr r, w').
Proof.
  unfold syncSingleContact, try_catch.
  match goal with
  | |- context [match ?body w with _ => _ end] =>
      destruct (body w) as [[e|r] w']
  end.
  - eexists _, _. reflexivity.
  - eexists _, _. reflexivity.
Qed.

(** What run_sync answers: 500 with the world untouched when the client
    cannot be built, else 200 with the result of syncSingleContact. *)
Lemma run_sync_cases env suffix contactId webhookContactData (w : World R) :
  (exists message,
      run_sync client ghl clock env suffix contactId webhookContactData w
      = (reject 500 message, w))
  \/ (exists r w',
        syncSingleContact client ghl clock contactId webhookContactData w = (inr r, w')
        /\ run_sync client ghl clock env suffix contactId webhookContactData w
           = (sync_response suffix r, w')).
Proof.
  unfold run_sync.
  destruct (construct client (Env.CALLTOOLS_API_KEY env)) as [e|].
  - left. eexists. reflexivity.
  - right.
    destruct (syncSingleContact_returns contactId webhookContactData w)
      as (r & w' & Hrun).
    exists r, w'. rewrite Hrun. split; reflexivity.
Qed.

Lemma verifyTimestamp_false (now timestamp : Z) :
  Verification.verifyTimestamp now (JS.Num timestamp) = false
  <-> (now - timestamp < 0 \/ now - timestamp > 300000)%Z.
Proof.
  unfold Verification.verifyTimestamp, Verification.maxAge. simpl.
  destruct (Z.ltb_spec (now - timestamp) 0); [split; [lia | reflexivity]|].
  destruct (Z.gtb_spec (now - timestamp) (5 * 60 * 1000));
    (split; [intros; try discriminate; lia | intros; try reflexivity; lia]).
Qed.

Lemma v1_tail_not_401 env type id (w1 : World R) :
  Response.status
    (fst (if negb (existsb (String.eqb type) relevantTypes)
          then (Response.mk 200 true
                  (Some ("Webhook type " ++ type ++ " ignored")) None None, w1)
          else run_sync client ghl clock env "" id None w1))
  <> 401%Z.
Proof.
  destruct (negb (existsb (String.eqb type) relevantTypes)); [simpl; discriminate|].
  destruct (run_sync_cases env "" id None w1)
    as [[message ->] | (r & w2 & _ & ->)]; simpl; discriminate.
Qed.

End EndpointFacts.

Section RouterFacts.
Context {R : Type}.
Context (client : CallToolsClient R) (ghl : GHLServer) (clock : nat -> Z).
Context (hmac_sha256_hex : string -> string -> option string).
Context (JSON_parse : string -> option Json.t).

Lemma answer_shape_reject route body (w : World R) status message :
  status <> 200%Z -> answer_shape client ghl clock route body w (reject status message) w.
Proof.
  intros Hst. split; [intros _; repeat split | simpl; intros; contradiction].
Qed.

Lemma answer_shape_run_sync route v env suffix contactId (w : World R) :
  route_id_chain route v = Some (Json.JStr contactId) ->
  answer_shape client ghl clock route (Some v) w
    (fst (run_sync client ghl clock env suffix contactId
            (match route with
             | Route_ghl => Some v
             | Route_ghl_workflow => None
             end) w))
    (snd (run_sync client ghl clock env suffix contactId
            (match route with
             | Route_ghl => Some v
             | Route_ghl_workflow => None
             end) w)).
Proof.
  intros Hid.
  destruct (run_sync_cases client ghl clock env suffix contactId
              (match route with
               | Route_ghl => Some v
               | Route_ghl_workflow => None
               end) w)
    as [[message ->] | (r & w1 & Hsync & ->)]; simpl.
  - apply answer_shape_reject. discriminate.
  - split; [simpl; intros H; contradiction H; reflexivity|].
    intros _. exists v, contactId, r.
    split; [reflexivity|]. split; [exact Hid|]. split; [exact Hsync|].
    split; reflexivity.
Qed.

Lemma string_or_falsy_cases (v : Json.value) :
  string_or_falsy v = true ->
  Json.truthy v = false \/ exists id, v = Some (Json.JStr id).
Proof.
  destruct v as [[|b|n|s|items|fields]|]; simpl; intros H.
  - left. reflexivity.
  - left. destruct b; [discriminate | reflexivity].
  - left. destruct (n =? 0)%Z; [reflexivity | discriminate].
  - right. exists s. reflexivity.
  - discriminate.
  - discriminate.
  - left. reflexivity.
Qed.

Lemma or_same (a : Json.value) : Json.or a a = a.
Proof. unfold Json.or. destruct (Json.truthy a); reflexivity. Qed.

(** The part the two handlers share once the id has been read. *)
Lemma id_tail_answers route v env suffix message (w : World R)
    (contactId : Json.value) :
  route_id_chain route v = contactId ->
  string_or_falsy contactId = true ->
  exists resp w',
    (if negb (Json.truthy contactId)
     then Some (reject 400 message, w)
     else
       match contactId with
       | Some (Json.JStr id) =>
           Some (run_sync client ghl clock env suffix id
                   (match route with
                    | Route_ghl => Some v
                    | Route_ghl_workflow => None
                    end) w)
       | _ => None
       end) = Some (resp, w')
    /\ answer_shape client ghl clock route (Some v) w resp w'.
Proof.
  intros Hid Hdom.
  destruct (string_or_falsy_cases contactId Hdom) as [Hfalsy | [id ->]].
  - rewrite Hfalsy. simpl. eexists _, _. split; [reflexivity|].
    apply answer_shape_reject. discriminate.
  - destruct (negb (Json.truthy (Some (Json.JStr id)))).
    + eexists _, _. split; [reflexivity|].
      apply answer_shape_reject. discriminate.
    + eexists _, _. split.
      * rewrite (surjective_pairing (run_sync _ _ _ _ _ _ _ _)). reflexivity.
      * apply answer_shape_run_sync. exact Hid.
Qed.

End RouterFacts.

(** X21.  On both webhook routes, for every request whose body is not
    JSON, or is JSON in which the contact id found is a string (or falsy)
    and, on the signed route, the contact fields handed to the service are
    strings or absent: the handler answers; every answer other than 200 is
    given before anything is done (the world is untouched, success is
    false and there is no data); an answer 200 carries the result of
    syncSingleContact on that id, with the body as payload on the signed
    route, and its success flag is that of the result, so a reconcile that
    failed is answered 200 with success = false. *)
Theorem webhook_answers {R : Type}
    (client : CallToolsClient R) (ghl : GHLServer) (clock : nat -> Z)
    (hmac_sha256_hex : string -> string -> option string)
    (JSON_parse : string -> option Json.t)
    (route : Route) (env : Env.t) (req : Request.t) (w : World R) :
  (forall v, JSON_parse (Request.rawBody req) = Some v ->
             modelled_body route v = true) ->
  exists resp w',
    webhookRouter client ghl clock hmac_sha256_hex JSON_parse route env req w
    = Some (resp, w')
    /\ answer_shape client ghl clock route (JSON_parse (Request.rawBody req))
         w resp w'.
Proof.
  intros Hdom.
  destruct route; unfold webhookRouter.
  - unfold GHLWebhook_handle.
    destruct (signature_check hmac_sha256_hex env req) as [r|] eqn:Hsig.
    + unfold signature_check in Hsig.
      destruct (JS.truthy (Env.GHL_WEBHOOK_SECRET env)); [|discriminate].
      destruct (negb (JS.truthy (JS.or_null (Request.x_ghl_signature req))));
        [discriminate|].
      destruct (Verification.verifySignature _ _ _ _); [discriminate|].
      injection Hsig as <-. eexists _, _. split; [reflexivity|].
      apply answer_shape_reject. discriminate.
    + destruct (JSON_parse (Request.rawBody req)) as [v|] eqn:Hparse.
      2:{ eexists _, _. split; [reflexivity|].
          apply answer_shape_reject. discriminate. }
      specialize (Hdom v eq_refl). unfold modelled_body in Hdom.
      apply andb_prop in Hdom. destruct Hdom as [Hid _].
      destruct v;
        try (eexists _, _; split; [reflexivity|];
             apply answer_shape_reject; discriminate);
        rewrite or_same;
        exact (id_tail_answers client ghl clock Route_ghl _ env ""
                 "No contact ID found in webhook payload" w _ eq_refl Hid).
  - unfold GHLWorkflow_handle.
    destruct (JSON_parse (Request.rawBody req)) as [v|] eqn:Hparse.
    2:{ eexists _, _. split; [reflexivity|].
        apply answer_shape_reject. discriminate. }
    specialize (Hdom v eq_refl). unfold modelled_body in Hdom.
    apply andb_prop in Hdom. destruct Hdom as [Hid _].
    assert (forall message,
              answer_shape client ghl clock Route_ghl_workflow (Some v) w
                (Response.mk 500 false None (Some message) None) w) as Hkey.
    { intros message. split; [intros _; repeat split | simpl; discriminate]. }
    destruct v;
      try (eexists _, _; split; [reflexivity|];
           apply answer_shape_reject; discriminate);
      cbv zeta;
      match goal with
      | |- context [workflow_id_chain ?x] =>
          destruct (string_or_falsy_cases (workflow_id_chain x) Hid)
            as [Hf | [id Hs]];
          [ rewrite Hf; cbn [negb]; eexists _, _; split; [reflexivity|];
            apply answer_shape_reject; discriminate
          | rewrite Hs;
            destruct (negb (Json.truthy (Some (Json.JStr id))));
            [ eexists _, _; split; [reflexivity|];
              apply answer_shape_reject; discriminate |];
            (destruct (negb (JS.truthy (Env.GHL_API_KEY env)));
             [ eexists _, _; split; [reflexivity | apply Hkey] |]);
            (destruct (negb (JS.truthy (Env.CALLTOOLS_API_KEY env)));
             [ eexists _, _; split; [reflexivity | apply Hkey] |]);
            eexists _, _; split;
            [ rewrite (surjective_pairing (run_sync _ _ _ _ _ _ _ _)); reflexivity
            | exact (answer_shape_run_sync client ghl clock Route_ghl_workflow
                       x env " in CallTools" id w Hs) ] ]
      end.
Qed.

Lemma webhook_answers_witness :
  exists resp w',
    webhookRouter Sim.client (Sim.crm []) Sim.clock Sim.hmac Sim.parse
      Route_ghl (Sim.env (Some "s3cret")) Sim.unsigned_request Sim.world0
    = Some (resp, w')
    /\ answer_shape Sim.client (Sim.crm []) Sim.clock Route_ghl
         (Sim.parse (Request.rawBody Sim.unsigned_request)) Sim.world0 resp w'.
Proof.
  apply (webhook_answers Sim.client (Sim.crm []) Sim.clock Sim.hmac Sim.parse
           Route_ghl (Sim.env (Some "s3cret")) Sim.unsigned_request Sim.world0).
  intros v Hv. vm_compute in Hv. injection Hv as <-. vm_compute. reflexivity.
Defined.

(** X22.  In the first version of the webhook handler, a request that
    passes the signature check with a body that fits the schema is
    answered 401 exactly when a secret is configured and the payload
    carries a timestamp other than 0 that lies in the future or more than
    five minutes back.  Such a request reaches neither the ledger nor the
    dialer.  A timestamp of 0, or no secret, switches the check off. *)
Theorem v1_refuses_exactly_the_stale_timestamps {R : Type}
    (client : CallToolsClient R) (ghl : GHLServer) (clock : nat -> Z)
    (hmac_sha256_hex : string -> string -> option string)
    (JSON_parse : string -> option Json.t)
    (env : Env.t) (req : Request.t) (w : World R) (webhookData : Json.t) :
  signature_check hmac_sha256_hex env req = None ->
  JSON_parse (Request.rawBody req) = Some webhookData ->
  GHLWebhookSchema_v1 webhookData = true ->
  (Response.status
     (fst (GHLWebhook_handle_v1 client ghl clock hmac_sha256_hex JSON_parse
             env req w)) = 401%Z
   <-> JS.truthy (Env.GHL_WEBHOOK_SECRET env) = true
       /\ exists timestamp,
            Json.opt_prop (Some webhookData) "timestamp" = Some (Json.JNum timestamp)
            /\ timestamp <> 0%Z
            /\ (clock (ticks w) - timestamp < 0
                \/ clock (ticks w) - timestamp > 300000)%Z)
  /\ (Response.status
        (fst (GHLWebhook_handle_v1 client ghl clock hmac_sha256_hex JSON_parse
                env req w)) = 401%Z ->
      db (snd (GHLWebhook_handle_v1 client ghl clock hmac_sha256_hex JSON_parse
                 env req w)) = db w
      /\ remote (snd (GHLWebhook_handle_v1 client ghl clock hmac_sha256_hex
                        JSON_parse env req w)) = remote w
      /\ calls (snd (GHLWebhook_handle_v1 client ghl clock hmac_sha256_hex
                       JSON_parse env req w)) = calls w).
Proof.
  intros Hsig Hparse Hschema.
  assert (Json.opt_prop (Some webhookData) "timestamp" = None
          \/ exists t, Json.opt_prop (Some webhookData) "timestamp"
                       = Some (Json.JNum t)) as Hts.
  { unfold GHLWebhookSchema_v1 in Hschema.
    destruct webhookData; try discriminate.
    apply andb_prop in Hschema. destruct Hschema as [_ Hnum].
    unfold opt_num in Hnum.
    destruct (Json.opt_prop _ "timestamp") as [[]|]; try discriminate; eauto. }
  unfold GHLWebhook_handle_v1. rewrite Hsig, Hparse, Hschema.
  cbv zeta. cbn [negb].
  destruct Hts as [Hnone | [t Ht]].
  - rewrite Hnone. cbn [Json.truthy andb].
    split; [split|].
    + intros H401. exfalso. exact (v1_tail_not_401 client ghl clock _ _ _ _ H401).
    + intros (_ & t & Habs & _). discriminate.
    + intros H401. exfalso. exact (v1_tail_not_401 client ghl clock _ _ _ _ H401).
  - rewrite Ht. cbn [Json.truthy].
    destruct (Z.eqb_spec t 0) as [Hzero|Hnz]; cbn [negb andb].
    + split; [split|].
      * intros H401. exfalso. exact (v1_tail_not_401 client ghl clock _ _ _ _ H401).
      * intros (_ & t' & Heq & Hne & _). congruence.
      * intros H401. exfalso. exact (v1_tail_not_401 client ghl clock _ _ _ _ H401).
    + destruct (JS.truthy (Env.GHL_WEBHOOK_SECRET env)) eqn:Hsecret;
        cbn [negb andb].
      * destruct (Verification.verifyTimestamp (clock (ticks w)) (JS.Num t)) eqn:Hv;
          cbn [negb andb].
        -- split; [split|].
           ++ intros H401. exfalso.
              exact (v1_tail_not_401 client ghl clock _ _ _ _ H401).
           ++ intros (_ & t' & Heq & _ & Hold). exfalso.
              injection Heq as <-.
              apply verifyTimestamp_false in Hold. congruence.
           ++ intros H401. exfalso.
              exact (v1_tail_not_401 client ghl clock _ _ _ _ H401).
        -- split; [|intros _; repeat split].
           split; [|reflexivity].
           intros _. split; [reflexivity|]. exists t.
           split; [reflexivity|]. split; [exact Hnz|].
           apply verifyTimestamp_false. exact Hv.
      * split; [split|].
        -- intros H401. exfalso.
           exact (v1_tail_not_401 client ghl clock _ _ _ _ H401).
        -- intros (Habs & _). discriminate.
        -- intros H401. exfalso.
           exact (v1_tail_not_401 client ghl clock _ _ _ _ H401).
Qed.

Lemma v1_refuses_exactly_the_stale_timestamps_witness :
  (Response.status
     (fst (GHLWebhook_handle_v1 Sim.client (Sim.crm [Sim.lead]) Sim.clock
             Sim.hmac SimMore.parse_old (Sim.env (Some "s3cret"))
             Sim.unsigned_request Sim.world0)) = 401%Z
   <-> JS.truthy (Env.GHL_WEBHOOK_SECRET (Sim.env (Some "s3cret"))) = true
       /\ exists timestamp,
            Json.opt_prop (Some (SimMore.v1_json "ContactCreate" (Some 1%Z)))
              "timestamp" = Some (Json.JNum timestamp)
            /\ timestamp <> 0%Z
            /\ (Sim.clock (ticks Sim.world0) - timestamp < 0
                \/ Sim.clock (ticks Sim.world0) - timestamp > 300000)%Z)
  /\ (Response.status
        (fst (GHLWebhook_handle_v1 Sim.client (Sim.crm [Sim.lead]) Sim.clock
                Sim.hmac SimMore.parse_old (Sim.env (Some "s3cret"))
                Sim.unsigned_request Sim.world0)) = 401%Z ->
      db (snd (GHLWebhook_handle_v1 Sim.client (Sim.crm [Sim.lead]) Sim.clock
                 Sim.hmac SimMore.parse_old (Sim.env (Some "s3cret"))
                 Sim.unsigned_request Sim.world0)) = db Sim.world0
      /\ remote (snd (GHLWebhook_handle_v1 Sim.client (Sim.crm [Sim.lead])
                        Sim.clock Sim.hmac SimMore.parse_old
                        (Sim.env (Some "s3cret")) Sim.unsigned_request
                        Sim.world0)) = remote Sim.world0
      /\ calls (snd (GHLWebhook_handle_v1 Sim.client (Sim.crm [Sim.lead])
                       Sim.clock Sim.hmac SimMore.parse_old
                       (Sim.env (Some "s3cret")) Sim.unsigned_request
                       Sim.world0)) = calls Sim.world0).
Proof.
  apply (v1_refuses_exactly_the_stale_timestamps Sim.client (Sim.crm [Sim.lead])
           Sim.clock Sim.hmac SimMore.parse_old (Sim.env (Some "s3cret"))
           Sim.unsigned_request Sim.world0
           (SimMore.v1_json "ContactCreate" (Some 1%Z))).
  - reflexivity.
  - reflexivity.
  - vm_compute. reflexivity.
Defined.

(** X23.  POST /sync/trigger answers 200 with the counters of the batch,
    which add up to the number of contacts processed, or it answers 500
    with success = false and the world untouched: a batch that has begun
    is always answered 200, whatever happens to single contacts. *)
Theorem SyncTrigger_answers {R : Type}
    (client : CallToolsClient R) (ghl : GHLServer) (clock : nat -> Z)
    (env : Env.t) (fuel : nat) (w : World R)
    (reply : Reply.t SyncResult.t) (w' : World R) :
  SyncTrigger_handle client ghl clock env fuel w = Some (reply, w') ->
  (Reply.status reply = 200%Z
   /\ Reply.success reply = true
   /\ exists result,
        Reply.data reply = Some result
        /\ syncColdContacts client ghl clock fuel w = Some (inr result, w')
        /\ (SyncResult.synced result + SyncResult.updated result
            + SyncResult.excluded_customers result + SyncResult.failed result
            = SyncResult.total_processed result)%Z)
  \/ (Reply.status reply = 500%Z
      /\ Reply.success reply = false
      /\ Reply.data reply = None
      /\ w' = w).
Proof.
  unfold SyncTrigger_handle, reply_error.
  destruct (negb (JS.truthy (Env.GHL_API_KEY env)));
    [intros Heq; injection Heq as <- <-; right; repeat split|].
  destruct (negb (JS.truthy (Env.CALLTOOLS_API_KEY env)));
    [intros Heq; injection Heq as <- <-; right; repeat split|].
  destruct (construct client (Env.CALLTOOLS_API_KEY env));
    [intros Heq; injection Heq as <- <-; right; repeat split|].
  unfold syncColdContacts.
  destruct (getColdContactsExcludingCustomers ghl fuel) as [[e|coldContacts]|];
    [intros Heq; injection Heq as <- <-; right; repeat split | | discriminate].
  match goal with
  | |- context [sync_each _ _ _ _ ?r0 _] =>
      destruct (sync_each_spec client clock "11237" coldContacts r0 w)
        as (r' & w1 & Hrun & Htot & Hcnt & _)
  end.
  rewrite Hrun. intros Heq. injection Heq as <- <-. left.
  split; [reflexivity|]. split; [reflexivity|].
  exists r'. split; [reflexivity|]. split; [reflexivity|].
  unfold counted in Hcnt. simpl in Htot, Hcnt. lia.
Qed.

Lemma SyncTrigger_answers_witness :
  (Reply.status (reply_error (D:=SyncResult.t) "GoHighLevel API error: 500 - down")
   = 200%Z
   /\ Reply.success
        (reply_error (D:=SyncResult.t) "GoHighLevel API error: 500 - down") = true
   /\ exists result,
        Reply.data (reply_error "GoHighLevel API error: 500 - down") = Some result
        /\ syncColdContacts Sim.client SimMore.failing_crm Sim.clock 3 Sim.world0
           = Some (inr result, Sim.world0)
        /\ (SyncResult.synced result + SyncResult.updated result
            + SyncResult.excluded_customers result + SyncResult.failed result
            = SyncResult.total_processed result)%Z)
  \/ (Reply.status
        (reply_error (D:=SyncResult.t) "GoHighLevel API error: 500 - down") = 500%Z
      /\ Reply.success
           (reply_error (D:=SyncResult.t) "GoHighLevel API error: 500 - down") = false
      /\ Reply.data
           (reply_error (D:=SyncResult.t) "GoHighLevel API error: 500 - down") = None
      /\ Sim.world0 = Sim.world0).
Proof.
  apply (SyncTrigger_answers Sim.client SimMore.failing_crm Sim.clock
           (Sim.env None) 3 Sim.world0
           (reply_error "GoHighLevel API error: 500 - down") Sim.world0).
  reflexivity.
Defined.

(** X24.  The statistics route and the marking route build the service --
    and with it the dialer client of src/clients/calltools.ts -- before
    anything else.  Without a dialer key both answer 500 and leave the
    ledger alone, although neither talks to the dialer; with a key, the
    statistics route answers 200 with getSyncStats of the ledger, and the
    marking route answers 200 and marks the contact. *)
Theorem sync_routes_need_the_dialer_key {St : Type}
    (api : DialerApi St) (env : Env.t) (ghl_contact_id : string) (w : World St) :
  (JS.truthy (Env.CALLTOOLS_API_KEY env) = false ->
   Reply.status (fst (SyncStats_handle (CallTools.client api) env w)) = 500%Z
   /\ snd (SyncStats_handle (CallTools.client api) env w) = w
   /\ Reply.status
        (fst (MarkCustomer_handle (CallTools.client api) env ghl_contact_id w))
      = 500%Z
   /\ snd (MarkCustomer_handle (CallTools.client api) env ghl_contact_id w) = w)
  /\ (JS.truthy (Env.CALLTOOLS_API_KEY env) = true ->
      SyncStats_handle (CallTools.client api) env w
      = (Reply.mk 200 true None None (Some (getSyncStats (db w))), w)
      /\ Reply.status
           (fst (MarkCustomer_handle (CallTools.client api) env ghl_contact_id w))
         = 200%Z
      /\ snd (MarkCustomer_handle (CallTools.client api) env ghl_contact_id w)
         = mkWorld (Ledger.markAsCustomer ghl_contact_id (db w))
             (remote w) (calls w) (ticks w)).
Proof.
  unfold SyncStats_handle, MarkCustomer_handle, key_or_empty. simpl construct.
  unfold CallTools.constructor.
  destruct (Env.CALLTOOLS_API_KEY env) as [key|]; simpl.
  - destruct (String.eqb_spec key "") as [->|Hne]; simpl.
    + split; [intros _; repeat split | discriminate].
    + destruct (String.eqb_spec key ""); [contradiction|]. simpl.
      split; [discriminate | intros _; repeat split].
  - split; [intros _; repeat split | discriminate].
Qed.
